(** * Exploration scratchpad, thinking engine and intelligent thinking loop

    A shallow embedding of
      - [ExplorationScratchpad]      (src/core/task/tools/utils/ThinkingEngine.ts, second document),
      - [ThinkingEngine]             (same file, first document),
      - [IntelligentThinkingSystem]  (src/core/task/tools/utils/IntelligentThinkingSystem.ts),
      - [ReasoningToolHandler]       (the reasoning tool handler),
    together with the properties of the specification that concern them.

    Conventions of the embedding.
      - A JavaScript [number] that carries a confidence is a rational ([Q]);
        comparisons and [Math.min]/[Math.max] are exact.  Counters and
        millisecond times are integers ([Z]).
      - Strings are sequences of ASCII characters; [length], [substring] and
        [toLowerCase] are the ASCII ones.
      - Template literals are kept as lists of fragments ([Text]), so that
        the interpolated values stay visible and number/date formatting
        ([toFixed], [Math.round], [toLocaleString]) is not committed to.
      - [Date.now()] is an oracle: the k-th read returns [clock k]; the world
        counts the reads.  Every timing behaviour is one choice of [clock].
      - Objects with mutable fields become records threaded through a small
        state monad over [World]; the scratchpad is one shared component of
        the world, referenced by both the engine and the thinking system. *)

From Stdlib Require Import QArith Qminmax Qround Lqa ZArith String Ascii List Lia Permutation
  Sorted Bool.
From stdpp Require Import gmap strings.
Import ListNotations.

Local Open Scope Z_scope.

(** ** JavaScript primitives used by the code *)

Module JS.

(** [s.length > 0]: a string is truthy when it is not empty. *)
Definition truthy (s : string) : bool :=
  match s with EmptyString => false | String _ _ => true end.

(** [o || d] for an optional string. *)
Definition or_else (o : option string) (d : string) : string :=
  match o with
  | Some s => if truthy s then s else d
  | None => d
  end.

(** An optional string used as a condition ([if (filePath)]). *)
Definition truthy_opt (o : option string) : bool :=
  match o with Some s => truthy s | None => false end.

(** A number used as a condition: zero is falsy. *)
Definition truthy_num (q : Q) : bool := negb (Qeq_bool q 0).

Definition is_upper (c : ascii) : bool :=
  let n := N_of_ascii c in ((65 <=? n) && (n <=? 90))%N.

Definition lower_char (c : ascii) : ascii :=
  if is_upper c then ascii_of_N (N_of_ascii c + 32) else c.

(** [String.prototype.toLowerCase] on ASCII text. *)
Fixpoint toLowerCase (s : string) : string :=
  match s with
  | EmptyString => EmptyString
  | String c r => String (lower_char c) (toLowerCase r)
  end.

(** [s.substring(0, n)] *)
Definition substring0 (n : nat) (s : string) : string := substring 0 n s.

(** [s.includes(t)] *)
Fixpoint includes (t s : string) : bool :=
  String.prefix t s ||
  match s with
  | EmptyString => false
  | String _ r => includes t r
  end.

(** The double quote character, as a string. *)
Definition quote : string := String (ascii_of_nat 34) EmptyString.

Definition lt (a b : Q) : bool := negb (Qle_bool b a).
Definition le (a b : Q) : bool := Qle_bool a b.
Definition gt (a b : Q) : bool := lt b a.
Definition ge (a b : Q) : bool := le b a.

End JS.

(** ** Template literals *)

Inductive Frag : Type :=
| Lit (s : string)           (* literal text, or an interpolated string *)
| Int (z : Z)                (* an interpolated integer *)
| Fixed (digits : nat) (q : Q)  (* q.toFixed(digits) *)
| Rounded (q : Q)            (* Math.round(q) *)
| Num (q : Q)                (* a number interpolated as it is *)
| LocaleDate (t : Z).        (* new Date(t).toLocaleString() *)

Definition Text := list Frag.

(** ** Data model *)

(** The members of [ClineDefaultTool] that the code names.  The enum itself
    is declared in [@shared/tools]; the three exploration tools are the
    strings that [identifyPatterns] compares with. *)
Module ClineDefaultTool.
Definition FILE_READ : string := "read_file".
Definition SEARCH : string := "search_files".
Definition LIST_FILES : string := "list_files".
Definition FILE_EDIT : string := "replace_in_file".
Definition FILE_NEW : string := "write_to_file".
Definition REASONING : string := "reasoning_functions".
End ClineDefaultTool.

(** [ToolResponse]: a string, or an object seen through what the code
    observes of it: [String(result.content)] when it has a [content] field,
    and [JSON.stringify(result)]. *)
Inductive ToolResponse : Type :=
| TextResponse (s : string)
| ObjectResponse (content : option string) (json : string).

(** [params: any], seen through the fields the code reads. *)
Record ToolParams : Type := mkParams {
  p_regex : option string;
  p_query : option string;
  p_path : option string;
  p_json : string              (* JSON.stringify(params) *)
}.

Inductive Phase : Type := EXPLORE | THINK | EXECUTE.

(** [Omit<ExplorationEntry, "timestamp">] *)
Record EntryFields : Type := mkFields {
  toolName : string;
  query : string;
  result : ToolResponse;
  confidence : Q;
  tags : list string;
  filePath : option string;
  relevance : Q;
  toolParams : ToolParams
}.

(** [{ ...entry, timestamp }] *)
Record ExplorationEntry : Type := mkEntry {
  fields :> EntryFields;
  timestamp : Z
}.

Record ExplorationSummary : Type := mkSummary {
  totalEntries : Z;
  filesExplored : Z;
  searchQueries : Z;
  listOperations : Z;
  keyFindings : list string;
  confidenceScore : Q
}.

Record ExplorationScratchpad : Type := mkPad {
  entries : list ExplorationEntry;
  cache : gmap string ExplorationEntry;
  currentPhase : Phase;
  explorationStartTime : Z
}.

Record ThinkingStep : Type := mkStep {
  ts_timestamp : Z;
  ts_phase : Phase;
  ts_action : string;
  ts_reasoning : Text;
  ts_confidence : Q;
  ts_evidence : list Text;
  ts_nextActions : list string
}.

Record ThinkingEngine : Type := mkEngine {
  thinkingSteps : list ThinkingStep;
  startTime : Z;
  currentTask : string
}.

Inductive ThoughtPhase : Type := T_EXPLORE | T_THINK | T_EXECUTE | T_REFLECT.

Inductive ActionType : Type := AT_tool_use | AT_analysis | AT_decision.

(** The shapes of [actionParams] that the thinking system builds. *)
Inductive ActionParams : Type :=
| AP_type (t : string)
| AP_strategy (s : list string)
| AP_focus (f : string)
| AP_explorationStrategy (s : list string)
| AP_reflection_type (t : string).

(** [Omit<IntelligentThought, "id" | "timestamp">] *)
Record ThoughtData : Type := mkThoughtData {
  th_phase : ThoughtPhase;
  th_thought : Text;
  th_confidence : Q;
  th_evidence : list Text;
  th_triggersAction : bool;
  th_actionType : option ActionType;
  th_actionParams : option ActionParams;
  th_reflection : option Text
}.

(** A thought: its identifier is [thought_${Date.now()}_${random}], of which
    the time is kept. *)
Record IntelligentThought : Type := mkThought {
  th_id_time : Z;
  th_timestamp : Z;
  th_data :> ThoughtData
}.

Record ConversationContext : Type := mkContext {
  taskDescription : string;
  currentIteration : Z;
  totalIterations : Z;
  ctx_thoughtChain : list IntelligentThought;
  currentFocus : string;
  lastActionResult : option ToolResponse;
  convergenceLevel : Q
}.

Record IntelligentThinkingSystem : Type := mkSystem {
  thoughtChain : list IntelligentThought;
  conversationContext : ConversationContext;
  isThinkingActive : bool;
  convergenceThreshold : Q
}.

(** The world: the scratchpad shared by the engine and the thinking system,
    their private fields, and the clock. *)
Record World : Type := mkWorld {
  pad : ExplorationScratchpad;
  engine : ThinkingEngine;
  system : IntelligentThinkingSystem;
  clock : nat -> Z;
  reads : nat
}.

(** ** The state monad of the methods *)

Definition M (A : Type) : Type := World -> A * World.

Definition ret {A} (a : A) : M A := fun w => (a, w).

Definition bind {A B} (m : M A) (k : A -> M B) : M B :=
  fun w => let (a, w') := m w in k a w'.

Notation "'do' x <- m ; k" := (bind m (fun x => k))
  (at level 10, x name, m at level 100, k at level 200, only parsing).
Notation "'run' m ; k" := (bind m (fun _ => k))
  (at level 10, m at level 100, k at level 200, only parsing).

Definition get_pad : M ExplorationScratchpad := fun w => (pad w, w).
Definition get_engine : M ThinkingEngine := fun w => (engine w, w).
Definition get_system : M IntelligentThinkingSystem := fun w => (system w, w).

Definition put_pad (p : ExplorationScratchpad) : M unit :=
  fun w => (tt, mkWorld p (engine w) (system w) (clock w) (reads w)).
Definition put_engine (e : ThinkingEngine) : M unit :=
  fun w => (tt, mkWorld (pad w) e (system w) (clock w) (reads w)).
Definition put_system (s : IntelligentThinkingSystem) : M unit :=
  fun w => (tt, mkWorld (pad w) (engine w) s (clock w) (reads w)).

(** [Date.now()] *)
Definition Date_now : M Z :=
  fun w => (clock w (reads w),
            mkWorld (pad w) (engine w) (system w) (clock w) (S (reads w))).

(** ** ExplorationScratchpad *)

Local Open Scope Q_scope.

(** [generateCacheKey] *)
Definition generateCacheKey (toolName query : string) (filePath : option string) : string :=
  let baseKey := toolName +:+ ":" +:+ query in
  let baseKey :=
    match filePath with
    | Some fp => if JS.truthy fp then baseKey +:+ ":" +:+ fp else baseKey
    | None => baseKey
    end in
  JS.toLowerCase baseKey.

(** [entries.sort((a, b) => b.timestamp - a.timestamp)]: the sort is stable
    and orders by decreasing timestamp. *)
Fixpoint insert_newest_first (x : ExplorationEntry) (l : list ExplorationEntry)
  : list ExplorationEntry :=
  match l with
  | [] => [x]
  | y :: r =>
      if (timestamp x <? timestamp y)%Z then y :: insert_newest_first x r
      else x :: y :: r
  end.

Definition sort_newest_first (l : list ExplorationEntry) : list ExplorationEntry :=
  fold_right insert_newest_first [] l.

(** [addEntry] *)
Definition addEntry (entry : EntryFields) : M unit :=
  do timestamp <- Date_now;
  do p <- get_pad;
  let fullEntry := mkEntry entry timestamp in
  let cacheKey := generateCacheKey (toolName entry) (query entry) (filePath entry) in
  put_pad (mkPad (sort_newest_first (entries p ++ [fullEntry]))
                 (<[cacheKey := fullEntry]> (cache p))
                 (currentPhase p)
                 (explorationStartTime p)).

(** [hasExplored] *)
Definition hasExplored (p : ExplorationScratchpad)
  (toolName query : string) (filePath : option string) : bool :=
  let cacheKey := generateCacheKey toolName query filePath in
  match cache p !! cacheKey with Some _ => true | None => false end.

(** [getCachedResult] *)
Definition getCachedResult (p : ExplorationScratchpad)
  (toolName query : string) (filePath : option string) : option ExplorationEntry :=
  let cacheKey := generateCacheKey toolName query filePath in
  cache p !! cacheKey.

(** [getEntries()] without a filter *)
Definition getEntries (p : ExplorationScratchpad) : list ExplorationEntry := entries p.

Definition count (f : ExplorationEntry -> bool) (l : list ExplorationEntry) : Z :=
  Z.of_nat (length (List.filter f l)).

Definition keyFinding (entry : ExplorationEntry) : string :=
  match result entry with
  | TextResponse s => JS.substring0 100 s +:+ "..."
  | ObjectResponse (Some content) _ => JS.substring0 100 content +:+ "..."
  | ObjectResponse None _ => "Explored " +:+ toolName entry +:+ " for " +:+ query entry
  end.

(** [generateSummary] *)
Definition generateSummary (p : ExplorationScratchpad) : ExplorationSummary :=
  let filesExplored :=
    count (fun entry : ExplorationEntry => String.eqb (toolName entry) ClineDefaultTool.FILE_READ
                        || String.eqb (toolName entry) ClineDefaultTool.LIST_FILES)
          (entries p) in
  let searchQueries :=
    count (fun entry : ExplorationEntry => String.eqb (toolName entry) ClineDefaultTool.SEARCH) (entries p) in
  let listOperations :=
    count (fun entry : ExplorationEntry => String.eqb (toolName entry) ClineDefaultTool.LIST_FILES) (entries p) in
  let highConfidenceEntries :=
    List.filter (fun entry : ExplorationEntry => JS.gt (confidence entry) 0.8) (entries p) in
  let keyFindings := map keyFinding highConfidenceEntries in
  let totalConfidence := fold_left (fun (sum : Q) (entry : ExplorationEntry) => sum + confidence entry)
              (entries p) 0 in
  let confidenceScore :=
    if (0 <? Z.of_nat (length (entries p)))%Z
    then totalConfidence / inject_Z (Z.of_nat (length (entries p)))
    else 0 in
  {| totalEntries := Z.of_nat (length (entries p));
     filesExplored := filesExplored;
     searchQueries := searchQueries;
     listOperations := listOperations;
     keyFindings := keyFindings;
     confidenceScore := confidenceScore |}.

(** [getExplorationDuration] *)
Definition getExplorationDuration : M Z :=
  do now <- Date_now;
  do p <- get_pad;
  ret (now - explorationStartTime p)%Z.

(** [identifyProblemScope] *)
Definition identifyProblemScope (summary : ExplorationSummary) : Text :=
  if (totalEntries summary <? 2)%Z then [Lit "Too early to determine scope"]
  else [Lit "Exploring "; Int (filesExplored summary); Lit " files with ";
        Int (searchQueries summary); Lit " searches"].

(** [evaluateEvidenceQuality] *)
Definition evaluateEvidenceQuality (summary : ExplorationSummary) : Text :=
  let quality :=
    if JS.gt (confidenceScore summary) 0.8 then "High"
    else if JS.gt (confidenceScore summary) 0.6 then "Medium" else "Low" in
  [Lit quality; Lit " quality ("; Rounded (confidenceScore summary * 100);
   Lit "% confidence)"].

(** [identifyPatterns] *)
Definition identifyPatterns (p : ExplorationScratchpad) : string :=
  let fileReads := count (fun e : ExplorationEntry => String.eqb (toolName e) "read_file") (entries p) in
  let searches := count (fun e : ExplorationEntry => String.eqb (toolName e) "search_files") (entries p) in
  let lists := count (fun e : ExplorationEntry => String.eqb (toolName e) "list_files") (entries p) in
  if (searches + lists <? fileReads)%Z then "Code-focused exploration"
  else if (fileReads + lists <? searches)%Z then "Search-driven investigation"
  else if (fileReads + searches <? lists)%Z then "Structure mapping"
  else "Balanced exploration approach".

(** [performDeepAnalysis] *)
Definition performDeepAnalysis (summary : ExplorationSummary) : M Text :=
  do duration <- getExplorationDuration;
  let efficiency := inject_Z (totalEntries summary) / Qmax (inject_Z duration / 1000) 1 in
  ret [Lit "Analysis efficiency: "; Fixed 2 efficiency; Lit " actions/second"].

(** [calculateSophisticatedConfidence] *)
Definition calculateSophisticatedConfidence (summary : ExplorationSummary) (iterations : Z)
  : M Q :=
  let baseConfidence := confidenceScore summary in
  let explorationDepth := Qmin 1 (inject_Z (totalEntries summary) / 10) in
  let iterationBonus := Qmin 0.2 (inject_Z iterations * 0.05) in
  do duration <- getExplorationDuration;
  let timeBonus := Qmin 0.1 (inject_Z duration / 60000) in
  ret (Qmin 1 (baseConfidence * explorationDepth + iterationBonus + timeBonus)).

(** [Array.prototype.join] on strings and on texts *)
Fixpoint join (sep : string) (l : list string) : string :=
  match l with
  | [] => EmptyString
  | [x] => x
  | x :: r => x +:+ sep +:+ join sep r
  end.

Fixpoint joinText (sep : string) (l : list Text) : Text :=
  match l with
  | [] => []
  | [x] => x
  | x :: r => x ++ Lit sep :: joinText sep r
  end.

(** [generateConclusion] *)
Definition generateConclusion (summary : ExplorationSummary) : Text :=
  if (totalEntries summary =? 0)%Z then [Lit "No exploration data available"]
  else
    let findings : list Text :=
      [ [Lit "Explored "; Int (totalEntries summary); Lit " items"];
        [Lit "Found "; Int (filesExplored summary); Lit " relevant files"];
        [Lit "Performed "; Int (searchQueries summary); Lit " search queries"];
        [Lit "Overall confidence: "; Fixed 1 (confidenceScore summary * 100); Lit "%"] ] in
    let findings :=
      if (0 <? Z.of_nat (length (keyFindings summary)))%Z
      then findings ++ [[Lit "Key findings: "; Lit (join ", " (firstn 3 (keyFindings summary)))]]
      else findings in
    joinText ". " findings ++ [Lit ". Ready to proceed with execution."].

(** [generateDetailedConclusion] *)
Definition generateDetailedConclusion (p : ExplorationScratchpad)
  (summary : ExplorationSummary) (reasoningSteps : list Text) : Text :=
  let conclusion := generateConclusion summary in
  let patterns := identifyPatterns p in
  let evidenceQuality := evaluateEvidenceQuality summary in
  conclusion ++ [Lit "\n\nAnalysis Summary:\n- Evidence Quality: "] ++ evidenceQuality
    ++ [Lit "\n- Exploration Pattern: "; Lit patterns;
        Lit "\n- Reasoning Iterations: "; Int (Z.of_nat (length reasoningSteps));
        Lit "\n- Total Data Points: "; Int (totalEntries summary)].

(** The [switch (iterations)] of [toughReasoning]: the line of the iteration. *)
Definition reasoningLine (iterations : Z) (summary : ExplorationSummary) : M Text :=
  if (iterations =? 1)%Z then
    ret (Lit "  - Problem scope: " :: identifyProblemScope summary)
  else if (iterations =? 2)%Z then
    ret (Lit "  - Evidence quality: " :: evaluateEvidenceQuality summary)
  else if (iterations =? 3)%Z then
    do p <- get_pad;
    ret [Lit "  - Patterns identified: "; Lit (identifyPatterns p)]
  else
    do deep <- performDeepAnalysis summary;
    ret (Lit "  - Deep analysis: " :: deep).

Record ToughResult : Type := mkTough {
  conclusion : Text;
  tr_confidence : Q;
  iterations : Z;
  reasoningSteps : list Text
}.

(** The body of the [for] loop of [toughReasoning], [remaining] iterations
    before the loop condition [iterations <= maxIterations] fails.  The
    locals [currentConfidence], [iterations], [conclusion] and
    [reasoningSteps] are the accumulators. *)
Fixpoint toughLoop (remaining : nat) (minConfidence : Q)
  (currentConfidence : Q) (iterations : Z) (conclusion : Text) (reasoningSteps : list Text)
  : M ToughResult :=
  match remaining with
  | O => ret (mkTough conclusion currentConfidence iterations reasoningSteps)
  | S remaining' =>
      do p <- get_pad;
      let summary := generateSummary p in
      let reasoningSteps :=
        reasoningSteps ++ [[Lit "Iteration "; Int iterations; Lit ": Analyzing ";
                            Int (totalEntries summary); Lit " exploration entries"]] in
      do line <- reasoningLine iterations summary;
      let reasoningSteps := reasoningSteps ++ [line] in
      do currentConfidence <- calculateSophisticatedConfidence summary iterations;
      if JS.ge currentConfidence minConfidence then
        do p <- get_pad;
        let conclusion := generateDetailedConclusion p summary reasoningSteps in
        let reasoningSteps :=
          reasoningSteps ++ [[Lit "  - Final conclusion reached with ";
                              Rounded (currentConfidence * 100); Lit "% confidence"]] in
        ret (mkTough conclusion currentConfidence iterations reasoningSteps)
      else
        toughLoop remaining' minConfidence currentConfidence (iterations + 1)%Z
                  conclusion reasoningSteps
  end.

(** [toughReasoning]: [for (iterations = 1; iterations <= maxIterations; iterations++)]
    runs its body at most [maxIterations] times. *)
Definition toughReasoning (maxIterations : Z) (minConfidence : Q) : M ToughResult :=
  toughLoop (Z.to_nat maxIterations) minConfidence
            0 1%Z [Lit "Insufficient data for conclusion"] [].

(** [transitionToNextPhase] *)
Definition nextPhase (ph : Phase) : Phase :=
  match ph with
  | EXPLORE => THINK
  | THINK => EXECUTE
  | EXECUTE => EXECUTE
  end.

Definition transitionToNextPhase : M unit :=
  do p <- get_pad;
  put_pad (mkPad (entries p) (cache p) (nextPhase (currentPhase p)) (explorationStartTime p)).

(** [getCurrentPhase] *)
Definition getCurrentPhase (p : ExplorationScratchpad) : Phase := currentPhase p.

(** [reset] *)
Definition reset : M unit :=
  do now <- Date_now;
  put_pad (mkPad [] ∅ EXPLORE now).

(** [new ExplorationScratchpad()] at time [now] *)
Definition newScratchpad (now : Z) : ExplorationScratchpad := mkPad [] ∅ EXPLORE now.

(** ** ThinkingEngine *)

(** [addThinkingStep] (the console log is not part of the state) *)
Definition addThinkingStep (phase : Phase) (action : string) (reasoning : Text)
  (confidence : Q) (evidence : list Text) (nextActions : list string) : M unit :=
  do now <- Date_now;
  let step := mkStep now phase action reasoning confidence evidence nextActions in
  do e <- get_engine;
  put_engine (mkEngine (thinkingSteps e ++ [step]) (startTime e) (currentTask e)).

(** [initializeTask] *)
Definition initializeTask (task : string) : M unit :=
  do now <- Date_now;
  run put_engine (mkEngine [] now task);
  run addThinkingStep EXPLORE "task_received"
        [Lit "Nova tarefa recebida: "; Lit JS.quote; Lit task; Lit JS.quote;
         Lit ". Preciso avaliar meu conhecimento atual."]
        0.5 []
        ["Verificar se já tenho dados relevantes no scratchpad";
         "Determinar estratégia inicial de exploração";
         "Avaliar complexidade da tarefa"];
  do p <- get_pad;
  let summary := generateSummary p in
  if (totalEntries summary =? 0)%Z then
    addThinkingStep EXPLORE "no_prior_knowledge"
      [Lit "Não tenho conhecimento prévio desta tarefa. Devo iniciar exploração sistemática."]
      0.3 []
      ["Executar auto-exploração para entender contexto";
       "Ler arquivos de configuração principais";
       "Mapear estrutura do projeto"]
  else ret tt.

(** [extractQueryFromTool] *)
Definition extractQueryFromTool (toolName : string) (params : ToolParams) : string :=
  if String.eqb toolName ClineDefaultTool.SEARCH then
    JS.or_else (p_regex params) (JS.or_else (p_query params) EmptyString)
  else if String.eqb toolName ClineDefaultTool.FILE_READ then
    JS.or_else (p_path params) EmptyString
  else if String.eqb toolName ClineDefaultTool.LIST_FILES then
    JS.or_else (p_path params) EmptyString
  else p_json params.

Definition string_in (s : string) (l : list string) : bool :=
  existsb (String.eqb s) l.

Definition explorationTools : list string :=
  [ClineDefaultTool.SEARCH; ClineDefaultTool.FILE_READ; ClineDefaultTool.LIST_FILES].

Definition modificationTools : list string :=
  [ClineDefaultTool.FILE_EDIT; ClineDefaultTool.FILE_NEW].

Definition Phase_eqb (a b : Phase) : bool :=
  match a, b with
  | EXPLORE, EXPLORE | THINK, THINK | EXECUTE, EXECUTE => true
  | _, _ => false
  end.

(** [evaluateToolRelevance] *)
Definition evaluateToolRelevance (toolName : string) (currentPhase : Phase)
  (summary : ExplorationSummary) : Q :=
  if Phase_eqb currentPhase EXPLORE && string_in toolName explorationTools then 0.9
  else if Phase_eqb currentPhase EXECUTE && string_in toolName modificationTools then
    (if JS.gt (confidenceScore summary) 0.7 then 0.9 else 0.5)
  else if String.eqb toolName ClineDefaultTool.REASONING then 0.95
  else 0.6.

(** [hasSufficientEvidenceForAction] *)
Definition hasSufficientEvidenceForAction (toolName : string) (summary : ExplorationSummary)
  : bool :=
  if string_in toolName explorationTools then true
  else if string_in toolName modificationTools then
    JS.gt (confidenceScore summary) 0.8 && (5 <? totalEntries summary)%Z
  else (0 <? totalEntries summary)%Z.

Definition phaseName (ph : Phase) : string :=
  match ph with EXPLORE => "EXPLORE" | THINK => "THINK" | EXECUTE => "EXECUTE" end.

(** [buildActionReasoning] *)
Definition buildActionReasoning (toolName : string) (params : ToolParams) (relevance : Q)
  (sufficientEvidence : bool) (currentPhase : Phase) : Text :=
  let reasoning := [Lit "Avaliando execução de "; Lit toolName] in
  let reasoning :=
    if JS.gt relevance 0.8 then
      reasoning ++ [Lit " - ferramenta altamente relevante para fase atual"]
    else if JS.lt relevance 0.5 then
      reasoning ++ [Lit " - ferramenta tem baixa relevância, mas pode ser necessária"]
    else reasoning in
  let reasoning :=
    if negb sufficientEvidence then
      reasoning ++ [Lit ". Atenção: evidências podem ser insuficientes para ação decisiva"]
    else reasoning in
  reasoning ++ [Lit ". Fase atual: "; Lit (phaseName currentPhase)].

(** [calculateActionConfidence] *)
Definition calculateActionConfidence (toolRelevance : Q) (sufficientEvidence : bool)
  (scratchpadConfidence : Q) : Q :=
  let confidence := (toolRelevance + scratchpadConfidence) / 2 in
  let confidence := if negb sufficientEvidence then confidence * 0.8 else confidence in
  Qmin 1 confidence.

(** [calculateResultConfidence] *)
Definition calculateResultConfidence (result : ToolResponse) : Q :=
  match result with
  | TextResponse s =>
      if JS.includes "error" s || JS.includes "not found" s then 0.3
      else if (100 <? String.length s)%nat then 0.9
      else 0.7
  | ObjectResponse _ _ => 0.8
  end.

(** [generateResultTags] *)
Definition generateResultTags (toolName : string) (params : ToolParams) : list string :=
  let tags := [toolName] in
  let tags := if JS.truthy_opt (p_path params) then tags ++ ["file_specific"] else tags in
  let tags :=
    if String.eqb toolName ClineDefaultTool.SEARCH then tags ++ ["search"; "discovery"]
    else tags in
  let tags :=
    if String.eqb toolName ClineDefaultTool.FILE_READ then tags ++ ["content_analysis"]
    else tags in
  if String.eqb toolName ClineDefaultTool.LIST_FILES then tags ++ ["structure_mapping"]
  else tags.

(** [extractInsightsFromResult] *)
Definition extractInsightsFromResult (toolName : string) (result : ToolResponse)
  (params : ToolParams) : list string :=
  let insights :=
    match result with
    | TextResponse s =>
        (if JS.includes "package.json" s
         then ["Encontrado arquivo de configuração principal"] else [])
        ++ (if JS.includes "src/" s || JS.includes "lib/" s
            then ["Identificada estrutura de código fonte"] else [])
        ++ (if JS.includes "error" s || JS.includes "not found" s
            then ["Resultado indica possível problema ou ausência"] else [])
        ++ (if (500 <? String.length s)%nat
            then ["Resultado rico em informações"] else [])
    | ObjectResponse _ _ => []
    end in
  if (0 <? length insights)%nat then insights
  else ["Resultado processado sem insights específicos"].

(** [ThinkingEngine.shouldTransitionPhase] *)
Definition shouldTransitionPhase (currentPhase : Phase) (summary : ExplorationSummary)
  : bool :=
  match currentPhase with
  | EXPLORE => (5 <=? totalEntries summary)%Z && JS.gt (confidenceScore summary) 0.7
  | THINK => JS.gt (confidenceScore summary) 0.85
  | EXECUTE => false
  end.

(** [suggestNextActions] *)
Definition suggestNextActions (currentPhase : Phase) (insights : list string)
  (summary : ExplorationSummary) (shouldTransition : bool) : list string :=
  if shouldTransition then
    match currentPhase with
    | EXPLORE => ["Transitar para THINK - analisar dados coletados";
                  "Usar exploration_summary() para síntese"]
    | THINK => ["Transitar para EXECUTE - implementar solução";
                "Criar plano de ação baseado em evidências"]
    | EXECUTE => []
    end
  else
    match currentPhase with
    | EXPLORE =>
        (if (filesExplored summary =? 0)%Z
         then ["Explorar arquivos de configuração principais"] else [])
        ++ (if (searchQueries summary =? 0)%Z
            then ["Realizar buscas por funcionalidades chave"] else [])
    | THINK => ["Continuar análise - executar tough_reasoning()"]
    | EXECUTE => ["Implementar mudanças planejadas"]
    end.

(** [ThinkingEngine.truncateResult] *)
Definition truncateResult (result : ToolResponse) : string :=
  let str := match result with TextResponse s => s | ObjectResponse _ json => json end in
  if (100 <? String.length str)%nat then JS.substring0 100 str +:+ "..." else str.

Record ActionVerdict : Type := mkVerdict {
  shouldProceed : bool;
  av_reasoning : Text;
  av_confidence : Q
}.

(** [thinkBeforeAction] *)
Definition thinkBeforeAction (toolName : string) (params : ToolParams) : M ActionVerdict :=
  do p <- get_pad;
  let currentPhase := getCurrentPhase p in
  let summary := generateSummary p in
  let query := extractQueryFromTool toolName params in
  let hasCached := hasExplored p toolName query (p_path params) in
  if hasCached then
    let cachedResult := getCachedResult p toolName query (p_path params) in
    let cachedConfidence (fallback : Q) : Q :=
      match cachedResult with
      | Some e => if JS.truthy_num (confidence e) then confidence e else fallback
      | None => fallback
      end in
    run addThinkingStep currentPhase "cache_check"
          [Lit "Já executei "; Lit toolName;
           Lit " com parâmetros similares. Usarei resultado cacheado para eficiência."]
          0.9
          [ [Lit "Resultado anterior: ";
             Lit (match cachedResult with
                  | Some e => truncateResult (result e)
                  | None => EmptyString end)];
            [Lit "Confiança do cache: "; Num (cachedConfidence 0 * 100); Lit "%"] ]
          [];
    ret (mkVerdict false [Lit "Resultado cacheado disponível"] (cachedConfidence 0.8))
  else
    let toolRelevance := evaluateToolRelevance toolName currentPhase summary in
    let sufficientEvidence := hasSufficientEvidenceForAction toolName summary in
    let reasoning :=
      buildActionReasoning toolName params toolRelevance sufficientEvidence currentPhase in
    let confidence :=
      calculateActionConfidence toolRelevance sufficientEvidence (confidenceScore summary) in
    run addThinkingStep currentPhase "tool_evaluation" reasoning confidence
          [ [Lit "Ferramenta: "; Lit toolName];
            [Lit "Relevância: ";
             Lit (if JS.gt toolRelevance 0.7 then "Alta"
                  else if JS.gt toolRelevance 0.5 then "Média" else "Baixa")];
            [Lit "Evidências suficientes: "; Lit (if sufficientEvidence then "Sim" else "Não")];
            [Lit "Fase atual: "; Lit (phaseName currentPhase)] ]
          [];
    let shouldProceed := JS.gt confidence 0.6 in
    ret (mkVerdict shouldProceed reasoning confidence).

Record ResultAnalysis : Type := mkAnalysis {
  insights : list string;
  shouldTransition : bool;
  nextActions : list string
}.

(** [analyzeResult] *)
Definition analyzeResult (toolName : string) (params : ToolParams) (result : ToolResponse)
  : M ResultAnalysis :=
  do p <- get_pad;
  let currentPhase := getCurrentPhase p in
  let summary := generateSummary p in
  run addEntry {| toolName := toolName;
                  query := extractQueryFromTool toolName params;
                  result := result;
                  confidence := calculateResultConfidence result;
                  tags := generateResultTags toolName params;
                  filePath := p_path params;
                  relevance := 1.0;
                  toolParams := params |};
  let insights := extractInsightsFromResult toolName result params in
  let shouldTransition := shouldTransitionPhase currentPhase summary in
  let nextActions := suggestNextActions currentPhase insights summary shouldTransition in
  let reasoning :=
    [Lit "Analisei resultado de "; Lit toolName; Lit ". ";
     Int (Z.of_nat (length insights)); Lit " insights extraídos. ";
     Lit (if shouldTransition then "Pronto para transitar de fase."
          else "Continuando na fase atual.")] in
  run addThinkingStep currentPhase "result_analysis" reasoning (confidenceScore summary)
        (map (fun s => [Lit s]) insights) nextActions;
  ret (mkAnalysis insights shouldTransition nextActions).

Record DecisionContext : Type := mkDecisionContext {
  dc_task : string;
  dc_currentPhase : Phase;
  dc_availableEvidence : list ExplorationEntry;
  dc_confidence : Q;
  dc_timeSpent : Z;
  dc_previousDecisions : list ThinkingStep
}.

(** [buildDecisionContext] *)
Definition buildDecisionContext : M DecisionContext :=
  do e <- get_engine;
  do p <- get_pad;
  do now <- Date_now;
  ret (mkDecisionContext (currentTask e) (getCurrentPhase p) (getEntries p)
         (confidenceScore (generateSummary p)) (now - startTime e)%Z (thinkingSteps e)).

Record FinalDecision : Type := mkDecision {
  fd_decision : string;
  fd_confidence : Q;
  fd_actionPlan : list string;
  fd_reasoning : Text
}.

(** [generateFinalDecision]: decision, confidence and action plan *)
Definition generateFinalDecision (context : DecisionContext)
  : M (string * Q * list string) :=
  do p <- get_pad;
  let summary := generateSummary p in
  let '(decision, actionPlan) :=
    if JS.gt (confidenceScore summary) 0.9 then
      ("Solução clara identificada com alta confiança",
       ["Executar mudanças necessárias"; "Validar implementação"; "Testar funcionalidade"])
    else if JS.gt (confidenceScore summary) 0.7 then
      ("Solução identificada com confiança moderada",
       ["Implementar solução proposta"; "Verificar se resolve o problema";
        "Preparar ajustes se necessário"])
    else
      ("Mais análise necessária antes de decisão final",
       ["Continuar exploração"; "Coletar mais evidências"; "Reavaliar abordagem"]) in
  ret (decision, confidenceScore summary, actionPlan).

(** [makeFinalDecision] *)
Definition makeFinalDecision : M FinalDecision :=
  do p <- get_pad;
  let summary := generateSummary p in
  run (if JS.lt (confidenceScore summary) 0.8 then
         do toughResult <- toughReasoning 5 0.85;
         addThinkingStep THINK "tough_reasoning"
           (Lit "Executei raciocínio profundo: " :: conclusion toughResult)
           (tr_confidence toughResult)
           [ [Lit "Iterações: "; Int (iterations toughResult)];
             [Lit "Passos de raciocínio: ";
              Int (Z.of_nat (length (reasoningSteps toughResult)))] ]
           []
       else ret tt);
  do decisionContext <- buildDecisionContext;
  do d <- generateFinalDecision decisionContext;
  let '(decision, confidence, actionPlan) := d in
  let reasoning :=
    [Lit "Com base em "; Int (totalEntries summary);
     Lit " pontos de evidência e confiança de "; Fixed 1 (confidenceScore summary * 100);
     Lit "%, decidi: "; Lit decision] in
  run addThinkingStep EXECUTE "final_decision" reasoning confidence
        [ [Lit "Evidências totais: "; Int (totalEntries summary)];
          [Lit "Arquivos explorados: "; Int (filesExplored summary)];
          [Lit "Descobertas chave: "; Int (Z.of_nat (length (keyFindings summary)))] ]
        actionPlan;
  ret (mkDecision decision confidence actionPlan reasoning).

(** ** IntelligentThinkingSystem *)

Definition set_context (f : ConversationContext -> ConversationContext) : M unit :=
  do s <- get_system;
  put_system (mkSystem (thoughtChain s) (f (conversationContext s))
                       (isThinkingActive s) (convergenceThreshold s)).

Definition set_isThinkingActive (b : bool) : M unit :=
  do s <- get_system;
  put_system (mkSystem (thoughtChain s) (conversationContext s) b (convergenceThreshold s)).

(** [updateFocusBasedOnThought] *)
Definition updateFocusBasedOnThought (thought : IntelligentThought) : M unit :=
  let focus :=
    match th_phase thought with
    | T_EXPLORE => "data_collection"
    | T_THINK => "analysis"
    | T_EXECUTE => "decision_making"
    | T_REFLECT => "learning"
    end in
  set_context (fun c =>
    mkContext (taskDescription c) (currentIteration c) (totalIterations c)
              (ctx_thoughtChain c) focus (lastActionResult c) (convergenceLevel c)).

(** [addThought] *)
Definition addThought (thoughtData : ThoughtData) : M unit :=
  do idTime <- Date_now;
  do timestamp <- Date_now;
  let thought := mkThought idTime timestamp thoughtData in
  do s <- get_system;
  let c := conversationContext s in
  run put_system
        (mkSystem (thoughtChain s ++ [thought])
           (mkContext (taskDescription c) (currentIteration c) (totalIterations c)
              (ctx_thoughtChain c ++ [thought]) (currentFocus c) (lastActionResult c)
              (convergenceLevel c))
           (isThinkingActive s) (convergenceThreshold s));
  updateFocusBasedOnThought thought.

(** [new IntelligentThinkingSystem(...)] *)
Definition newSystem : IntelligentThinkingSystem :=
  mkSystem [] (mkContext EmptyString 0 0 [] "task_understanding" None 0) false 0.85.

(** [initializeIntelligentThinking] *)
Definition initializeIntelligentThinking (task : string) : M unit :=
  run set_context (fun c =>
        mkContext task 0 (totalIterations c) (ctx_thoughtChain c) (currentFocus c)
                  (lastActionResult c) (convergenceLevel c));
  run set_isThinkingActive true;
  run addThought
        {| th_phase := T_THINK;
           th_thought := [Lit "Nova tarefa recebida: "; Lit JS.quote; Lit task; Lit JS.quote;
                          Lit ". Preciso entender profundamente o que está sendo pedido."];
           th_confidence := 0.5;
           th_evidence := [];
           th_triggersAction := false;
           th_actionType := None; th_actionParams := None; th_reflection := None |};
  do p <- get_pad;
  let currentKnowledge := generateSummary p in
  addThought
    {| th_phase := T_THINK;
       th_thought := [Lit "Avaliando meu conhecimento atual: ";
                      Int (totalEntries currentKnowledge);
                      Lit " pontos de dados coletados, confiança de ";
                      Fixed 1 (confidenceScore currentKnowledge * 100); Lit "%."];
       th_confidence := confidenceScore currentKnowledge;
       th_evidence := map (fun s => [Lit s]) (keyFindings currentKnowledge);
       th_triggersAction := true;
       th_actionType := Some AT_analysis;
       th_actionParams := Some (AP_type "knowledge_assessment");
       th_reflection := None |}.

Record SituationAnalysis : Type := mkSituation {
  needsMoreExploration : bool;
  needsDeepReasoning : bool;
  canMakeDecision : bool;
  explorationStrategy : list string;
  reasoningFocus : string
}.

(** [analyzeCurrentSituation] *)
Definition analyzeCurrentSituation : M SituationAnalysis :=
  do p <- get_pad;
  let summary := generateSummary p in
  let currentPhase := getCurrentPhase p in
  do s <- get_system;
  let iteration := currentIteration (conversationContext s) in
  let analysisThought :=
    [Lit "Análise da iteração "; Int iteration; Lit ": "; Int (totalEntries summary);
     Lit " dados coletados, confiança "; Fixed 1 (confidenceScore summary * 100);
     Lit "%, fase "; Lit (phaseName currentPhase); Lit "."] in
  if (totalEntries summary <? 3)%Z && Phase_eqb currentPhase EXPLORE then
    let explorationStrategy := ["auto_explore"; "read_key_files"; "search_patterns"] in
    run addThought
          {| th_phase := T_THINK;
             th_thought := analysisThought
               ++ [Lit " Ainda preciso explorar mais para entender o contexto."];
             th_confidence := confidenceScore summary;
             th_evidence := [[Lit "Poucos dados: "; Int (totalEntries summary);
                              Lit " entradas"]];
             th_triggersAction := true;
             th_actionType := Some AT_analysis;
             th_actionParams := Some (AP_strategy explorationStrategy);
             th_reflection := None |};
    ret (mkSituation true false false explorationStrategy EmptyString)
  else if JS.lt (confidenceScore summary) 0.7 && Phase_eqb currentPhase THINK then
    let reasoningFocus := "evidence_evaluation" in
    run addThought
          {| th_phase := T_THINK;
             th_thought := analysisThought
               ++ [Lit " Confiança ainda baixa, preciso raciocinar mais profundamente."];
             th_confidence := confidenceScore summary;
             th_evidence := [[Lit "Confiança baixa: ";
                              Fixed 1 (confidenceScore summary * 100); Lit "%"]];
             th_triggersAction := true;
             th_actionType := Some AT_analysis;
             th_actionParams := Some (AP_focus reasoningFocus);
             th_reflection := None |};
    ret (mkSituation false true false [] reasoningFocus)
  else if JS.ge (confidenceScore summary) 0.8 || (5 <=? iteration)%Z then
    run addThought
          {| th_phase := T_THINK;
             th_thought := analysisThought
               ++ [Lit " Tenho informações suficientes para tomar uma decisão."];
             th_confidence := confidenceScore summary;
             th_evidence := [[Lit "Confiança adequada: ";
                              Fixed 1 (confidenceScore summary * 100); Lit "%"];
                             [Lit "Iteração "; Int iteration]];
             th_triggersAction := false;
             th_actionType := None; th_actionParams := None; th_reflection := None |};
    ret (mkSituation false false true [] EmptyString)
  else
    let explorationStrategy := ["targeted_search"; "deep_file_analysis"] in
    run addThought
          {| th_phase := T_THINK;
             th_thought := analysisThought ++ [Lit " Vou explorar de forma mais direcionada."];
             th_confidence := confidenceScore summary;
             th_evidence := [[Lit "Estratégia direcionada necessária"]];
             th_triggersAction := true;
             th_actionType := Some AT_analysis;
             th_actionParams := Some (AP_strategy explorationStrategy);
             th_reflection := None |};
    ret (mkSituation true false false explorationStrategy EmptyString).

(** [for (const x of xs) await f(x)] *)
Fixpoint forEachM {A} (f : A -> M unit) (l : list A) : M unit :=
  match l with
  | [] => ret tt
  | x :: r => run f x; forEachM f r
  end.

(** [performIntelligentExploration] *)
Definition performIntelligentExploration (strategy : list string) : M unit :=
  run addThought
        {| th_phase := T_EXPLORE;
           th_thought := [Lit "Iniciando exploração inteligente com estratégia: ";
                          Lit (join ", " strategy)];
           th_confidence := 0.7;
           th_evidence := [[Lit "Estratégia baseada na análise atual"]];
           th_triggersAction := true;
           th_actionType := Some AT_tool_use;
           th_actionParams := Some (AP_explorationStrategy strategy);
           th_reflection := None |};
  run forEachM (fun explorationType =>
        addThought
          {| th_phase := T_EXPLORE;
             th_thought := [Lit "Executando exploração do tipo: "; Lit explorationType];
             th_confidence := 0.8;
             th_evidence := [[Lit "Tipo de exploração: "; Lit explorationType]];
             th_triggersAction := false;
             th_actionType := None; th_actionParams := None; th_reflection := None |})
        strategy;
  addThought
    {| th_phase := T_REFLECT;
       th_thought := [Lit "Exploração concluída. Agora vou analisar os novos dados coletados."];
       th_confidence := 0.75;
       th_evidence := [[Lit "Dados de exploração processados"]];
       th_triggersAction := false;
       th_actionType := None; th_actionParams := None; th_reflection := None |}.

(** [performDeepReasoning] *)
Definition performDeepReasoning : M unit :=
  do p <- get_pad;
  run addThought
        {| th_phase := T_THINK;
           th_thought := [Lit "Iniciando raciocínio profundo para analisar evidências e identificar padrões."];
           th_confidence := 0.6;
           th_evidence := [[Lit "Dados disponíveis: "; Int (totalEntries (generateSummary p));
                            Lit " entradas"]];
           th_triggersAction := true;
           th_actionType := Some AT_analysis;
           th_actionParams := Some (AP_type "deep_reasoning");
           th_reflection := None |};
  do reasoningResult <- toughReasoning 3 0.8;
  addThought
    {| th_phase := T_THINK;
       th_thought := Lit "Raciocínio profundo concluído: " :: conclusion reasoningResult;
       th_confidence := tr_confidence reasoningResult;
       th_evidence := reasoningSteps reasoningResult;
       th_triggersAction := false;
       th_actionType := None; th_actionParams := None;
       th_reflection := Some [Lit "Confiança aumentou para ";
                              Fixed 1 (tr_confidence reasoningResult * 100);
                              Lit "% após análise profunda."] |}.

Record ThinkingResult : Type := mkThinkingResult {
  finalDecision : string;
  tk_confidence : Q;
  thoughtProcess : list IntelligentThought
}.

(** [makeIntelligentDecision] *)
Definition makeIntelligentDecision : M ThinkingResult :=
  do s <- get_system;
  do p <- get_pad;
  run addThought
        {| th_phase := T_EXECUTE;
           th_thought := [Lit "Tomando decisão final baseada em ";
                          Int (Z.of_nat (length (thoughtChain s))); Lit " pensamentos e ";
                          Int (totalEntries (generateSummary p)); Lit " dados."];
           th_confidence := confidenceScore (generateSummary p);
           th_evidence := [[Lit "Pensamentos analisados: ";
                            Int (Z.of_nat (length (thoughtChain s)))]];
           th_triggersAction := false;
           th_actionType := None; th_actionParams := None; th_reflection := None |};
  do final <- makeFinalDecision;
  do s <- get_system;
  run addThought
        {| th_phase := T_EXECUTE;
           th_thought := [Lit "Decisão tomada: "; Lit (fd_decision final)];
           th_confidence := fd_confidence final;
           th_evidence := [[Lit "Decisão final baseada em evidências"]];
           th_triggersAction := false;
           th_actionType := None; th_actionParams := None;
           th_reflection :=
             Some [Lit "Processo de pensamento inteligente concluído após ";
                   Int (currentIteration (conversationContext s)); Lit " iterações."] |};
  do s <- get_system;
  ret (mkThinkingResult (fd_decision final) (fd_confidence final) (thoughtChain s)).

Record Reflection : Type := mkReflection {
  rf_summary : string;
  rf_confidence : Q;
  rf_evidence : list string;
  rf_suggestsNextAction : bool;
  rf_insights : string
}.

(** [analyzeActionResult] *)
Definition analyzeActionResult (result : ToolResponse) : Reflection :=
  let resultStr := match result with TextResponse s => s | ObjectResponse _ json => json end in
  if JS.includes "error" resultStr || JS.includes "not found" resultStr then
    mkReflection "Resultado indica problema ou ausência" 0.4 ["Resultado contém erros"]
                 true "Preciso investigar mais ou ajustar abordagem"
  else if (200 <? String.length resultStr)%nat then
    mkReflection "Resultado rico em informações" 0.9 ["Resultado extenso e informativo"]
                 false "Dados suficientes coletados, posso prosseguir"
  else
    mkReflection "Resultado básico obtido" 0.6 ["Resultado padrão"]
                 true "Posso precisar de mais informações específicas".

(** A tool response used as a condition: the empty string is falsy. *)
Definition responseTruthy (r : ToolResponse) : bool :=
  match r with TextResponse s => JS.truthy s | ObjectResponse _ _ => true end.

(** [reflectOnActionResult] *)
Definition reflectOnActionResult : M unit :=
  do s <- get_system;
  match lastActionResult (conversationContext s) with
  | None => ret tt
  | Some lastResult =>
      if negb (responseTruthy lastResult) then ret tt else
      let reflection := analyzeActionResult lastResult in
      run addThought
            {| th_phase := T_REFLECT;
               th_thought := [Lit "Refletindo sobre resultado da ação: ";
                              Lit (rf_summary reflection)];
               th_confidence := rf_confidence reflection;
               th_evidence := map (fun s => [Lit s]) (rf_evidence reflection);
               th_triggersAction := rf_suggestsNextAction reflection;
               th_actionType := Some AT_analysis;
               th_actionParams := Some (AP_reflection_type "action_result");
               th_reflection := Some [Lit (rf_insights reflection)] |};
      set_context (fun c =>
        mkContext (taskDescription c) (currentIteration c) (totalIterations c)
                  (ctx_thoughtChain c) (currentFocus c) None (convergenceLevel c))
  end.

(** [registerActionResult] *)
Definition registerActionResult (result : ToolResponse) : M unit :=
  set_context (fun c =>
    mkContext (taskDescription c) (currentIteration c) (totalIterations c)
              (ctx_thoughtChain c) (currentFocus c) (Some result) (convergenceLevel c)).

(** [stopThinking] *)
Definition stopThinking : M unit := set_isThinkingActive false.

Section Convergence.

(** [Math.sqrt] *)
Variable Math_sqrt : Q -> Q.

(** [calculateThoughtConsistency] *)
Definition calculateThoughtConsistency (s : IntelligentThinkingSystem) : Q :=
  if (length (thoughtChain s) <? 2)%nat then 0.5
  else
    let confidences := map (fun t : IntelligentThought => th_confidence t) (thoughtChain s) in
    let n := inject_Z (Z.of_nat (length confidences)) in
    let avgConfidence := fold_left (fun a b : Q => a + b) confidences 0 / n in
    let variance :=
      fold_left (fun sum conf : Q => sum + (conf - avgConfidence) ^ 2) confidences 0 / n in
    Qmax 0 (1 - Math_sqrt variance).

(** [updateConvergenceLevel] *)
Definition updateConvergenceLevel : M unit :=
  do p <- get_pad;
  let summary := generateSummary p in
  do s <- get_system;
  let iterations := currentIteration (conversationContext s) in
  let thoughtConsistency := calculateThoughtConsistency s in
  let dataConfidence := confidenceScore summary in
  let iterationBonus := Qmin 0.3 (inject_Z iterations * 0.05) in
  let consistencyBonus := thoughtConsistency * 0.2 in
  set_context (fun c =>
    mkContext (taskDescription c) (currentIteration c) (totalIterations c)
              (ctx_thoughtChain c) (currentFocus c) (lastActionResult c)
              (Qmin 1 (dataConfidence + iterationBonus + consistencyBonus))).

Inductive LoopOutcome : Type :=
| Returned (r : ThinkingResult)   (* a [return] inside the loop *)
| Exited                          (* the loop condition became false *)
| OutOfFuel.

(** The [while] loop of [executeThinkingLoop].  No operation of the body
    raises in this embedding, so the [catch] arm has no counterpart.  Of
    [needsMoreExploration && explorationStrategy] the second operand is an
    array, which is always truthy. *)
Fixpoint thinkingLoop (fuel : nat) (maxIterations : Z) : M LoopOutcome :=
  do s <- get_system;
  if (currentIteration (conversationContext s) <? maxIterations)%Z && isThinkingActive s
  then
    match fuel with
    | O => ret OutOfFuel
    | S fuel' =>
        run set_context (fun c =>
              mkContext (taskDescription c) (currentIteration c + 1)%Z (totalIterations c)
                        (ctx_thoughtChain c) (currentFocus c) (lastActionResult c)
                        (convergenceLevel c));
        do currentAnalysis <- analyzeCurrentSituation;
        if needsMoreExploration currentAnalysis then
          run performIntelligentExploration (explorationStrategy currentAnalysis);
          thinkingLoop fuel' maxIterations
        else if needsDeepReasoning currentAnalysis then
          run performDeepReasoning;
          thinkingLoop fuel' maxIterations
        else if canMakeDecision currentAnalysis then
          do decision <- makeIntelligentDecision;
          run set_isThinkingActive false;
          ret (Returned decision)
        else
          run reflectOnActionResult;
          run updateConvergenceLevel;
          do s <- get_system;
          if JS.ge (convergenceLevel (conversationContext s)) (convergenceThreshold s) then
            do decision <- makeIntelligentDecision;
            run set_isThinkingActive false;
            ret (Returned decision)
          else
            thinkingLoop fuel' maxIterations
    end
  else ret Exited.

(** [executeThinkingLoop]: every iteration increments [currentIteration],
    so [maxIterations - currentIteration] iterations are enough; [None]
    would mean that they were not. *)
Definition executeThinkingLoop (maxIterations : Z) : M (option ThinkingResult) :=
  run set_context (fun c =>
        mkContext (taskDescription c) (currentIteration c) maxIterations
                  (ctx_thoughtChain c) (currentFocus c) (lastActionResult c)
                  (convergenceLevel c));
  do s <- get_system;
  do outcome <-
    thinkingLoop (Z.to_nat (maxIterations - currentIteration (conversationContext s)))
                 maxIterations;
  match outcome with
  | Returned decision => ret (Some decision)
  | Exited =>
      do decision <- makeIntelligentDecision;
      run set_isThinkingActive false;
      ret (Some decision)
  | OutOfFuel => ret None
  end.

End Convergence.

(** ** ReasoningToolHandler *)

Module ReasoningToolHandler.

(** [ReasoningToolHandler.truncateResult] *)
Definition truncateResult (result : ToolResponse) : string :=
  let str := match result with TextResponse s => s | ObjectResponse _ json => json end in
  if (500 <? String.length str)%nat then JS.substring0 500 str +:+ "..." else str.

(** The rendering of a cached entry in [checkCacheStatus]. *)
Definition renderCached (cachedResult : ExplorationEntry) : Text :=
  [Lit "### Cached Result:\n";
   Lit "- Confidence: "; Fixed 1 (confidence cachedResult * 100); Lit "%\n";
   Lit "- Timestamp: "; LocaleDate (timestamp cachedResult); Lit "\n";
   Lit "- Tags: "; Lit (join ", " (tags cachedResult)); Lit "\n";
   Lit "- Relevance: "; Fixed 1 (relevance cachedResult * 100); Lit "%\n\n";
   Lit "**Result:** "; Lit (truncateResult (result cachedResult))].

(** [checkCacheStatus] *)
Definition checkCacheStatus (p : ExplorationScratchpad)
  (toolName query : string) (filePath : option string) : Text :=
  let hasExplored := hasExplored p toolName query filePath in
  let cachedResult := getCachedResult p toolName query filePath in
  let output :=
    [Lit "## Cache Status Check\n\n";
     Lit "**Tool:** "; Lit toolName; Lit "\n";
     Lit "**Query:** "; Lit query; Lit "\n"] in
  let output :=
    match filePath with
    | Some fp => if JS.truthy fp then output ++ [Lit "**File Path:** "; Lit fp; Lit "\n"]
                 else output
    | None => output
    end in
  let output :=
    output ++ [Lit "**Cache Hit:** "; Lit (if hasExplored then "✅ Yes" else "❌ No");
               Lit "\n\n"] in
  match cachedResult with
  | Some c => output ++ renderCached c
  | None => output ++ [Lit "No cached result available."]
  end.

(** [performToughReasoning]: the rendering and the phase transition *)
Definition performToughReasoning (maxIterations : Z) (minConfidence : Q) : M Text :=
  do result <- toughReasoning maxIterations minConfidence;
  let output :=
    [Lit "## Tough Reasoning Results\n\n";
     Lit "**Conclusion:** "] ++ conclusion result ++ [Lit "\n\n";
     Lit "**Confidence:** "; Fixed 1 (tr_confidence result * 100); Lit "%\n\n";
     Lit "**Iterations:** "; Int (iterations result); Lit "\n\n"] in
  let output :=
    if (0 <? length (reasoningSteps result))%nat then
      output ++ Lit "### Reasoning Steps:\n"
        :: concat (map (fun '(index, step) =>
                          Int (Z.of_nat index + 1) :: Lit ". " :: step ++ [Lit "\n"])
                       (combine (seq 0 (length (reasoningSteps result)))
                                (reasoningSteps result)))
    else output in
  if JS.ge (tr_confidence result) minConfidence then
    run transitionToNextPhase;
    ret (output ++ [Lit "\n✅ **Phase Transition:** Moved to EXECUTE phase"])
  else ret output.

End ReasoningToolHandler.

(** * Properties *)

(** ** Frames: what a method leaves unchanged *)

Definition preserves {A B : Type} (proj : World -> B) (m : M A) : Prop :=
  forall w, proj (snd (m w)) = proj w.

Lemma preserves_ret {A B} (proj : World -> B) (a : A) : preserves proj (ret a).
Proof. intros w; reflexivity. Qed.

Lemma preserves_bind {A B C} (proj : World -> C) (m : M A) (k : A -> M B) :
  preserves proj m -> (forall a, preserves proj (k a)) -> preserves proj (bind m k).
Proof.
  intros Hm Hk w. unfold bind. specialize (Hm w).
  destruct (m w) as [a w']. simpl in Hm. rewrite Hk. exact Hm.
Qed.

Lemma preserves_get_pad {B} (proj : World -> B) : preserves proj get_pad.
Proof. intros w; reflexivity. Qed.

Lemma preserves_get_engine {B} (proj : World -> B) : preserves proj get_engine.
Proof. intros w; reflexivity. Qed.

Lemma preserves_get_system {B} (proj : World -> B) : preserves proj get_system.
Proof. intros w; reflexivity. Qed.

(** The components of the world other than the read counter. *)
Definition convergence (w : World) : Q := convergenceLevel (conversationContext (system w)).
Definition iteration (w : World) : Z := currentIteration (conversationContext (system w)).
Definition pendingResult (w : World) : option ToolResponse :=
  lastActionResult (conversationContext (system w)).
Definition active (w : World) : bool := isThinkingActive (system w).
Definition threshold (w : World) : Q := convergenceThreshold (system w).

Lemma Date_now_pad : preserves pad Date_now. Proof. intros w; reflexivity. Qed.
Lemma Date_now_engine : preserves engine Date_now. Proof. intros w; reflexivity. Qed.
Lemma Date_now_system : preserves system Date_now. Proof. intros w; reflexivity. Qed.
Lemma Date_now_clock : preserves clock Date_now. Proof. intros w; reflexivity. Qed.
Lemma Date_now_convergence : preserves convergence Date_now. Proof. intros w; reflexivity. Qed.
Lemma Date_now_iteration : preserves iteration Date_now. Proof. intros w; reflexivity. Qed.
Lemma Date_now_active : preserves active Date_now. Proof. intros w; reflexivity. Qed.
Lemma Date_now_threshold : preserves threshold Date_now. Proof. intros w; reflexivity. Qed.

Lemma put_engine_pad e : preserves pad (put_engine e). Proof. intros w; reflexivity. Qed.
Lemma put_engine_system e : preserves system (put_engine e). Proof. intros w; reflexivity. Qed.
Lemma put_engine_clock e : preserves clock (put_engine e). Proof. intros w; reflexivity. Qed.
Lemma put_engine_convergence e : preserves convergence (put_engine e).
Proof. intros w; reflexivity. Qed.
Lemma put_engine_iteration e : preserves iteration (put_engine e).
Proof. intros w; reflexivity. Qed.
Lemma put_engine_active e : preserves active (put_engine e).
Proof. intros w; reflexivity. Qed.
Lemma put_engine_threshold e : preserves threshold (put_engine e).
Proof. intros w; reflexivity. Qed.

Lemma put_system_pad s : preserves pad (put_system s). Proof. intros w; reflexivity. Qed.
Lemma put_system_engine s : preserves engine (put_system s). Proof. intros w; reflexivity. Qed.
Lemma put_system_clock s : preserves clock (put_system s). Proof. intros w; reflexivity. Qed.

Lemma put_pad_engine p : preserves engine (put_pad p). Proof. intros w; reflexivity. Qed.
Lemma put_pad_system p : preserves system (put_pad p). Proof. intros w; reflexivity. Qed.
Lemma put_pad_clock p : preserves clock (put_pad p). Proof. intros w; reflexivity. Qed.
Lemma put_pad_convergence p : preserves convergence (put_pad p).
Proof. intros w; reflexivity. Qed.
Lemma put_pad_iteration p : preserves iteration (put_pad p).
Proof. intros w; reflexivity. Qed.
Lemma put_pad_active p : preserves active (put_pad p).
Proof. intros w; reflexivity. Qed.
Lemma put_pad_threshold p : preserves threshold (put_pad p).
Proof. intros w; reflexivity. Qed.

Create HintDb frame.

#[export] Hint Resolve
  preserves_ret preserves_get_pad preserves_get_engine preserves_get_system
  Date_now_pad Date_now_engine Date_now_system Date_now_clock Date_now_convergence
  Date_now_iteration Date_now_active Date_now_threshold
  put_engine_pad put_engine_system put_engine_clock put_engine_convergence
  put_engine_iteration put_engine_active put_engine_threshold
  put_system_pad put_system_engine put_system_clock
  put_pad_engine put_pad_system put_pad_clock put_pad_convergence put_pad_iteration
  put_pad_active put_pad_threshold : frame.

(** One step of a frame proof: split a bind, or decide by a known frame. *)
Ltac frame_step :=
  lazymatch goal with
  | |- preserves _ (bind _ _) => apply preserves_bind; [ | intros ? ]
  | |- preserves _ (if ?b then _ else _) => destruct b
  | |- preserves _ (match ?x with _ => _ end) => destruct x
  | |- preserves _ _ => solve [ eauto with frame | intros ?; reflexivity ]
  end.

Ltac frame := cbv zeta; repeat frame_step.

Lemma getExplorationDuration_pad : preserves pad getExplorationDuration.
Proof. unfold getExplorationDuration. frame. Qed.
Lemma getExplorationDuration_engine : preserves engine getExplorationDuration.
Proof. unfold getExplorationDuration. frame. Qed.
Lemma getExplorationDuration_system : preserves system getExplorationDuration.
Proof. unfold getExplorationDuration. frame. Qed.
Lemma getExplorationDuration_clock : preserves clock getExplorationDuration.
Proof. unfold getExplorationDuration. frame. Qed.

#[export] Hint Resolve getExplorationDuration_pad getExplorationDuration_engine
  getExplorationDuration_system getExplorationDuration_clock : frame.

Section ToughFrame.

Context {B : Type} (proj : World -> B).
Hypothesis proj_Date_now : preserves proj Date_now.

Lemma preserves_getExplorationDuration : preserves proj getExplorationDuration.
Proof using proj_Date_now. unfold getExplorationDuration. frame. Qed.

Lemma preserves_reasoningLine i s : preserves proj (reasoningLine i s).
Proof using proj_Date_now.
  pose proof preserves_getExplorationDuration.
  unfold reasoningLine, performDeepAnalysis. frame.
Qed.

Lemma preserves_calculateSophisticatedConfidence s i :
  preserves proj (calculateSophisticatedConfidence s i).
Proof using proj_Date_now.
  pose proof preserves_getExplorationDuration.
  unfold calculateSophisticatedConfidence. frame.
Qed.

Lemma preserves_toughLoop n : forall c cur i concl steps,
  preserves proj (toughLoop n c cur i concl steps).
Proof using proj_Date_now.
  pose proof preserves_reasoningLine.
  pose proof preserves_calculateSophisticatedConfidence.
  induction n as [|n IH]; intros; cbn [toughLoop]; frame.
Qed.

(** Whatever [Date.now()] leaves unchanged, [toughReasoning] leaves unchanged. *)
Lemma preserves_toughReasoning m c : preserves proj (toughReasoning m c).
Proof using proj_Date_now. apply preserves_toughLoop. Qed.

End ToughFrame.

(** ** Running the monad *)

Lemma run_bind {A B} (m : M A) (k : A -> M B) (w : World) :
  bind m k w = k (fst (m w)) (snd (m w)).
Proof. unfold bind. destruct (m w); reflexivity. Qed.

Lemma addThinkingStep_run ph a r c ev na w :
  addThinkingStep ph a r c ev na w =
    (tt, mkWorld (pad w)
           (mkEngine (thinkingSteps (engine w) ++ [mkStep (clock w (reads w)) ph a r c ev na])
                     (startTime (engine w)) (currentTask (engine w)))
           (system w) (clock w) (S (reads w))).
Proof. reflexivity. Qed.

Lemma addThinkingStep_pad ph a r c ev na : preserves pad (addThinkingStep ph a r c ev na).
Proof. intros w; reflexivity. Qed.
Lemma addThinkingStep_system ph a r c ev na :
  preserves system (addThinkingStep ph a r c ev na).
Proof. intros w; reflexivity. Qed.
Lemma addThinkingStep_clock ph a r c ev na : preserves clock (addThinkingStep ph a r c ev na).
Proof. intros w; reflexivity. Qed.

#[export] Hint Resolve addThinkingStep_pad addThinkingStep_system addThinkingStep_clock : frame.

Lemma toughReasoning_pad m c : preserves pad (toughReasoning m c).
Proof. apply preserves_toughReasoning, Date_now_pad. Qed.
Lemma toughReasoning_engine m c : preserves engine (toughReasoning m c).
Proof. apply preserves_toughReasoning, Date_now_engine. Qed.
Lemma toughReasoning_system m c : preserves system (toughReasoning m c).
Proof. apply preserves_toughReasoning, Date_now_system. Qed.
Lemma toughReasoning_clock m c : preserves clock (toughReasoning m c).
Proof. apply preserves_toughReasoning, Date_now_clock. Qed.

#[export] Hint Resolve toughReasoning_pad toughReasoning_engine toughReasoning_system
  toughReasoning_clock : frame.

(** The forced pass of [makeFinalDecision]. *)
Definition forcedPass (summary : ExplorationSummary) : M unit :=
  if JS.lt (confidenceScore summary) 0.8 then
    do toughResult <- toughReasoning 5 0.85;
    addThinkingStep THINK "tough_reasoning"
      (Lit "Executei raciocínio profundo: " :: conclusion toughResult)
      (tr_confidence toughResult)
      [ [Lit "Iterações: "; Int (iterations toughResult)];
        [Lit "Passos de raciocínio: ";
         Int (Z.of_nat (length (reasoningSteps toughResult)))] ]
      []
  else ret tt.

Lemma forcedPass_pad s : preserves pad (forcedPass s).
Proof. unfold forcedPass. frame. Qed.

Lemma forcedPass_system s : preserves system (forcedPass s).
Proof. unfold forcedPass. frame. Qed.

Lemma forcedPass_steps s w :
  thinkingSteps (engine (snd (forcedPass s w))) =
    thinkingSteps (engine w) ++
      (if JS.lt (confidenceScore s) 0.8 then
         let r := fst (toughReasoning 5 0.85 w) in
         let w1 := snd (toughReasoning 5 0.85 w) in
         [mkStep (clock w1 (reads w1)) THINK "tough_reasoning"
            (Lit "Executei raciocínio profundo: " :: conclusion r) (tr_confidence r)
            [ [Lit "Iterações: "; Int (iterations r)];
              [Lit "Passos de raciocínio: "; Int (Z.of_nat (length (reasoningSteps r)))] ]
            []]
       else []).
Proof.
  unfold forcedPass. destruct (JS.lt (confidenceScore s) 0.8).
  - rewrite run_bind, addThinkingStep_run. cbn [snd engine thinkingSteps].
    rewrite toughReasoning_engine. reflexivity.
  - cbn. rewrite app_nil_r. reflexivity.
Qed.

(** The decision and the plan of a score, as [generateFinalDecision] picks them. *)
Lemma generateFinalDecision_run ctx w :
  let score := confidenceScore (generateSummary (pad w)) in
  generateFinalDecision ctx w =
    ((if JS.gt score 0.9 then "Solução clara identificada com alta confiança"
      else if JS.gt score 0.7 then "Solução identificada com confiança moderada"
      else "Mais análise necessária antes de decisão final",
      score,
      if JS.gt score 0.9 then
        ["Executar mudanças necessárias"; "Validar implementação"; "Testar funcionalidade"]
      else if JS.gt score 0.7 then
        ["Implementar solução proposta"; "Verificar se resolve o problema";
         "Preparar ajustes se necessário"]
      else ["Continuar exploração"; "Coletar mais evidências"; "Reavaliar abordagem"]),
     w).
Proof.
  intros score. unfold generateFinalDecision. rewrite run_bind. cbn [get_pad fst snd].
  fold score. destruct (JS.gt score 0.9); [reflexivity|].
  destruct (JS.gt score 0.7); reflexivity.
Qed.

Lemma makeFinalDecision_unfold w :
  makeFinalDecision w =
    let summary := generateSummary (pad w) in
    let w1 := snd (forcedPass summary w) in
    let w2 := snd (buildDecisionContext w1) in
    let d := fst (generateFinalDecision (fst (buildDecisionContext w1)) w2) in
    let reasoning :=
      [Lit "Com base em "; Int (totalEntries summary);
       Lit " pontos de evidência e confiança de "; Fixed 1 (confidenceScore summary * 100);
       Lit "%, decidi: "; Lit (fst (fst d))] in
    (mkDecision (fst (fst d)) (snd (fst d)) (snd d) reasoning,
     snd (addThinkingStep EXECUTE "final_decision" reasoning (snd (fst d))
            [ [Lit "Evidências totais: "; Int (totalEntries summary)];
              [Lit "Arquivos explorados: "; Int (filesExplored summary)];
              [Lit "Descobertas chave: "; Int (Z.of_nat (length (keyFindings summary)))] ]
            (snd d) w2)).
Proof.
  unfold makeFinalDecision. rewrite run_bind. cbn [get_pad fst snd]. cbv zeta.
  fold (forcedPass (generateSummary (pad w))).
  rewrite run_bind. rewrite run_bind. rewrite run_bind.
  rewrite generateFinalDecision_run. cbv zeta. cbn [fst snd].
  reflexivity.
Qed.

Lemma buildDecisionContext_pad : preserves pad buildDecisionContext.
Proof. unfold buildDecisionContext. frame. Qed.
Lemma buildDecisionContext_engine : preserves engine buildDecisionContext.
Proof. unfold buildDecisionContext. frame. Qed.
Lemma buildDecisionContext_system : preserves system buildDecisionContext.
Proof. unfold buildDecisionContext. frame. Qed.

#[export] Hint Resolve forcedPass_pad forcedPass_system buildDecisionContext_pad
  buildDecisionContext_engine buildDecisionContext_system : frame.

Lemma makeFinalDecision_pad : preserves pad makeFinalDecision.
Proof.
  intros w. rewrite makeFinalDecision_unfold. cbv zeta. cbn [snd].
  rewrite addThinkingStep_pad, buildDecisionContext_pad, forcedPass_pad. reflexivity.
Qed.

Lemma makeFinalDecision_system : preserves system makeFinalDecision.
Proof.
  intros w. rewrite makeFinalDecision_unfold. cbv zeta. cbn [snd].
  rewrite addThinkingStep_system, buildDecisionContext_system, forcedPass_system.
  reflexivity.
Qed.

#[export] Hint Resolve makeFinalDecision_pad makeFinalDecision_system : frame.

(** The score that [generateFinalDecision] reads inside [makeFinalDecision] is
    the score of the pad as it was at the call. *)
Lemma makeFinalDecision_result w :
  let score := confidenceScore (generateSummary (pad w)) in
  let d := fst (makeFinalDecision w) in
  fd_confidence d = score /\
  fd_decision d =
    (if JS.gt score 0.9 then "Solução clara identificada com alta confiança"
     else if JS.gt score 0.7 then "Solução identificada com confiança moderada"
     else "Mais análise necessária antes de decisão final") /\
  fd_actionPlan d =
    (if JS.gt score 0.9 then
       ["Executar mudanças necessárias"; "Validar implementação"; "Testar funcionalidade"]
     else if JS.gt score 0.7 then
       ["Implementar solução proposta"; "Verificar se resolve o problema";
        "Preparar ajustes se necessário"]
     else ["Continuar exploração"; "Coletar mais evidências"; "Reavaliar abordagem"]).
Proof.
  cbv zeta. rewrite makeFinalDecision_unfold. cbv zeta. cbn [fst fd_confidence fd_decision
    fd_actionPlan]. rewrite generateFinalDecision_run. cbv zeta. cbn [fst snd].
  rewrite !buildDecisionContext_pad, !forcedPass_pad. auto.
Qed.

(** C10: [toughReasoning] leaves the scratchpad as it found it: the entry log,
    the cache, the phase and the start of the exploration are the same after
    the call as before it (as are the fields of the engine and of the
    thinking system; only clock reads are consumed).  Hence the score that
    [makeFinalDecision] buckets after its forced pass, which is the
    confidence it returns, is the score of the pad before the pass, and the
    pad is the same after [makeFinalDecision] too. *)
Theorem toughReasoning_never_mutates_scratchpad :
  forall (maxIterations : Z) (minConfidence : Q) (w : World),
    let w' := snd (toughReasoning maxIterations minConfidence w) in
    (entries (pad w') = entries (pad w) /\
     cache (pad w') = cache (pad w) /\
     currentPhase (pad w') = currentPhase (pad w) /\
     explorationStartTime (pad w') = explorationStartTime (pad w)) /\
    engine w' = engine w /\ system w' = system w /\
    (let summary := generateSummary (pad w) in
     pad (snd (forcedPass summary w)) = pad w /\
     fd_confidence (fst (makeFinalDecision w)) = confidenceScore summary /\
     pad (snd (makeFinalDecision w)) = pad w).
Proof.
  intros m c w w'. subst w'.
  rewrite toughReasoning_pad, toughReasoning_engine, toughReasoning_system.
  repeat split.
  - apply forcedPass_pad.
  - apply makeFinalDecision_result.
  - apply makeFinalDecision_pad.
Qed.

(** C6: [makeFinalDecision] logs one ["tough_reasoning"] step, carrying the
    confidence of a [toughReasoning(5, 0.85)] pass, exactly when the score of
    the store is below 0.8, then logs the ["final_decision"] step; the
    decision is the high-confidence one above 0.9, the moderate one above 0.7
    and the needs-more-analysis one otherwise; every action plan has exactly
    three steps; with a score of 0.95 the decision is the high-confidence one
    with its three steps. *)
Theorem makeFinalDecision_forced_pass_then_buckets :
  forall w : World,
    let score := confidenceScore (generateSummary (pad w)) in
    let d := fst (makeFinalDecision w) in
    let w' := snd (makeFinalDecision w) in
    map ts_action (thinkingSteps (engine w')) =
      map ts_action (thinkingSteps (engine w))
        ++ (if JS.lt score 0.8 then ["tough_reasoning"] else [])
        ++ ["final_decision"] /\
    map ts_confidence (thinkingSteps (engine w')) =
      map ts_confidence (thinkingSteps (engine w))
        ++ (if JS.lt score 0.8 then [tr_confidence (fst (toughReasoning 5 0.85 w))] else [])
        ++ [score] /\
    fd_decision d =
      (if JS.gt score 0.9 then "Solução clara identificada com alta confiança"
       else if JS.gt score 0.7 then "Solução identificada com confiança moderada"
       else "Mais análise necessária antes de decisão final") /\
    fd_actionPlan d =
      (if JS.gt score 0.9 then
         ["Executar mudanças necessárias"; "Validar implementação"; "Testar funcionalidade"]
       else if JS.gt score 0.7 then
         ["Implementar solução proposta"; "Verificar se resolve o problema";
          "Preparar ajustes se necessário"]
       else ["Continuar exploração"; "Coletar mais evidências"; "Reavaliar abordagem"]) /\
    length (fd_actionPlan d) = 3%nat /\
    (score == 0.95 ->
     fd_decision d = "Solução clara identificada com alta confiança" /\
     length (fd_actionPlan d) = 3%nat).
Proof.
  intros w score d w'.
  destruct (makeFinalDecision_result w) as (Hc & Hd & Hp). fold score d in Hc, Hd, Hp.
  assert (Hsteps : exists t reasoning evidence,
            thinkingSteps (engine w') =
            thinkingSteps (engine (snd (forcedPass (generateSummary (pad w)) w)))
              ++ [mkStep t EXECUTE "final_decision" reasoning (fd_confidence d) evidence
                         (fd_actionPlan d)]).
  { subst w' d. rewrite makeFinalDecision_unfold. cbv zeta.
    set (w1 := snd (forcedPass (generateSummary (pad w)) w)).
    set (w2 := snd (buildDecisionContext w1)).
    set (g := fst (generateFinalDecision (fst (buildDecisionContext w1)) w2)).
    rewrite addThinkingStep_run.
    cbn [fst snd engine thinkingSteps fd_confidence fd_actionPlan].
    subst w2. rewrite buildDecisionContext_engine. do 3 eexists. reflexivity. }
  destruct Hsteps as (t & reasoning & evidence & Hsteps). rewrite Hc in Hsteps.
  rewrite Hsteps, forcedPass_steps. fold score.
  assert (Hlen : length (fd_actionPlan d) = 3%nat).
  { rewrite Hp. destruct (JS.gt score 0.9); [reflexivity|].
    destruct (JS.gt score 0.7); reflexivity. }
  repeat split; try assumption.
  - rewrite !map_app, <- app_assoc. destruct (JS.lt score 0.8); reflexivity.
  - rewrite !map_app, <- app_assoc. destruct (JS.lt score 0.8); reflexivity.
  - rewrite Hd.
    assert (Hgt : JS.gt score 0.9 = true).
    { unfold JS.gt, JS.lt. apply negb_true_iff. apply not_true_is_false.
      intros Hle. apply Qle_bool_iff in Hle. rewrite H in Hle. revert Hle.
      apply Qlt_not_le. reflexivity. }
    rewrite Hgt. reflexivity.
Qed.

(** ** The loop of [toughReasoning] *)

(** Clock reads consumed by iterations [1 .. i-1]: one each for the first
    three, two each from the fourth on ([performDeepAnalysis] reads the
    clock too); and the read of iteration [i] that enters its confidence. *)
Definition readsBefore (i : Z) : nat :=
  Z.to_nat (if (i <=? 4)%Z then i - 1 else 2 * i - 5).

Definition confidenceRead (i : Z) : nat :=
  (readsBefore i + (if (i <=? 3)%Z then 0 else 1))%nat.

(** The confidence that iteration [i] of a [toughReasoning] call started in
    [w] computes: [min(1, score * min(1, total/10) + min(0.2, i*0.05)
    + min(0.1, elapsedMs/60000))]. *)
Definition confidenceAt (w : World) (i : Z) : Q :=
  let summary := generateSummary (pad w) in
  let elapsedMs :=
    (clock w (reads w + confidenceRead i) - explorationStartTime (pad w))%Z in
  Qmin 1 (confidenceScore summary * Qmin 1 (inject_Z (totalEntries summary) / 10)
          + Qmin 0.2 (inject_Z i * 0.05)
          + Qmin 0.1 (inject_Z elapsedMs / 60000)).

Lemma calculateSophisticatedConfidence_run summary i w :
  calculateSophisticatedConfidence summary i w =
    (Qmin 1 (confidenceScore summary * Qmin 1 (inject_Z (totalEntries summary) / 10)
             + Qmin 0.2 (inject_Z i * 0.05)
             + Qmin 0.1 (inject_Z (clock w (reads w) - explorationStartTime (pad w)) / 60000)),
     mkWorld (pad w) (engine w) (system w) (clock w) (S (reads w))).
Proof. reflexivity. Qed.

Lemma reasoningLine_reads i summary w :
  (1 <= i)%Z ->
  reads (snd (reasoningLine i summary w)) = (reads w + (if (i <=? 3)%Z then 0 else 1))%nat.
Proof.
  intros Hi. unfold reasoningLine.
  destruct (i =? 1)%Z eqn:E1; [ apply Z.eqb_eq in E1; subst; cbn; lia | ].
  destruct (i =? 2)%Z eqn:E2; [ apply Z.eqb_eq in E2; subst; cbn; lia | ].
  destruct (i =? 3)%Z eqn:E3; [ apply Z.eqb_eq in E3; subst; cbn; lia | ].
  apply Z.eqb_neq in E1, E2, E3.
  destruct (i <=? 3)%Z eqn:E; [ apply Z.leb_le in E; lia | ].
  cbn. lia.
Qed.

Lemma readsBefore_succ i :
  (1 <= i)%Z ->
  readsBefore (i + 1) = S (readsBefore i + (if (i <=? 3)%Z then 0 else 1)).
Proof.
  intros Hi. unfold readsBefore.
  destruct (i <=? 3)%Z eqn:E3; destruct (i <=? 4)%Z eqn:E4;
    destruct (i + 1 <=? 4)%Z eqn:E5;
    try apply Z.leb_le in E3; try apply Z.leb_le in E4; try apply Z.leb_le in E5;
    try apply Z.leb_gt in E3; try apply Z.leb_gt in E4; try apply Z.leb_gt in E5; lia.
Qed.

(** What a run of the loop returns.  Started at iteration [i] with [n]
    iterations to go, either some iteration [j] is the first whose
    confidence reaches [c], and the loop stops there; or none does, and the
    counter comes out as [i + n], one past the last iteration that ran. *)
Lemma toughLoop_spec (w0 : World) (c : Q) (n : nat) :
  forall (cur : Q) (i : Z) (concl : Text) (steps : list Text) (w : World),
    (1 <= i)%Z ->
    pad w = pad w0 -> clock w = clock w0 ->
    reads w = (reads w0 + readsBefore i)%nat ->
    let r := fst (toughLoop n c cur i concl steps w) in
    (exists j, (i <= j < i + Z.of_nat n)%Z /\
               JS.ge (confidenceAt w0 j) c = true /\
               (forall k, (i <= k < j)%Z -> JS.ge (confidenceAt w0 k) c = false) /\
               iterations r = j /\ tr_confidence r = confidenceAt w0 j)
    \/
    ((forall k, (i <= k < i + Z.of_nat n)%Z -> JS.ge (confidenceAt w0 k) c = false) /\
     iterations r = (i + Z.of_nat n)%Z /\
     tr_confidence r = match n with O => cur | S _ => confidenceAt w0 (i + Z.of_nat n - 1) end /\
     conclusion r = concl).
Proof.
  induction n as [|n IH]; intros cur i concl steps w Hi Hpad Hclock Hreads r.
  - right. subst r. cbn. repeat split; try (intros; lia).
  - subst r. cbn [toughLoop]. rewrite !run_bind. cbn [get_pad fst snd].
    set (summary := generateSummary (pad w)).
    set (steps1 := steps ++ _).
    set (w1 := snd (reasoningLine i summary w)).
    set (line := fst (reasoningLine i summary w)).
    rewrite calculateSophisticatedConfidence_run. cbn [fst snd].
    assert (Hpad1 : pad w1 = pad w0).
    { subst w1. rewrite preserves_reasoningLine; auto using Date_now_pad. }
    assert (Hclock1 : clock w1 = clock w0).
    { subst w1. rewrite preserves_reasoningLine; auto using Date_now_clock. }
    assert (Hreads1 : reads w1 = (reads w0 + confidenceRead i)%nat).
    { subst w1. rewrite reasoningLine_reads by assumption. unfold confidenceRead. lia. }
    set (conf := Qmin 1 _).
    assert (Hconf : conf = confidenceAt w0 i).
    { subst conf. unfold confidenceAt. cbv zeta. subst summary.
      rewrite Hpad, Hpad1, Hclock1, Hreads1. reflexivity. }
    destruct (JS.ge conf c) eqn:Hge.
    + left. exists i. cbn [fst iterations tr_confidence].
      rewrite <- Hconf. repeat split; try lia; try assumption; intros; lia.
    + set (w2 := mkWorld _ _ _ _ _).
      specialize (IH conf (i + 1)%Z concl (steps1 ++ [line]) w2).
      assert (H2 : reads w2 = (reads w0 + readsBefore (i + 1))%nat).
      { subst w2. cbn [reads]. rewrite Hreads1, readsBefore_succ by assumption.
        unfold confidenceRead. lia. }
      specialize (IH ltac:(lia) Hpad1 Hclock1 H2). cbv zeta in IH.
      destruct IH as [(j & Hj & Hhit & Hfirst & Hit & Hc) | (Hnone & Hit & Hc & Hcl)].
      * left. exists j. repeat split; try lia; try assumption.
        intros k Hk. destruct (Z.eq_dec k i) as [->|Hne].
        -- rewrite <- Hconf. exact Hge.
        -- apply Hfirst. lia.
      * right. repeat split.
        -- intros k Hk. destruct (Z.eq_dec k i) as [->|Hne].
           ++ rewrite <- Hconf. exact Hge.
           ++ apply Hnone. lia.
        -- rewrite Hit. lia.
        -- rewrite Hc. destruct n as [|n'].
           ++ rewrite Hconf. f_equal. lia.
           ++ f_equal. lia.
        -- exact Hcl.
Qed.

(** [toughReasoning(maxIterations, minConfidence)] with [maxIterations >= 1]:
    it stops at the first iteration whose confidence reaches
    [minConfidence] and returns that iteration and that confidence;
    if no iteration up to [maxIterations] does, it returns the last
    confidence, the initial conclusion, and [maxIterations + 1] as
    [iterations]. *)
Lemma toughReasoning_spec (maxIterations : Z) (minConfidence : Q) (w : World) :
  (1 <= maxIterations)%Z ->
  let r := fst (toughReasoning maxIterations minConfidence w) in
  (exists j, (1 <= j <= maxIterations)%Z /\
             JS.ge (confidenceAt w j) minConfidence = true /\
             (forall k, (1 <= k < j)%Z -> JS.ge (confidenceAt w k) minConfidence = false) /\
             iterations r = j /\ tr_confidence r = confidenceAt w j)
  \/
  ((forall k, (1 <= k <= maxIterations)%Z ->
              JS.ge (confidenceAt w k) minConfidence = false) /\
   iterations r = (maxIterations + 1)%Z /\
   tr_confidence r = confidenceAt w maxIterations /\
   conclusion r = [Lit "Insufficient data for conclusion"]).
Proof.
  intros Hm r. subst r. unfold toughReasoning.
  pose proof (toughLoop_spec w minConfidence (Z.to_nat maxIterations) 0 1
                [Lit "Insufficient data for conclusion"] [] w ltac:(lia) eq_refl eq_refl) as H.
  specialize (H ltac:(unfold readsBefore; cbn; lia)). cbv zeta in H.
  rewrite Z2Nat.id in H by lia.
  destruct H as [(j & Hj & Hhit & Hfirst & Hit & Hc) | (Hnone & Hit & Hc & Hcl)].
  - left. exists j. repeat split; try lia; assumption.
  - right. repeat split; try assumption.
    + intros k Hk. apply Hnone. lia.
    + rewrite Hit. lia.
    + rewrite Hc. destruct (Z.to_nat maxIterations) eqn:E; [lia|].
      f_equal. lia.
Qed.

(** ** The summary of a log *)

(** The sum and the arithmetic mean of a list of numbers; the mean of no
    number is taken to be 0, as the specification does. *)
Definition total (l : list Q) : Q := fold_right Qplus 0 l.

Definition mean (l : list Q) : Q :=
  match l with
  | [] => 0
  | _ :: _ => total l / inject_Z (Z.of_nat (length l))
  end.

Definition confidences (l : list ExplorationEntry) : list Q :=
  map (fun e : ExplorationEntry => confidence e) l.

Lemma total_cons (x : Q) (l : list Q) : total (x :: l) = x + total l.
Proof. reflexivity. Qed.

Lemma fold_left_confidence_total (l : list ExplorationEntry) : forall a : Q,
  fold_left (fun (sum : Q) (entry : ExplorationEntry) => sum + confidence entry) l a
  == a + total (confidences l).
Proof.
  induction l as [|e l IH]; intros a.
  - change (a == a + 0). lra.
  - change (fold_left (fun (sum : Q) (entry : ExplorationEntry) => sum + confidence entry)
              l (a + confidence e)
            == a + (confidence e + total (confidences l))).
    rewrite IH. lra.
Qed.

Lemma total_app (l1 l2 : list Q) : total (l1 ++ l2) == total l1 + total l2.
Proof.
  induction l1 as [|x l1 IH].
  - change (total l2 == 0 + total l2). lra.
  - change (x + total (l1 ++ l2) == x + total l1 + total l2). rewrite IH. lra.
Qed.



(** [generateSummary] scores a log by the mean of its confidences. *)
Lemma confidenceScore_mean (p : ExplorationScratchpad) :
  confidenceScore (generateSummary p) == mean (confidences (entries p)).
Proof.
  unfold generateSummary. cbn [confidenceScore].
  destruct (entries p) as [|e l] eqn:E.
  - reflexivity.
  - replace (0 <? Z.of_nat (length (e :: l)))%Z with true
      by (symmetry; apply Z.ltb_lt; cbn [length]; lia).
    rewrite fold_left_confidence_total. unfold mean, confidences.
    rewrite <- (length_map (fun e0 : ExplorationEntry => confidence e0) (e :: l)).
    set (cs := map _ (e :: l)).
    assert (Hcs : cs <> []) by (subst cs; discriminate).
    clearbody cs. destruct cs as [|c cs']; [congruence|].
    field. unfold Qeq. cbn. lia.
Qed.

Lemma insert_newest_first_Permutation x l : Permutation (insert_newest_first x l) (x :: l).
Proof.
  induction l as [|y l IH]; cbn.
  - reflexivity.
  - destruct (timestamp x <? timestamp y)%Z.
    + rewrite IH. apply perm_swap.
    + reflexivity.
Qed.

Lemma sort_newest_first_Permutation l : Permutation (sort_newest_first l) l.
Proof.
  induction l as [|x l IH]; cbn.
  - reflexivity.
  - rewrite insert_newest_first_Permutation. constructor. exact IH.
Qed.

Lemma addEntry_run entry w :
  addEntry entry w =
    (tt, mkWorld
           (mkPad (sort_newest_first
                     (entries (pad w) ++ [mkEntry entry (clock w (reads w))]))
                  (<[generateCacheKey (toolName entry) (query entry) (filePath entry)
                     := mkEntry entry (clock w (reads w))]> (cache (pad w)))
                  (currentPhase (pad w)) (explorationStartTime (pad w)))
           (engine w) (system w) (clock w) (S (reads w))).
Proof. reflexivity. Qed.

(** A sequence of [addEntry] calls. *)
Definition addEntries (es : list EntryFields) : M unit := forEachM addEntry es.




(** ** Concrete stores *)

(** A clock that advances by 150 ms at each read, and a world just created
    at time 1000. *)
Definition sampleClock : nat -> Z := fun k => (1000 + 150 * Z.of_nat k)%Z.

Definition freshWorld : World :=
  mkWorld (newScratchpad 1000) (mkEngine [] 1000 EmptyString) newSystem sampleClock 0.

(** [JSON.stringify({ query: q })] *)
Definition jsonQuery (q : string) : string :=
  "{" +:+ JS.quote +:+ "query" +:+ JS.quote +:+ ":" +:+ JS.quote +:+ q +:+ JS.quote +:+ "}".

Definition searchParams (q : string) : ToolParams :=
  mkParams None (Some q) None (jsonQuery q).

(** A search entry with a given result and confidence. *)
Definition searchEntry (q : string) (r : ToolResponse) (c : Q) : EntryFields :=
  {| toolName := ClineDefaultTool.SEARCH; query := q; result := r; confidence := c;
     tags := [ClineDefaultTool.SEARCH; "search"; "discovery"]; filePath := None;
     relevance := 1; toolParams := searchParams q |}.

(** The store after one search whose entry has confidence 0. *)
Definition zeroConfidenceWorld : World :=
  snd (addEntry (searchEntry "auth" (TextResponse "no match") 0) freshWorld).


(** ** The cache check of [thinkBeforeAction] *)

Lemma thinkBeforeAction_cached toolName params w e :
  getCachedResult (pad w) toolName (extractQueryFromTool toolName params) (p_path params)
    = Some e ->
  let v := fst (thinkBeforeAction toolName params w) in
  shouldProceed v = false /\
  av_confidence v = (if JS.truthy_num (confidence e) then confidence e else 0.8).
Proof.
  intros H. unfold thinkBeforeAction. rewrite run_bind. cbn [get_pad fst snd].
  unfold hasExplored. unfold getCachedResult in H. rewrite H. cbv zeta.
  unfold getCachedResult. rewrite H. rewrite run_bind. cbn. auto.
Qed.

Lemma calculateResultConfidence_truthy result :
  JS.truthy_num (calculateResultConfidence result) = true.
Proof.
  unfold calculateResultConfidence. destruct result as [s|c j]; [|reflexivity].
  destruct (_ || _); [reflexivity|]. destruct (_ <? _)%nat; reflexivity.
Qed.

Lemma analyzeResult_cache tool params response w :
  getCachedResult (pad (snd (analyzeResult tool params response w))) tool
    (extractQueryFromTool tool params) (p_path params)
  = Some (mkEntry {| toolName := tool;
                     query := extractQueryFromTool tool params;
                     result := response;
                     confidence := calculateResultConfidence response;
                     tags := generateResultTags tool params;
                     filePath := p_path params;
                     relevance := 1.0;
                     toolParams := params |} (clock w (reads w))).
Proof.
  unfold analyzeResult. rewrite run_bind. cbn [get_pad fst snd]. cbv zeta.
  rewrite run_bind, addEntry_run. cbn [fst snd]. rewrite run_bind.
  rewrite addThinkingStep_run. cbn [snd pad].
  unfold getCachedResult. cbn [cache toolName query filePath].
  apply lookup_insert_eq.
Qed.

(** Scenario C: once [analyzeResult] has stored the result of an action,
    [thinkBeforeAction] for the same action does not proceed and reports the
    confidence of that result. *)
Lemma thinkBeforeAction_after_analyzeResult tool params response w :
  let w1 := snd (analyzeResult tool params response w) in
  let v := fst (thinkBeforeAction tool params w1) in
  shouldProceed v = false /\ av_confidence v = calculateResultConfidence response.
Proof.
  intros w1 v.
  destruct (thinkBeforeAction_cached _ _ _ _ (analyzeResult_cache tool params response w))
    as [Hp Hc]. fold w1 v in Hp, Hc.
  split; [exact Hp|]. rewrite Hc. cbn [fields confidence].
  rewrite calculateResultConfidence_truthy. reflexivity.
Qed.

(** C2 (the code at the failing input): an entry of confidence 0 is cached for
    the search; [thinkBeforeAction] for that search does not proceed, logs
    the cached confidence as 0, and returns the confidence 0.8. *)
Theorem thinkBeforeAction_cached_zero_confidence :
  let v := fst (thinkBeforeAction ClineDefaultTool.SEARCH (searchParams "auth")
                  zeroConfidenceWorld) in
  option_map (fun e : ExplorationEntry => confidence e)
    (getCachedResult (pad zeroConfidenceWorld) ClineDefaultTool.SEARCH "auth" None) = Some 0
  /\ shouldProceed v = false
  /\ av_confidence v = 0.8
  /\ ~ av_confidence v == 0
  /\ map ts_evidence
       (thinkingSteps (engine (snd (thinkBeforeAction ClineDefaultTool.SEARCH
                                      (searchParams "auth") zeroConfidenceWorld))))
     = [ [ [Lit "Resultado anterior: "; Lit "no match"];
           [Lit "Confiança do cache: "; Num (0 * 100); Lit "%"] ] ].
Proof.
  vm_compute. repeat split; try reflexivity. intros H; discriminate H.
Qed.

(** ** Phases *)

Definition phaseRank (ph : Phase) : Z :=
  match ph with EXPLORE => 0 | THINK => 1 | EXECUTE => 2 end.

(** [k] calls of [transitionToNextPhase] in a row. *)
Fixpoint transitions (k : nat) : M unit :=
  match k with
  | O => ret tt
  | S k' => run transitionToNextPhase; transitions k'
  end.

(** The phase observed after [k] calls. *)
Definition phaseAfter (k : nat) (w : World) : Phase :=
  getCurrentPhase (pad (snd (transitions k w))).

Lemma transitionToNextPhase_run w :
  transitionToNextPhase w =
    (tt, mkWorld (mkPad (entries (pad w)) (cache (pad w)) (nextPhase (currentPhase (pad w)))
                        (explorationStartTime (pad w)))
                 (engine w) (system w) (clock w) (reads w)).
Proof. reflexivity. Qed.

Lemma phaseRank_nextPhase ph : phaseRank (nextPhase ph) = Z.min 2 (phaseRank ph + 1).
Proof. destruct ph; reflexivity. Qed.

Lemma transitions_snoc k : forall w,
  snd (transitions (S k) w) = snd (transitionToNextPhase (snd (transitions k w))).
Proof.
  induction k as [|k IH]; intros w.
  - cbn [transitions]. rewrite !run_bind. reflexivity.
  - change (transitions (S (S k)) w)
      with (bind transitionToNextPhase (fun _ => transitions (S k)) w).
    rewrite run_bind, IH. reflexivity.
Qed.

Lemma phaseAfter_S k w : phaseAfter (S k) w = nextPhase (phaseAfter k w).
Proof. unfold phaseAfter. rewrite transitions_snoc. reflexivity. Qed.

Lemma phaseRank_phaseAfter k w :
  phaseRank (phaseAfter k w) = Z.min 2 (phaseRank (currentPhase (pad w)) + Z.of_nat k).
Proof.
  induction k as [|k IH].
  - unfold phaseAfter, getCurrentPhase. cbn [transitions ret snd].
    destruct (currentPhase (pad w)); reflexivity.
  - rewrite phaseAfter_S, phaseRank_nextPhase, IH. lia.
Qed.

(** C4: the phases observed along any sequence of [transitionToNextPhase]
    calls walk through EXPLORE < THINK < EXECUTE: each call moves the phase
    by exactly one step, except at EXECUTE, where it stays; so the phase
    never goes back, a later observation is never before an earlier one, and
    once EXECUTE is observed every further call leaves it at EXECUTE. *)
Theorem transitionToNextPhase_monotone_walk :
  forall (w : World) (k : nat),
    phaseAfter 0 w = currentPhase (pad w) /\
    phaseRank (phaseAfter (S k) w) = Z.min 2 (phaseRank (phaseAfter k w) + 1) /\
    (phaseRank (phaseAfter k w) <= phaseRank (phaseAfter (S k) w))%Z /\
    (forall j : nat, (k <= j)%nat ->
       (phaseRank (phaseAfter k w) <= phaseRank (phaseAfter j w))%Z) /\
    (phaseAfter k w = EXECUTE -> forall j : nat, (k <= j)%nat -> phaseAfter j w = EXECUTE).
Proof.
  intros w k. repeat split.
  - rewrite phaseAfter_S. apply phaseRank_nextPhase.
  - rewrite phaseAfter_S, phaseRank_nextPhase.
    destruct (phaseAfter k w); cbn; lia.
  - intros j Hj. rewrite !phaseRank_phaseAfter. lia.
  - intros HE j Hj.
    assert (H : phaseRank (phaseAfter j w) = 2%Z).
    { pose proof (phaseRank_phaseAfter k w) as Hk. rewrite HE in Hk. cbn in Hk.
      rewrite phaseRank_phaseAfter. lia. }
    destruct (phaseAfter j w); cbn in H; try lia. reflexivity.
Qed.

(** ** Cache keys and letter case *)















(** ** Bounds of the confidence of [toughReasoning] *)

Definition nonnegativeLog (p : ExplorationScratchpad) : Prop :=
  Forall (fun e : ExplorationEntry => 0 <= confidence e) (entries p).

Lemma total_nonneg (l : list Q) : Forall (fun x => 0 <= x) l -> 0 <= total l.
Proof.
  induction 1 as [|x l Hx _ IH].
  - apply Qle_refl.
  - rewrite total_cons. lra.
Qed.

Lemma mean_nonneg (l : list Q) : Forall (fun x => 0 <= x) l -> 0 <= mean l.
Proof.
  intros H. destruct l as [|x l]; [apply Qle_refl|].
  unfold mean. apply Qle_shift_div_l.
  - unfold Qlt. cbn. lia.
  - rewrite Qmult_0_l. apply total_nonneg, H.
Qed.

Lemma confidenceScore_nonneg (p : ExplorationScratchpad) :
  nonnegativeLog p -> 0 <= confidenceScore (generateSummary p).
Proof.
  intros H. rewrite confidenceScore_mean. apply mean_nonneg.
  unfold confidences. apply Forall_map. exact H.
Qed.

Lemma inject_Z_nonneg (z : Z) : (0 <= z)%Z -> 0 <= inject_Z z.
Proof. intros H. unfold Qle. cbn. lia. Qed.

Lemma confidenceAt_bounds (w : World) (i : Z) :
  (0 <= i)%Z ->
  nonnegativeLog (pad w) ->
  (forall k : nat, (explorationStartTime (pad w) <= clock w k)%Z) ->
  0 <= confidenceAt w i <= 1.
Proof.
  intros Hi Hlog Hclock. unfold confidenceAt. cbv zeta.
  split; [|apply Q.le_min_l].
  apply Q.min_glb; [lra|].
  pose proof (confidenceScore_nonneg _ Hlog) as Hs.
  assert (Hd : 0 <= Qmin 1 (inject_Z (totalEntries (generateSummary (pad w))) / 10)).
  { apply Q.min_glb; [lra|]. apply Qle_shift_div_l; [lra|]. rewrite Qmult_0_l.
    apply inject_Z_nonneg. cbn. lia. }
  assert (Hb : 0 <= Qmin 0.2 (inject_Z i * 0.05)).
  { apply Q.min_glb; [lra|]. apply Qmult_le_0_compat; [apply inject_Z_nonneg, Hi | lra]. }
  assert (Ht : 0 <= Qmin 0.1 (inject_Z (clock w (reads w + confidenceRead i)
                                          - explorationStartTime (pad w)) / 60000)).
  { apply Q.min_glb; [lra|]. apply Qle_shift_div_l; [lra|]. rewrite Qmult_0_l.
    apply inject_Z_nonneg. specialize (Hclock (reads w + confidenceRead i)%nat). lia. }
  pose proof (Qmult_le_0_compat _ _ Hs Hd). lra.
Qed.

(** What holds of the result of [toughReasoning] for [maxIterations >= 1]:
    the loop body runs between 1 and [maxIterations] times and stops at the
    first iteration whose confidence reaches [minConfidence]; the returned
    [iterations] is that iteration, or [maxIterations + 1] when no iteration
    reaches it; the returned confidence is at most 1, and at least 0 for a
    log of non-negative confidences and a clock that is not before the
    start of the exploration. *)
Lemma toughReasoning_result_bounds (maxIterations : Z) (minConfidence : Q) (w : World) :
  (1 <= maxIterations)%Z ->
  let r := fst (toughReasoning maxIterations minConfidence w) in
  (1 <= iterations r <= maxIterations + 1)%Z /\
  (iterations r = (maxIterations + 1)%Z <->
   forall k, (1 <= k <= maxIterations)%Z -> JS.ge (confidenceAt w k) minConfidence = false) /\
  tr_confidence r <= 1 /\
  (nonnegativeLog (pad w) ->
   (forall k : nat, (explorationStartTime (pad w) <= clock w k)%Z) ->
   0 <= tr_confidence r).
Proof.
  intros Hm r.
  destruct (toughReasoning_spec maxIterations minConfidence w Hm)
    as [(j & Hj & Hhit & Hfirst & Hit & Hc) | (Hnone & Hit & Hc & _)]; fold r in Hit, Hc.
  - split; [lia|]. split; [|split].
    + split.
      * intros E. exfalso. lia.
      * intros Hnone. specialize (Hnone j Hj). congruence.
    + rewrite Hc. apply Q.le_min_l.
    + intros Hlog Hclock. rewrite Hc. apply confidenceAt_bounds; [lia | assumption..].
  - split; [lia|]. split; [|split].
    + split; [intros _; exact Hnone | intros _; exact Hit].
    + rewrite Hc. apply Q.le_min_l.
    + intros Hlog Hclock. rewrite Hc. apply confidenceAt_bounds; [lia | assumption..].
Qed.

(** C1 (the code at the failing input): on a store without entries,
    [toughReasoning(1, 0.85)] runs its single iteration, whose confidence
    0.05 is below 0.85, and returns [iterations = 2], which exceeds
    [maxIterations = 1]. *)
Theorem toughReasoning_iterations_exceed_maxIterations :
  let r := fst (toughReasoning 1 0.85 freshWorld) in
  iterations r = 2%Z /\
  (1 < iterations r)%Z /\
  tr_confidence r == 0.05 /\
  length (reasoningSteps r) = 2%nat /\
  conclusion r = [Lit "Insufficient data for conclusion"].
Proof. vm_compute. repeat split; reflexivity. Qed.

(** ** The cache check of the reasoning tool *)

(** [s.repeat(n)] *)
Fixpoint repeatString (s : string) (n : nat) : string :=
  match n with
  | O => EmptyString
  | S n' => s +:+ repeatString s n'
  end.

(** The text of a payload: the string itself or [JSON.stringify] of it. *)
Definition responseText (r : ToolResponse) : string :=
  match r with TextResponse s => s | ObjectResponse _ json => json end.

(** The store after one search whose result has 101 characters. *)
Definition longPayloadWorld : World :=
  snd (addEntry (searchEntry "auth" (TextResponse (repeatString "a" 101)) 0.9) freshWorld).

(** C9 (counterexample): the cached payload has 101 characters and
    [checkCacheStatus] renders all 101 of them, not at most 100. *)
Lemma checkCacheStatus_preview_exceeds_100 :
  let output :=
    ReasoningToolHandler.checkCacheStatus (pad longPayloadWorld)
      ClineDefaultTool.SEARCH "auth" None in
  hasExplored (pad longPayloadWorld) ClineDefaultTool.SEARCH "auth" None = true /\
  last output = Some (Lit (repeatString "a" 101)) /\
  String.length (repeatString "a" 101) = 101%nat /\
  ~ (String.length (repeatString "a" 101) <= 100)%nat.
Proof.
  vm_compute. repeat split; try reflexivity. intros H. lia.
Qed.

Lemma length_substring0 (n : nat) (s : string) :
  (String.length (JS.substring0 n s) <= n)%nat.
Proof.
  unfold JS.substring0. revert s. induction n as [|n IH]; intros [|c s]; cbn; try lia.
  specialize (IH s). lia.
Qed.

Lemma length_string_app (s t : string) :
  String.length (s +:+ t) = (String.length s + String.length t)%nat.
Proof.
  induction s as [|c s IH].
  - reflexivity.
  - change (S (String.length (s +:+ t)) = S (String.length s + String.length t)).
    rewrite IH. reflexivity.
Qed.

Lemma handler_truncateResult_length (r : ToolResponse) :
  (String.length (ReasoningToolHandler.truncateResult r) <= 503)%nat.
Proof.
  unfold ReasoningToolHandler.truncateResult. fold (responseText r).
  destruct (500 <? String.length (responseText r))%nat eqn:E.
  - rewrite length_string_app. pose proof (length_substring0 500 (responseText r)).
    cbn [String.length]. lia.
  - apply Nat.ltb_ge in E. lia.
Qed.

(** C9 (amended): on a cache hit, [checkCacheStatus] ends with the cached
    entry's confidence, timestamp, tags and relevance and a preview of its
    payload: the payload itself when it has at most 500 characters, its
    first 500 characters followed by an ellipsis otherwise, so at most 503
    characters. *)
Theorem checkCacheStatus_renders_cached_entry :
  forall (p : ExplorationScratchpad) (toolName query : string) (filePath : option string)
         (cached : ExplorationEntry),
    getCachedResult p toolName query filePath = Some cached ->
    let payload := responseText (result cached) in
    let preview := ReasoningToolHandler.truncateResult (result cached) in
    (exists header : Text,
       ReasoningToolHandler.checkCacheStatus p toolName query filePath =
         header ++
         [Lit "### Cached Result:\n";
          Lit "- Confidence: "; Fixed 1 (confidence cached * 100); Lit "%\n";
          Lit "- Timestamp: "; LocaleDate (timestamp cached); Lit "\n";
          Lit "- Tags: "; Lit (join ", " (tags cached)); Lit "\n";
          Lit "- Relevance: "; Fixed 1 (relevance cached * 100); Lit "%\n\n";
          Lit "**Result:** "; Lit preview]) /\
    preview = (if (500 <? String.length payload)%nat
               then JS.substring0 500 payload +:+ "..." else payload) /\
    (String.length preview <= 503)%nat /\
    ((String.length payload <= 500)%nat -> preview = payload).
Proof.
  intros p t q fp cached Hhit payload preview. repeat split.
  - unfold ReasoningToolHandler.checkCacheStatus. rewrite Hhit. cbv zeta.
    eexists. unfold ReasoningToolHandler.renderCached. reflexivity.
  - apply handler_truncateResult_length.
  - intros Hlen. subst preview. unfold ReasoningToolHandler.truncateResult.
    fold (responseText (result cached)). fold payload.
    replace (500 <? String.length payload)%nat with false; [reflexivity|].
    symmetry. apply Nat.ltb_ge. exact Hlen.
Qed.

Lemma checkCacheStatus_renders_cached_entry_witness :
  exists cached : ExplorationEntry,
    getCachedResult (pad longPayloadWorld) ClineDefaultTool.SEARCH "auth" None = Some cached /\
    ReasoningToolHandler.truncateResult (result cached) = repeatString "a" 101.
Proof.
  eexists. split; [reflexivity|].
  refine (proj2 (proj2 (proj2
    (checkCacheStatus_renders_cached_entry (pad longPayloadWorld)
       ClineDefaultTool.SEARCH "auth" None _ eq_refl))) _).
  vm_compute. lia.
Defined.

(** ** Frames of the thinking system *)

Lemma addThought_run (thoughtData : ThoughtData) (w : World) :
  addThought thoughtData w =
    let thought :=
      mkThought (clock w (reads w)) (clock w (S (reads w))) thoughtData in
    let s := system w in
    let c := conversationContext s in
    (tt, mkWorld (pad w) (engine w)
           (mkSystem (thoughtChain s ++ [thought])
              (mkContext (taskDescription c) (currentIteration c) (totalIterations c)
                 (ctx_thoughtChain c ++ [thought])
                 (match th_phase thoughtData with
                  | T_EXPLORE => "data_collection"
                  | T_THINK => "analysis"
                  | T_EXECUTE => "decision_making"
                  | T_REFLECT => "learning"
                  end)
                 (lastActionResult c) (convergenceLevel c))
              (isThinkingActive s) (convergenceThreshold s))
           (clock w) (S (S (reads w)))).
Proof. reflexivity. Qed.

Lemma addThought_pad td : preserves pad (addThought td).
Proof. intros w; reflexivity. Qed.
Lemma addThought_engine td : preserves engine (addThought td).
Proof. intros w; reflexivity. Qed.
Lemma addThought_clock td : preserves clock (addThought td).
Proof. intros w; reflexivity. Qed.
Lemma addThought_convergence td : preserves convergence (addThought td).
Proof. intros w; reflexivity. Qed.
Lemma addThought_iteration td : preserves iteration (addThought td).
Proof. intros w; reflexivity. Qed.
Lemma addThought_active td : preserves active (addThought td).
Proof. intros w; reflexivity. Qed.
Lemma addThought_threshold td : preserves threshold (addThought td).
Proof. intros w; reflexivity. Qed.
Lemma addThought_pendingResult td : preserves pendingResult (addThought td).
Proof. intros w; reflexivity. Qed.

#[export] Hint Resolve addThought_pad addThought_engine addThought_clock
  addThought_convergence addThought_iteration addThought_active addThought_threshold
  addThought_pendingResult : frame.

(** What leaves the thinking system unchanged leaves its fields unchanged. *)
Lemma preserves_system_field {A B} (f : IntelligentThinkingSystem -> B) (m : M A) :
  preserves system m -> preserves (fun w => f (system w)) m.
Proof. intros H w. rewrite H. reflexivity. Qed.

Lemma preserves_forEachM {A B} (proj : World -> B) (f : A -> M unit) (l : list A) :
  (forall a, preserves proj (f a)) -> preserves proj (forEachM f l).
Proof. intros H. induction l as [|x l IH]; cbn [forEachM]; frame. Qed.

Section ThoughtFrames.

Context {B : Type} (proj : World -> B).
Hypothesis proj_Date_now : preserves proj Date_now.
Hypothesis proj_addThought : forall td, preserves proj (addThought td).
Hypothesis proj_put_engine : forall e, preserves proj (put_engine e).

Lemma preserves_analyzeCurrentSituation : preserves proj analyzeCurrentSituation.
Proof using proj_addThought. unfold analyzeCurrentSituation. frame. Qed.

Lemma preserves_performIntelligentExploration strategy :
  preserves proj (performIntelligentExploration strategy).
Proof using proj_addThought.
  unfold performIntelligentExploration. frame.
  apply preserves_forEachM. intros; apply proj_addThought.
Qed.

Lemma preserves_performDeepReasoning : preserves proj performDeepReasoning.
Proof using proj_addThought proj_Date_now.
  pose proof (preserves_toughReasoning proj proj_Date_now).
  unfold performDeepReasoning. frame.
Qed.

Lemma preserves_addThinkingStep ph a r c ev na :
  preserves proj (addThinkingStep ph a r c ev na).
Proof using proj_Date_now proj_put_engine. unfold addThinkingStep. frame. Qed.

Lemma preserves_makeFinalDecision : preserves proj makeFinalDecision.
Proof using proj_Date_now proj_put_engine.
  pose proof (preserves_toughReasoning proj proj_Date_now).
  pose proof preserves_addThinkingStep.
  unfold makeFinalDecision, buildDecisionContext, generateFinalDecision. frame.
Qed.

Lemma preserves_makeIntelligentDecision : preserves proj makeIntelligentDecision.
Proof using proj_Date_now proj_put_engine proj_addThought.
  pose proof preserves_makeFinalDecision.
  unfold makeIntelligentDecision. frame.
Qed.

End ThoughtFrames.

(** ** The classification of [analyzeCurrentSituation] *)

(** The flags that [analyzeCurrentSituation] returns, as a function of what
    it reads: the summary, the phase and the iteration. *)
Definition situationOf (summary : ExplorationSummary) (currentPhase : Phase) (iteration : Z)
  : SituationAnalysis :=
  if (totalEntries summary <? 3)%Z && Phase_eqb currentPhase EXPLORE then
    mkSituation true false false ["auto_explore"; "read_key_files"; "search_patterns"]
                EmptyString
  else if JS.lt (confidenceScore summary) 0.7 && Phase_eqb currentPhase THINK then
    mkSituation false true false [] "evidence_evaluation"
  else if JS.ge (confidenceScore summary) 0.8 || (5 <=? iteration)%Z then
    mkSituation false false true [] EmptyString
  else
    mkSituation true false false ["targeted_search"; "deep_file_analysis"] EmptyString.

Lemma analyzeCurrentSituation_flags (w : World) :
  fst (analyzeCurrentSituation w) =
    situationOf (generateSummary (pad w)) (currentPhase (pad w)) (iteration w).
Proof.
  unfold analyzeCurrentSituation, situationOf, getCurrentPhase, iteration.
  rewrite !run_bind. cbn [get_pad get_system fst snd].
  destruct (_ && _); [rewrite run_bind; reflexivity|].
  destruct (_ && _); [rewrite run_bind; reflexivity|].
  destruct (_ || _); rewrite run_bind; reflexivity.
Qed.

(** The branches that the loop of [executeThinkingLoop] distinguishes. *)
Inductive Branch : Type :=
| NeedsExploration (strategy : list string)
| NeedsDeepReasoning
| CanDecide.

(** The branch that the loop takes on an analysis: it tests
    [needsMoreExploration], then [needsDeepReasoning], then
    [canMakeDecision]. *)
Definition branchOf (a : SituationAnalysis) : option Branch :=
  if needsMoreExploration a then Some (NeedsExploration (explorationStrategy a))
  else if needsDeepReasoning a then Some NeedsDeepReasoning
  else if canMakeDecision a then Some CanDecide
  else None.

(** The classification as the specification words it: four guarded
    branches, of which the first whose guard holds wins. *)
Definition classificationRules (totalEntries : Z) (score : Q) (phase : Phase) (iteration : Z)
  : list (bool * Branch) :=
  [ ((totalEntries <? 3)%Z && Phase_eqb phase EXPLORE,
     NeedsExploration ["auto_explore"; "read_key_files"; "search_patterns"]);
    (JS.lt score 0.7 && Phase_eqb phase THINK, NeedsDeepReasoning);
    (JS.ge score 0.8 || (5 <=? iteration)%Z, CanDecide);
    (true, NeedsExploration ["targeted_search"; "deep_file_analysis"]) ].

Definition firstMatch (rules : list (bool * Branch)) : option Branch :=
  option_map snd (List.find fst rules).

Lemma branchOf_first_match (w : World) :
  branchOf (fst (analyzeCurrentSituation w)) =
    firstMatch (classificationRules (totalEntries (generateSummary (pad w)))
                  (confidenceScore (generateSummary (pad w)))
                  (currentPhase (pad w)) (iteration w)).
Proof.
  rewrite analyzeCurrentSituation_flags.
  unfold situationOf, classificationRules, firstMatch, branchOf.
  cbn [List.find fst snd].
  destruct (_ && _); [reflexivity|].
  destruct (_ && _); [reflexivity|].
  destruct (_ || _); reflexivity.
Qed.

(** Every analysis sets one of the three flags. *)
Lemma analyzeCurrentSituation_some_flag (w : World) :
  let a := fst (analyzeCurrentSituation w) in
  needsMoreExploration a || needsDeepReasoning a || canMakeDecision a = true.
Proof.
  cbv zeta. rewrite analyzeCurrentSituation_flags. unfold situationOf.
  repeat match goal with |- context [if ?b then _ else _] => destruct b end; reflexivity.
Qed.

(** ** One iteration of [executeThinkingLoop] *)

(** [this.conversationContext.totalIterations = maxIterations] *)
Definition setTotalIterations (maxIterations : Z) : M unit :=
  set_context (fun c =>
    mkContext (taskDescription c) (currentIteration c) maxIterations
              (ctx_thoughtChain c) (currentFocus c) (lastActionResult c)
              (convergenceLevel c)).

(** [this.conversationContext.currentIteration++] *)
Definition incrementIteration : M unit :=
  set_context (fun c =>
    mkContext (taskDescription c) (currentIteration c + 1)%Z (totalIterations c)
              (ctx_thoughtChain c) (currentFocus c) (lastActionResult c)
              (convergenceLevel c)).

(** The world in which the first iteration of [executeThinkingLoop(m)]
    analyses the situation. *)
Definition firstIteration (maxIterations : Z) (w : World) : World :=
  snd (incrementIteration (snd (setTotalIterations maxIterations w))).

Lemma thinkingLoop_can_decide (Math_sqrt : Q -> Q) (fuel : nat) (maxIterations : Z)
  (w : World) :
  (iteration w <? maxIterations)%Z && active w = true ->
  branchOf (fst (analyzeCurrentSituation (snd (incrementIteration w)))) = Some CanDecide ->
  thinkingLoop Math_sqrt (S fuel) maxIterations w =
    let w2 := snd (analyzeCurrentSituation (snd (incrementIteration w))) in
    (Returned (fst (makeIntelligentDecision w2)),
     snd (set_isThinkingActive false (snd (makeIntelligentDecision w2)))).
Proof.
  intros Hcond Hbranch. cbn [thinkingLoop]. rewrite run_bind. cbn [get_system fst snd].
  unfold iteration, active in Hcond. rewrite Hcond.
  rewrite run_bind. fold incrementIteration. rewrite run_bind.
  unfold branchOf in Hbranch.
  destruct (needsMoreExploration _); [discriminate|].
  destruct (needsDeepReasoning _); [discriminate|].
  destruct (canMakeDecision _); [|discriminate].
  rewrite !run_bind. reflexivity.
Qed.

Lemma thinkingLoop_exit (Math_sqrt : Q -> Q) (fuel : nat) (maxIterations : Z) (w : World) :
  (iteration w <? maxIterations)%Z && active w = false ->
  thinkingLoop Math_sqrt fuel maxIterations w = (Exited, w).
Proof.
  intros Hcond. destruct fuel; cbn [thinkingLoop]; rewrite run_bind;
    cbn [get_system fst snd]; unfold iteration, active in Hcond; rewrite Hcond; reflexivity.
Qed.

Lemma executeThinkingLoop_unfold (Math_sqrt : Q -> Q) (maxIterations : Z) (w : World) :
  executeThinkingLoop Math_sqrt maxIterations w =
    let w0 := snd (setTotalIterations maxIterations w) in
    let looped :=
      thinkingLoop Math_sqrt (Z.to_nat (maxIterations - iteration w0)) maxIterations w0 in
    match fst looped with
    | Returned decision => (Some decision, snd looped)
    | Exited =>
        (Some (fst (makeIntelligentDecision (snd looped))),
         snd (set_isThinkingActive false (snd (makeIntelligentDecision (snd looped)))))
    | OutOfFuel => (None, snd looped)
    end.
Proof.
  unfold executeThinkingLoop. fold (setTotalIterations maxIterations).
  rewrite !run_bind. cbn [get_system fst snd]. cbv zeta. unfold iteration.
  destruct (fst (thinkingLoop _ _ _ _)); [reflexivity | | reflexivity].
  rewrite !run_bind. reflexivity.
Qed.

Lemma makeIntelligentDecision_iteration : preserves iteration makeIntelligentDecision.
Proof.
  apply preserves_makeIntelligentDecision; auto with frame.
Qed.

Lemma analyzeCurrentSituation_iteration : preserves iteration analyzeCurrentSituation.
Proof. apply preserves_analyzeCurrentSituation; auto with frame. Qed.

(** A rational approximation of the square root from below, to six
    decimals: an instance of [Math.sqrt] on which the loop can be run. *)
Definition sqrtApprox (q : Q) : Q :=
  inject_Z (Z.sqrt (Qfloor (q * 1000000000000))) / 1000000.

(** C7 (amended): on a thinking system that is active and has not iterated
    yet, over a store whose score is at least 0.8 and that has at least
    three entries or is not in the EXPLORE phase, [executeThinkingLoop(1)]
    returns a decision from inside its first iteration, through the
    can-decide branch: the iteration counter ends at 1 and the system is no
    longer active.  In every state the branch taken is the first whose guard
    holds, in the order: fewer than 3 entries in phase EXPLORE, exploration;
    score below 0.7 in phase THINK, deep reasoning; score at least 0.8 or
    iteration at least 5, decision; otherwise exploration. *)
Theorem executeThinkingLoop_decides_in_first_iteration :
  forall (Math_sqrt : Q -> Q) (w : World),
    active w = true ->
    iteration w = 0%Z ->
    JS.ge (confidenceScore (generateSummary (pad w))) 0.8 = true ->
    (totalEntries (generateSummary (pad w)) <? 3)%Z
      && Phase_eqb (currentPhase (pad w)) EXPLORE = false ->
    let ran := executeThinkingLoop Math_sqrt 1 w in
    (exists d : ThinkingResult,
       fst ran = Some d /\
       fst (thinkingLoop Math_sqrt 1 1 (snd (setTotalIterations 1 w))) = Returned d) /\
    iteration (snd ran) = 1%Z /\
    active (snd ran) = false /\
    branchOf (fst (analyzeCurrentSituation (firstIteration 1 w))) = Some CanDecide /\
    (forall w' : World,
       branchOf (fst (analyzeCurrentSituation w')) =
         firstMatch (classificationRules (totalEntries (generateSummary (pad w')))
                       (confidenceScore (generateSummary (pad w')))
                       (currentPhase (pad w')) (iteration w'))).
Proof.
  intros Math_sqrt w Hactive Hiter Hscore Hfew ran.
  set (w0 := snd (setTotalIterations 1 w)).
  assert (Hbranch : branchOf (fst (analyzeCurrentSituation (firstIteration 1 w)))
                    = Some CanDecide).
  { rewrite branchOf_first_match. unfold firstIteration.
    change (pad (snd (incrementIteration (snd (setTotalIterations 1 w))))) with (pad w).
    unfold classificationRules, firstMatch. cbn [List.find fst snd].
    rewrite Hfew.
    replace (JS.lt (confidenceScore (generateSummary (pad w))) 0.7) with false.
    - cbn [andb]. rewrite Hscore. reflexivity.
    - symmetry. unfold JS.lt. apply negb_false_iff. apply Qle_bool_iff.
      unfold JS.ge, JS.le in Hscore. apply Qle_bool_iff in Hscore. lra. }
  assert (Hcond : (iteration w0 <? 1)%Z && active w0 = true).
  { change (iteration w0) with (iteration w). change (active w0) with (active w).
    rewrite Hiter, Hactive. reflexivity. }
  assert (Hloop := thinkingLoop_can_decide Math_sqrt 0 1 w0 Hcond Hbranch).
  cbv zeta in Hloop.
  assert (Hfuel : Z.to_nat (1 - iteration w0) = 1%nat).
  { change (iteration w0) with (iteration w). rewrite Hiter. reflexivity. }
  assert (Hrun : ran =
            (Some (fst (makeIntelligentDecision
                          (snd (analyzeCurrentSituation (snd (incrementIteration w0)))))),
             snd (set_isThinkingActive false
                    (snd (makeIntelligentDecision
                            (snd (analyzeCurrentSituation (snd (incrementIteration w0))))))))).
  { subst ran. rewrite executeThinkingLoop_unfold. cbv zeta. fold w0.
    rewrite Hfuel, Hloop. reflexivity. }
  split; [|split; [|split; [|split]]].
  - eexists. rewrite Hrun, Hloop. split; reflexivity.
  - rewrite Hrun. cbn [snd].
    change (iteration (snd (set_isThinkingActive false ?x))) with (iteration x).
    rewrite makeIntelligentDecision_iteration, analyzeCurrentSituation_iteration.
    change (iteration (snd (incrementIteration w0))) with (iteration w + 1)%Z.
    rewrite Hiter. reflexivity.
  - rewrite Hrun. reflexivity.
  - exact Hbranch.
  - exact branchOf_first_match.
Qed.

(** An active thinking system over a fresh store, and the same after one
    search of confidence 0.9 has been stored. *)
Definition initializedWorld : World :=
  snd (initializeIntelligentThinking "task" freshWorld).

Definition oneEntryWorld : World :=
  snd (addEntry (searchEntry "auth" (TextResponse "found") 0.9) initializedWorld).

(** Three such searches in a store. *)
Definition threeEntryWorld : World :=
  snd (addEntries [searchEntry "auth" (TextResponse "found") 0.9;
                   searchEntry "login" (TextResponse "found") 0.9;
                   searchEntry "token" (TextResponse "found") 0.9] initializedWorld).

Lemma executeThinkingLoop_decides_in_first_iteration_witness :
  iteration (snd (executeThinkingLoop sqrtApprox 1 threeEntryWorld)) = 1%Z.
Proof.
  refine (proj1 (proj2
    (executeThinkingLoop_decides_in_first_iteration sqrtApprox threeEntryWorld _ _ _ _)));
    vm_compute; reflexivity.
Defined.

(** C7 (counterexample): the store has score 0.9 but one entry, in phase
    EXPLORE; the first and only iteration of [executeThinkingLoop(1)]
    classifies the situation as needing exploration, the loop ends without
    returning, and the decision comes from the forced call after the loop. *)
Lemma executeThinkingLoop_explores_despite_high_score :
  active oneEntryWorld = true /\
  iteration oneEntryWorld = 0%Z /\
  JS.ge (confidenceScore (generateSummary (pad oneEntryWorld))) 0.8 = true /\
  branchOf (fst (analyzeCurrentSituation (firstIteration 1 oneEntryWorld)))
    = Some (NeedsExploration ["auto_explore"; "read_key_files"; "search_patterns"]) /\
  fst (thinkingLoop sqrtApprox 1 1 (snd (setTotalIterations 1 oneEntryWorld))) = Exited /\
  option_map finalDecision (fst (executeThinkingLoop sqrtApprox 1 oneEntryWorld))
    = Some "Solução identificada com confiança moderada".
Proof. vm_compute. repeat split; reflexivity. Qed.

(** ** The convergence level *)

(** The convergence of the specification: [min(1, storeConfidence +
    min(0.3, iteration * 0.05) + 0.2 * consistency)], where consistency is
    [max(0, 1 - sqrt(variance))] of the confidences of the thoughts so far,
    and 0.5 when there are fewer than two of them. *)
Definition variance (l : list Q) : Q :=
  let n := inject_Z (Z.of_nat (length l)) in
  let avg := fold_left (fun a b : Q => a + b) l 0 / n in
  fold_left (fun sum x : Q => sum + (x - avg) ^ 2) l 0 / n.

Definition consistencySpec (Math_sqrt : Q -> Q) (l : list Q) : Q :=
  if (length l <? 2)%nat then 0.5 else Qmax 0 (1 - Math_sqrt (variance l)).

Definition convergenceSpec (Math_sqrt : Q -> Q) (storeConfidence : Q) (iteration : Z)
  (thoughtConfidences : list Q) : Q :=
  Qmin 1 (storeConfidence + Qmin 0.3 (inject_Z iteration * 0.05)
          + 0.2 * consistencySpec Math_sqrt thoughtConfidences).

Definition thoughtConfidences (w : World) : list Q :=
  map (fun t : IntelligentThought => th_confidence t) (thoughtChain (system w)).

Lemma calculateThoughtConsistency_spec (Math_sqrt : Q -> Q) (s : IntelligentThinkingSystem) :
  calculateThoughtConsistency Math_sqrt s =
    consistencySpec Math_sqrt
      (map (fun t : IntelligentThought => th_confidence t) (thoughtChain s)).
Proof.
  unfold calculateThoughtConsistency, consistencySpec, variance.
  rewrite length_map. reflexivity.
Qed.

Lemma consistencySpec_nonneg (Math_sqrt : Q -> Q) (l : list Q) :
  0 <= consistencySpec Math_sqrt l.
Proof.
  unfold consistencySpec. destruct (length l <? 2)%nat; [lra|]. apply Q.le_max_l.
Qed.

Lemma updateConvergenceLevel_convergence (Math_sqrt : Q -> Q) (w : World) :
  convergence (snd (updateConvergenceLevel Math_sqrt w)) =
    Qmin 1 (confidenceScore (generateSummary (pad w))
            + Qmin 0.3 (inject_Z (iteration w) * 0.05)
            + calculateThoughtConsistency Math_sqrt (system w) * 0.2).
Proof. reflexivity. Qed.

(** ** No iteration reaches the convergence update *)

Lemma preserves_bind_post {A B C} (proj : World -> C) (m : M A) (k : A -> M B)
  (P : A -> Prop) :
  preserves proj m -> (forall w, P (fst (m w))) ->
  (forall a, P a -> preserves proj (k a)) -> preserves proj (bind m k).
Proof.
  intros Hm HP Hk w. unfold bind. specialize (Hm w). specialize (HP w).
  destruct (m w) as [a w']. cbn [fst snd] in Hm, HP. rewrite (Hk a HP). exact Hm.
Qed.

Section LoopFrames.

Variable Math_sqrt : Q -> Q.
Context {B : Type} (proj : World -> B).
Hypothesis proj_Date_now : preserves proj Date_now.
Hypothesis proj_addThought : forall td, preserves proj (addThought td).
Hypothesis proj_put_engine : forall e, preserves proj (put_engine e).
Hypothesis proj_set_isThinkingActive : forall b, preserves proj (set_isThinkingActive b).
Hypothesis proj_incrementIteration : preserves proj incrementIteration.

(** Every iteration ends in one of the first three branches, so the loop
    changes nothing that those branches, the counter and the activity flag
    do not change; the reflection and the convergence update after them
    are never reached. *)
Lemma preserves_thinkingLoop (fuel : nat) (maxIterations : Z) :
  preserves proj (thinkingLoop Math_sqrt fuel maxIterations).
Proof using proj_Date_now proj_addThought proj_put_engine proj_set_isThinkingActive
  proj_incrementIteration.
  induction fuel as [|fuel IH]; cbn [thinkingLoop].
  - frame.
  - apply preserves_bind; [frame | intros s].
    destruct (_ && _); [|frame].
    apply preserves_bind; [exact proj_incrementIteration | intros _].
    apply (preserves_bind_post proj _ _
             (fun a => needsMoreExploration a || needsDeepReasoning a
                       || canMakeDecision a = true)).
    + apply preserves_analyzeCurrentSituation, proj_addThought.
    + apply analyzeCurrentSituation_some_flag.
    + intros a Ha.
      destruct (needsMoreExploration a).
      { apply preserves_bind; [|intros _; exact IH].
        apply preserves_performIntelligentExploration, proj_addThought. }
      destruct (needsDeepReasoning a).
      { apply preserves_bind; [|intros _; exact IH].
        apply preserves_performDeepReasoning; assumption. }
      destruct (canMakeDecision a); [|discriminate Ha].
      apply preserves_bind; [|intros d].
      * apply preserves_makeIntelligentDecision; assumption.
      * apply preserves_bind; [apply proj_set_isThinkingActive | intros _; frame].
Qed.

End LoopFrames.

Lemma thinkingLoop_convergence (Math_sqrt : Q -> Q) (fuel : nat) (maxIterations : Z) :
  preserves convergence (thinkingLoop Math_sqrt fuel maxIterations).
Proof.
  apply preserves_thinkingLoop; auto with frame; intros; intros w; reflexivity.
Qed.

Lemma thinkingLoop_pad (Math_sqrt : Q -> Q) (fuel : nat) (maxIterations : Z) :
  preserves pad (thinkingLoop Math_sqrt fuel maxIterations).
Proof.
  apply preserves_thinkingLoop; auto with frame; intros; intros w; reflexivity.
Qed.

Lemma executeThinkingLoop_convergence (Math_sqrt : Q -> Q) (maxIterations : Z) :
  preserves convergence (executeThinkingLoop Math_sqrt maxIterations).
Proof.
  intros w. rewrite executeThinkingLoop_unfold. cbv zeta.
  pose proof (thinkingLoop_convergence Math_sqrt
                (Z.to_nat (maxIterations - iteration (snd (setTotalIterations maxIterations w))))
                maxIterations (snd (setTotalIterations maxIterations w))) as Hloop.
  change (convergence (snd (setTotalIterations maxIterations w))) with (convergence w)
    in Hloop.
  destruct (fst (thinkingLoop _ _ _ _)); cbn [snd]; try exact Hloop.
  change (convergence (snd (set_isThinkingActive false ?x))) with (convergence x).
  rewrite <- Hloop.
  apply (preserves_makeIntelligentDecision convergence); auto with frame.
Qed.

Lemma executeThinkingLoop_pad (Math_sqrt : Q -> Q) (maxIterations : Z) :
  preserves pad (executeThinkingLoop Math_sqrt maxIterations).
Proof.
  intros w. rewrite executeThinkingLoop_unfold. cbv zeta.
  pose proof (thinkingLoop_pad Math_sqrt
                (Z.to_nat (maxIterations - iteration (snd (setTotalIterations maxIterations w))))
                maxIterations (snd (setTotalIterations maxIterations w))) as Hloop.
  change (pad (snd (setTotalIterations maxIterations w))) with (pad w) in Hloop.
  destruct (fst (thinkingLoop _ _ _ _)); cbn [snd]; try exact Hloop.
  change (pad (snd (set_isThinkingActive false ?x))) with (pad x).
  rewrite <- Hloop.
  apply (preserves_makeIntelligentDecision pad); auto with frame.
Qed.

(** ** Reachable worlds *)

(** The public operations of the scratchpad, the engine, the thinking
    system and the reasoning tool. *)
Inductive Operation : Type :=
| Op_addEntry (entry : EntryFields)
| Op_transitionToNextPhase
| Op_reset
| Op_toughReasoning (maxIterations : Z) (minConfidence : Q)
| Op_initializeTask (task : string)
| Op_thinkBeforeAction (tool : string) (params : ToolParams)
| Op_analyzeResult (tool : string) (params : ToolParams) (response : ToolResponse)
| Op_makeFinalDecision
| Op_initializeIntelligentThinking (task : string)
| Op_executeThinkingLoop (maxIterations : Z)
| Op_registerActionResult (response : ToolResponse)
| Op_stopThinking
| Op_performToughReasoning (maxIterations : Z) (minConfidence : Q).

Definition discard {A} (m : M A) : M unit := do _x <- m; ret tt.

Definition perform (Math_sqrt : Q -> Q) (op : Operation) : M unit :=
  match op with
  | Op_addEntry entry => addEntry entry
  | Op_transitionToNextPhase => transitionToNextPhase
  | Op_reset => reset
  | Op_toughReasoning m c => discard (toughReasoning m c)
  | Op_initializeTask task => initializeTask task
  | Op_thinkBeforeAction tool params => discard (thinkBeforeAction tool params)
  | Op_analyzeResult tool params response => discard (analyzeResult tool params response)
  | Op_makeFinalDecision => discard makeFinalDecision
  | Op_initializeIntelligentThinking task => initializeIntelligentThinking task
  | Op_executeThinkingLoop m => discard (executeThinkingLoop Math_sqrt m)
  | Op_registerActionResult response => registerActionResult response
  | Op_stopThinking => stopThinking
  | Op_performToughReasoning m c => discard (ReasoningToolHandler.performToughReasoning m c)
  end.

(** An entry is stored with a confidence between 0 and 1. *)
Definition admissible (op : Operation) : Prop :=
  match op with
  | Op_addEntry entry => 0 <= confidence entry <= 1
  | _ => True
  end.

(** The worlds that operations reach from a newly constructed scratchpad,
    engine and thinking system, under any clock. *)
Inductive reachable (Math_sqrt : Q -> Q) : World -> Prop :=
| reachable_new (padStart engineStart : Z) (clock : nat -> Z) (reads : nat) :
    reachable Math_sqrt
      (mkWorld (newScratchpad padStart) (mkEngine [] engineStart EmptyString) newSystem
               clock reads)
| reachable_step (w : World) (op : Operation) :
    reachable Math_sqrt w -> admissible op ->
    reachable Math_sqrt (snd (perform Math_sqrt op w)).

Lemma preserves_discard {A B} (proj : World -> B) (m : M A) :
  preserves proj m -> preserves proj (discard m).
Proof. intros H. unfold discard. frame. Qed.

Lemma perform_convergence (Math_sqrt : Q -> Q) (op : Operation) :
  preserves convergence (perform Math_sqrt op).
Proof.
  pose proof (preserves_toughReasoning convergence Date_now_convergence) as Htough.
  pose proof (preserves_addThinkingStep convergence Date_now_convergence
                put_engine_convergence) as Hstep.
  destruct op; cbn [perform].
  - intros w; reflexivity.
  - intros w; reflexivity.
  - intros w; reflexivity.
  - apply preserves_discard, Htough.
  - unfold initializeTask. frame.
  - apply preserves_discard. unfold thinkBeforeAction. frame.
  - apply preserves_discard. unfold analyzeResult. frame.
  - apply preserves_discard, preserves_makeFinalDecision; auto with frame.
  - unfold initializeIntelligentThinking. frame.
  - apply preserves_discard, executeThinkingLoop_convergence.
  - intros w; reflexivity.
  - intros w; reflexivity.
  - apply preserves_discard. unfold ReasoningToolHandler.performToughReasoning. frame.
Qed.

(** No operation changes the convergence level: it keeps the value 0 that
    the constructor gives it. *)
Lemma reachable_convergence (Math_sqrt : Q -> Q) (w : World) :
  reachable Math_sqrt w -> convergence w = 0.
Proof.
  induction 1 as [| w op _ IH _].
  - reflexivity.
  - rewrite perform_convergence. exact IH.
Qed.

(** C8 (amended): each call of [updateConvergenceLevel] sets the convergence
    level to [min(1, storeConfidence + min(0.3, iteration * 0.05)
    + 0.2 * consistency)], with the consistency of the specification, and
    for a log of non-negative confidences and a non-negative iteration
    count that value lies in [0,1], whatever the thoughts and whatever
    [Math.sqrt] returns; and in every reachable world the convergence level
    lies in [0,1]. *)
Theorem convergence_formula_and_bounds :
  forall Math_sqrt : Q -> Q,
    (forall w : World,
       nonnegativeLog (pad w) -> (0 <= iteration w)%Z ->
       let w' := snd (updateConvergenceLevel Math_sqrt w) in
       convergence w' ==
         convergenceSpec Math_sqrt (confidenceScore (generateSummary (pad w)))
           (iteration w) (thoughtConfidences w) /\
       0 <= convergence w' <= 1) /\
    (forall w : World, reachable Math_sqrt w -> 0 <= convergence w <= 1).
Proof.
  intros Math_sqrt. split.
  - intros w Hlog Hiter w'. subst w'. rewrite updateConvergenceLevel_convergence.
    rewrite calculateThoughtConsistency_spec. fold (thoughtConfidences w).
    pose proof (consistencySpec_nonneg Math_sqrt (thoughtConfidences w)) as Hc.
    pose proof (confidenceScore_nonneg _ Hlog) as Hs.
    assert (Hb : 0 <= Qmin 0.3 (inject_Z (iteration w) * 0.05)).
    { apply Q.min_glb; [lra|]. apply Qmult_le_0_compat; [apply inject_Z_nonneg, Hiter | lra]. }
    split; [|split].
    + unfold convergenceSpec.
      rewrite (Qmult_comm (consistencySpec Math_sqrt (thoughtConfidences w)) 0.2).
      reflexivity.
    + apply Q.min_glb; lra.
    + apply Q.le_min_l.
  - intros w Hw. rewrite (reachable_convergence _ _ Hw). lra.
Qed.

Lemma convergence_formula_and_bounds_witness :
  0 <= convergence (snd (updateConvergenceLevel sqrtApprox threeEntryWorld)) <= 1.
Proof.
  refine (proj2 (proj1 (convergence_formula_and_bounds sqrtApprox) threeEntryWorld _ _)).
  - unfold nonnegativeLog. vm_compute. repeat constructor; discriminate.
  - vm_compute. discriminate.
Defined.

(** C8 (counterexample): an active thinking system over an empty store runs
    one iteration of the loop; the iteration explores and continues, and the
    convergence level after it is still 0, not the value of the formula,
    which is at least 0.05. *)
Lemma iteration_leaves_convergence_unset :
  let w := snd (thinkingLoop sqrtApprox 1 1 (snd (setTotalIterations 1 initializedWorld))) in
  iteration w = 1%Z /\
  convergence w == 0 /\
  0.05 <= convergenceSpec sqrtApprox (confidenceScore (generateSummary (pad w)))
            (iteration w) (thoughtConfidences w) /\
  ~ convergence w ==
      convergenceSpec sqrtApprox (confidenceScore (generateSummary (pad w)))
        (iteration w) (thoughtConfidences w).
Proof.
  vm_compute. repeat split; try reflexivity; intros H; discriminate H.
Qed.

(** * Further properties of the code *)

(** ** The log and the cache of the scratchpad *)

(** A log is newest first when timestamps never increase along it. *)
Definition newestFirst (l : list ExplorationEntry) : Prop :=
  StronglySorted (fun a b : ExplorationEntry => (timestamp b <= timestamp a)%Z) l.

Lemma insert_newest_first_In x y l :
  In y (insert_newest_first x l) -> y = x \/ In y l.
Proof.
  intros H. apply (Permutation_in _ (insert_newest_first_Permutation x l)) in H.
  destruct H as [H|H]; [left; symmetry; exact H | right; exact H].
Qed.

Lemma insert_newest_first_sorted x l : newestFirst l -> newestFirst (insert_newest_first x l).
Proof.
  unfold newestFirst. induction 1 as [|y l Hl IH Hy]; cbn [insert_newest_first].
  - repeat constructor.
  - destruct (timestamp x <? timestamp y)%Z eqn:E.
    + apply Z.ltb_lt in E. constructor; [exact IH|].
      apply List.Forall_forall. intros z Hz. apply insert_newest_first_In in Hz.
      destruct Hz as [->|Hz]; [lia|]. rewrite List.Forall_forall in Hy. apply Hy, Hz.
    + apply Z.ltb_ge in E. constructor; [constructor; assumption|].
      constructor; [exact E|]. rewrite List.Forall_forall in Hy |- *.
      intros z Hz. specialize (Hy z Hz). lia.
Qed.

Lemma sort_newest_first_sorted l : newestFirst (sort_newest_first l).
Proof.
  induction l as [|x l IH]; cbn [sort_newest_first fold_right].
  - constructor.
  - apply insert_newest_first_sorted, IH.
Qed.

(** [addEntry] adds one entry to the log and keeps the phase. *)
Lemma addEntry_length_phase (entry : EntryFields) (w : World) :
  length (entries (pad (snd (addEntry entry w)))) = S (length (entries (pad w))) /\
  currentPhase (pad (snd (addEntry entry w))) = currentPhase (pad w).
Proof.
  rewrite addEntry_run. cbn [snd pad entries currentPhase]. split; [|reflexivity].
  rewrite (Permutation_length (sort_newest_first_Permutation _)).
  rewrite length_app. cbn [length]. lia.
Qed.

(** X1: whatever the log was, after [addEntry] it is ordered newest first,
    holds the old entries and the new one stamped with the time of the
    call, and neither the phase nor the start time has changed. *)
Theorem addEntry_log_sorted_and_complete :
  forall (entry : EntryFields) (w : World),
    let p' := pad (snd (addEntry entry w)) in
    newestFirst (entries p') /\
    Permutation (entries p') (mkEntry entry (clock w (reads w)) :: entries (pad w)) /\
    length (entries p') = S (length (entries (pad w))) /\
    currentPhase p' = currentPhase (pad w) /\
    explorationStartTime p' = explorationStartTime (pad w).
Proof.
  intros entry w p'. subst p'. rewrite addEntry_run. cbn [snd pad entries currentPhase
    explorationStartTime].
  assert (HP : Permutation (sort_newest_first
                              (entries (pad w) ++ [mkEntry entry (clock w (reads w))]))
                           (mkEntry entry (clock w (reads w)) :: entries (pad w))).
  { rewrite sort_newest_first_Permutation. symmetry. apply Permutation_cons_append. }
  repeat split.
  - apply sort_newest_first_sorted.
  - exact HP.
  - rewrite (Permutation_length HP). reflexivity.
Qed.

(** On a log that is already newest first, sorting changes nothing. *)
Lemma sort_newest_first_id l : newestFirst l -> sort_newest_first l = l.
Proof.
  unfold newestFirst. induction 1 as [|x l Hl IH Hx]; cbn [sort_newest_first fold_right].
  - reflexivity.
  - fold (sort_newest_first l). rewrite IH.
    destruct l as [|y l']; [reflexivity|]. cbn [insert_newest_first].
    inversion Hx as [|? ? Hy _]; subst.
    replace (timestamp x <? timestamp y)%Z with false; [reflexivity|].
    symmetry. apply Z.ltb_ge. exact Hy.
Qed.

Lemma sort_newest_first_snoc_newer l x :
  newestFirst l -> Forall (fun y : ExplorationEntry => (timestamp y < timestamp x)%Z) l ->
  sort_newest_first (l ++ [x]) = x :: l.
Proof.
  unfold newestFirst. intros Hs Hf.
  induction l as [|y l IH]; cbn [app sort_newest_first fold_right].
  - reflexivity.
  - fold (sort_newest_first (l ++ [x])).
    apply StronglySorted_inv in Hs. destruct Hs as [Hs Hy].
    apply List.Forall_cons_iff in Hf. destruct Hf as [Hyx Hf].
    rewrite (IH Hs Hf). cbn [insert_newest_first].
    replace (timestamp y <? timestamp x)%Z with true by (symmetry; apply Z.ltb_lt; exact Hyx).
    f_equal. destruct l as [|z l']; [reflexivity|]. cbn [insert_newest_first].
    apply List.Forall_cons_iff in Hy. destruct Hy as [Hzy _].
    replace (timestamp y <? timestamp z)%Z with false; [reflexivity|].
    symmetry. apply Z.ltb_ge. exact Hzy.
Qed.

(** X2: when the clock shows a later time than every stored timestamp and
    the log is newest first, [addEntry] puts the new entry at the head of
    the log and leaves the rest as it was. *)
Theorem addEntry_newer_goes_first :
  forall (entry : EntryFields) (w : World),
    newestFirst (entries (pad w)) ->
    Forall (fun y : ExplorationEntry => (timestamp y < clock w (reads w))%Z) (entries (pad w)) ->
    entries (pad (snd (addEntry entry w)))
      = mkEntry entry (clock w (reads w)) :: entries (pad w).
Proof.
  intros entry w Hs Hf. rewrite addEntry_run. cbn [snd pad entries].
  apply sort_newest_first_snoc_newer; assumption.
Qed.

Lemma addEntry_newer_goes_first_witness :
  entries (pad (snd (addEntry (searchEntry "login" (TextResponse "found") 0.7) oneEntryWorld)))
  = mkEntry (searchEntry "login" (TextResponse "found") 0.7)
            (clock oneEntryWorld (reads oneEntryWorld))
    :: entries (pad oneEntryWorld).
Proof.
  apply addEntry_newer_goes_first.
  - vm_compute. repeat constructor.
  - vm_compute. repeat constructor.
Defined.



(** ** The summary *)

Lemma count_le_length f l : (0 <= count f l <= Z.of_nat (length l))%Z.
Proof.
  unfold count. pose proof (List.filter_length_le f l). lia.
Qed.

Lemma filter_length_implies (f g : ExplorationEntry -> bool) l :
  (forall e, f e = true -> g e = true) ->
  (length (List.filter f l) <= length (List.filter g l))%nat.
Proof.
  intros H. induction l as [|x l IH]; cbn [List.filter]; [lia|].
  destruct (f x) eqn:Ef.
  - rewrite (H x Ef). cbn [length]. lia.
  - destruct (g x); cbn [length]; lia.
Qed.

Lemma filter_length_disjoint (f g : ExplorationEntry -> bool) l :
  (forall e, f e = true -> g e = false) ->
  (length (List.filter f l) + length (List.filter g l) <= length l)%nat.
Proof.
  intros H. induction l as [|x l IH]; cbn [List.filter length]; [lia|].
  destruct (f x) eqn:Ef.
  - rewrite (H x Ef). cbn [length]. lia.
  - destruct (g x); cbn [length]; lia.
Qed.

(** File entries and search entries are disjoint parts of the log. *)
Lemma generateSummary_count_bounds (p : ExplorationScratchpad) :
  (0 <= filesExplored (generateSummary p))%Z /\
  (0 <= searchQueries (generateSummary p))%Z /\
  (filesExplored (generateSummary p) + searchQueries (generateSummary p)
   <= totalEntries (generateSummary p))%Z.
Proof.
  unfold generateSummary. cbn [filesExplored searchQueries totalEntries].
  unfold count. repeat split; try lia.
  rewrite <- Nat2Z.inj_add. apply inj_le, filter_length_disjoint.
  intros e He. apply orb_true_iff in He.
  destruct He as [He|He]; apply String.eqb_eq in He; rewrite He; reflexivity.
Qed.

(** X4: in every summary the list operations are among the files explored,
    files explored and search queries together are at most the entries, no
    count is negative, and there are at most as many key findings as
    entries. *)
Theorem generateSummary_counts :
  forall p : ExplorationScratchpad,
    let s := generateSummary p in
    (0 <= listOperations s <= filesExplored s)%Z /\
    (0 <= searchQueries s)%Z /\
    (filesExplored s + searchQueries s <= totalEntries s)%Z /\
    (length (keyFindings s) <= length (entries p))%nat /\
    totalEntries s = Z.of_nat (length (entries p)).
Proof.
  intros p s. subst s. unfold generateSummary.
  cbn [listOperations filesExplored searchQueries totalEntries keyFindings].
  unfold count. repeat split.
  - lia.
  - apply inj_le, filter_length_implies. intros e He. rewrite He. apply orb_true_r.
  - lia.
  - rewrite <- Nat2Z.inj_add. apply inj_le, filter_length_disjoint.
    intros e He. apply orb_true_iff in He.
    destruct He as [He|He]; apply String.eqb_eq in He; rewrite He; reflexivity.
  - rewrite length_map. apply List.filter_length_le.
Qed.

(** X5: a key finding taken from a text payload or from the [content] of an
    object is the first 100 characters of that text followed by an
    ellipsis, also when nothing was cut: it has at most 103 characters, and
    exactly three more than a text of at most 100. *)
Theorem keyFinding_of_text :
  forall (entry : ExplorationEntry) (text : string),
    result entry = TextResponse text \/
    (exists json, result entry = ObjectResponse (Some text) json) ->
    keyFinding entry = JS.substring0 100 text +:+ "..." /\
    (String.length (keyFinding entry) <= 103)%nat /\
    ((String.length text <= 100)%nat -> keyFinding entry = text +:+ "...").
Proof.
  intros entry text H.
  assert (E : keyFinding entry = JS.substring0 100 text +:+ "...").
  { unfold keyFinding. destruct H as [H | [json H]]; rewrite H; reflexivity. }
  rewrite E. repeat split.
  - rewrite length_string_app. pose proof (length_substring0 100 text).
    cbn [String.length]. lia.
  - intros Hlen. f_equal. unfold JS.substring0. clear -Hlen.
    assert (G : forall n s, (String.length s <= n)%nat -> substring 0 n s = s).
    { induction n as [|n IH]; intros [|c s] Hs; cbn in Hs |- *; try reflexivity; try lia.
      rewrite IH by lia. reflexivity. }
    apply G, Hlen.
Qed.

Lemma keyFinding_of_text_witness :
  keyFinding (mkEntry (searchEntry "auth" (TextResponse "found") 0.9) 0) = "found...".
Proof.
  apply (proj2 (proj2 (keyFinding_of_text
           (mkEntry (searchEntry "auth" (TextResponse "found") 0.9) 0) "found"
           (or_introl eq_refl)))).
  vm_compute. lia.
Defined.

(** ** The action gate of the engine *)

Lemma evaluateToolRelevance_le tool phase summary :
  evaluateToolRelevance tool phase summary <= 0.95.
Proof.
  unfold evaluateToolRelevance.
  repeat match goal with |- context [if ?b then _ else _] => destruct b end; lra.
Qed.

Lemma evaluateToolRelevance_ge tool phase summary :
  0.5 <= evaluateToolRelevance tool phase summary.
Proof.
  unfold evaluateToolRelevance.
  repeat match goal with |- context [if ?b then _ else _] => destruct b end; lra.
Qed.

Lemma calculateActionConfidence_le relevance sufficient score :
  0 <= relevance <= 0.95 -> 0 <= score ->
  calculateActionConfidence relevance sufficient score <= (0.95 + score) / 2.
Proof.
  intros Hr Hs. unfold calculateActionConfidence.
  eapply Qle_trans; [apply Q.le_min_r|].
  destruct sufficient; cbn [negb].
  - apply Qle_shift_div_l; [lra|].
    assert (E : (relevance + score) / 2 * 2 == relevance + score) by (field).
    rewrite E. lra.
  - apply Qle_shift_div_l; [lra|].
    assert (E : (relevance + score) / 2 * 0.8 * 2 == (relevance + score) * 0.8) by (field).
    rewrite E. lra.
Qed.

Lemma thinkBeforeAction_uncached tool params w :
  hasExplored (pad w) tool (extractQueryFromTool tool params) (p_path params) = false ->
  let summary := generateSummary (pad w) in
  let relevance := evaluateToolRelevance tool (currentPhase (pad w)) summary in
  let sufficient := hasSufficientEvidenceForAction tool summary in
  let confidence := calculateActionConfidence relevance sufficient (confidenceScore summary) in
  let v := fst (thinkBeforeAction tool params w) in
  av_confidence v = confidence /\ shouldProceed v = JS.gt confidence 0.6.
Proof.
  intros H. cbv zeta. unfold thinkBeforeAction. rewrite run_bind. cbn [get_pad fst snd].
  rewrite H. rewrite run_bind. cbn [fst av_confidence shouldProceed ret].
  unfold getCurrentPhase. split; reflexivity.
Qed.

Lemma hasExplored_getCachedResult p tool q fp :
  hasExplored p tool q fp = true <-> exists e, getCachedResult p tool q fp = Some e.
Proof.
  unfold hasExplored, getCachedResult. destruct (cache p !! _) as [e|].
  - split; [intros _; exists e; reflexivity | reflexivity].
  - split; [discriminate | intros [e He]; discriminate].
Qed.

(** X6: while the score of the store is between 0 and 0.25, as it is on an
    empty store, [thinkBeforeAction] tells no tool to proceed, whatever the
    tool, its parameters and the phase: an action that is cached is never
    re-run, and one that is not has a confidence of at most 0.6. *)
Theorem thinkBeforeAction_low_score_never_proceeds :
  forall (tool : string) (params : ToolParams) (w : World),
    0 <= confidenceScore (generateSummary (pad w)) <= 0.25 ->
    shouldProceed (fst (thinkBeforeAction tool params w)) = false.
Proof.
  intros tool params w [Hlo Hhi].
  destruct (hasExplored (pad w) tool (extractQueryFromTool tool params) (p_path params))
    eqn:Hc.
  - apply hasExplored_getCachedResult in Hc. destruct Hc as [e He].
    apply (thinkBeforeAction_cached _ _ _ _ He).
  - destruct (thinkBeforeAction_uncached tool params w Hc) as [_ Hp]. rewrite Hp.
    unfold JS.gt, JS.lt. apply negb_false_iff, Qle_bool_iff.
    eapply Qle_trans.
    + apply calculateActionConfidence_le; [|exact Hlo].
      split; [|apply evaluateToolRelevance_le].
      pose proof (evaluateToolRelevance_ge tool (currentPhase (pad w))
                    (generateSummary (pad w))). lra.
    + apply Qle_shift_div_r; lra.
Qed.

Lemma thinkBeforeAction_low_score_never_proceeds_witness :
  shouldProceed (fst (thinkBeforeAction ClineDefaultTool.LIST_FILES
                        (mkParams None None (Some "src") "{}") freshWorld)) = false.
Proof.
  apply thinkBeforeAction_low_score_never_proceeds. vm_compute.
  split; intros H; discriminate H.
Defined.

(** X7: [thinkBeforeAction] leaves the scratchpad and the thinking system
    as they are and appends exactly one step to the engine's log, in the
    phase of the store: ["cache_check"] with confidence 0.9 on a cache hit,
    ["tool_evaluation"] with the returned confidence otherwise; and the
    confidence it returns is never above 1 when the action is not cached. *)
Theorem thinkBeforeAction_appends_one_step :
  forall (tool : string) (params : ToolParams) (w : World),
    let hit := hasExplored (pad w) tool (extractQueryFromTool tool params) (p_path params) in
    let v := fst (thinkBeforeAction tool params w) in
    let w' := snd (thinkBeforeAction tool params w) in
    pad w' = pad w /\ system w' = system w /\
    (exists step : ThinkingStep,
       thinkingSteps (engine w') = thinkingSteps (engine w) ++ [step] /\
       ts_phase step = currentPhase (pad w) /\
       ts_action step = (if hit then "cache_check" else "tool_evaluation") /\
       ts_confidence step = (if hit then 0.9 else av_confidence v)) /\
    (hit = false -> av_confidence v <= 1).
Proof.
  intros tool params w hit v w'. subst v w'. unfold thinkBeforeAction.
  rewrite !run_bind. cbn [get_pad fst snd]. fold hit. unfold getCurrentPhase.
  destruct hit.
  - rewrite !run_bind, addThinkingStep_run. cbn [fst snd pad system engine thinkingSteps].
    repeat split; try discriminate. eexists. repeat split.
  - rewrite !run_bind, addThinkingStep_run. cbn [fst snd pad system engine thinkingSteps
      av_confidence ret].
    repeat split.
    + eexists. repeat split.
    + intros _. unfold calculateActionConfidence. apply Q.le_min_l.
Qed.

(** ** The result analysis of the engine *)

Lemma analyzeResult_result tool params response w :
  let r := fst (analyzeResult tool params response w) in
  shouldTransition r = shouldTransitionPhase (currentPhase (pad w)) (generateSummary (pad w)) /\
  insights r = extractInsightsFromResult tool response params.
Proof.
  cbv zeta. unfold analyzeResult. rewrite !run_bind. cbn [get_pad fst snd].
  unfold getCurrentPhase. split; reflexivity.
Qed.

Lemma analyzeResult_pad tool params response w :
  pad (snd (analyzeResult tool params response w)) =
    pad (snd (addEntry {| toolName := tool;
                          query := extractQueryFromTool tool params;
                          result := response;
                          confidence := calculateResultConfidence response;
                          tags := generateResultTags tool params;
                          filePath := p_path params;
                          relevance := 1.0;
                          toolParams := params |} w)).
Proof.
  unfold analyzeResult. rewrite !run_bind. cbn [get_pad fst snd].
  rewrite addThinkingStep_run. reflexivity.
Qed.

(** X8: [analyzeResult] stores one entry, whose confidence is 0.3, 0.7, 0.8
    or 0.9, keeps the phase, and decides [shouldTransition] on the summary
    read before that entry was stored: in phase EXPLORE a transition is
    signalled only if the store already held five entries before the call,
    so the store holds at least six when it is signalled. *)
Theorem analyzeResult_signals_transition_late :
  forall (tool : string) (params : ToolParams) (response : ToolResponse) (w : World),
    let r := fst (analyzeResult tool params response w) in
    let w' := snd (analyzeResult tool params response w) in
    length (entries (pad w')) = S (length (entries (pad w))) /\
    currentPhase (pad w') = currentPhase (pad w) /\
    In (calculateResultConfidence response) [0.3; 0.7; 0.8; 0.9] /\
    shouldTransition r =
      shouldTransitionPhase (currentPhase (pad w)) (generateSummary (pad w)) /\
    (currentPhase (pad w) = EXPLORE -> shouldTransition r = true ->
     (6 <= totalEntries (generateSummary (pad w')))%Z).
Proof.
  intros tool params response w r w'.
  pose proof (analyzeResult_result tool params response w) as [Ht _]. fold r in Ht.
  pose proof (analyzeResult_pad tool params response w) as Hpad. fold w' in Hpad.
  pose proof (addEntry_length_phase
                {| toolName := tool;
                   query := extractQueryFromTool tool params;
                   result := response;
                   confidence := calculateResultConfidence response;
                   tags := generateResultTags tool params;
                   filePath := p_path params;
                   relevance := 1.0;
                   toolParams := params |} w) as (Hlen & Hph).
  rewrite <- Hpad in Hlen, Hph.
  split; [exact Hlen|]. split; [exact Hph|]. split; [|split; [exact Ht|]].
  - unfold calculateResultConfidence. destruct response as [s|c j]; cbn [In].
    + destruct (_ || _); [auto|]. destruct (_ <? _)%nat; auto.
    + auto.
  - intros Hexp Htrue. rewrite Ht, Hexp in Htrue. cbn [shouldTransitionPhase] in Htrue.
    apply andb_true_iff in Htrue. destruct Htrue as [H5 _]. apply Z.leb_le in H5.
    cbn [generateSummary totalEntries] in H5 |- *. rewrite Hlen. lia.
Qed.





(** ** The loop of the thinking system *)

(** The end of the loop body, after the three branches: the reflection, the
    convergence update and the convergence test. *)
Definition convergenceCheck (Math_sqrt : Q -> Q) (continue : M LoopOutcome) : M LoopOutcome :=
  run reflectOnActionResult;
  run updateConvergenceLevel Math_sqrt;
  do s <- get_system;
  if JS.ge (convergenceLevel (conversationContext s)) (convergenceThreshold s) then
    do decision <- makeIntelligentDecision;
    run set_isThinkingActive false;
    ret (Returned decision)
  else continue.

Lemma thinkingLoop_step (Math_sqrt : Q -> Q) (fuel : nat) (maxIterations : Z) (w : World) :
  (iteration w <? maxIterations)%Z && active w = true ->
  thinkingLoop Math_sqrt (S fuel) maxIterations w =
    let w1 := snd (incrementIteration w) in
    let a := fst (analyzeCurrentSituation w1) in
    let w2 := snd (analyzeCurrentSituation w1) in
    if needsMoreExploration a then
      thinkingLoop Math_sqrt fuel maxIterations
        (snd (performIntelligentExploration (explorationStrategy a) w2))
    else if needsDeepReasoning a then
      thinkingLoop Math_sqrt fuel maxIterations (snd (performDeepReasoning w2))
    else if canMakeDecision a then
      (Returned (fst (makeIntelligentDecision w2)),
       snd (set_isThinkingActive false (snd (makeIntelligentDecision w2))))
    else convergenceCheck Math_sqrt (thinkingLoop Math_sqrt fuel maxIterations) w2.
Proof.
  intros Hcond. cbn [thinkingLoop]. rewrite run_bind. cbn [get_system fst snd].
  unfold iteration, active in Hcond. rewrite Hcond.
  rewrite run_bind. fold incrementIteration. rewrite run_bind. cbv zeta.
  destruct (needsMoreExploration _); [rewrite run_bind; reflexivity|].
  destruct (needsDeepReasoning _); [rewrite run_bind; reflexivity|].
  destruct (canMakeDecision _); [rewrite !run_bind; reflexivity|].
  reflexivity.
Qed.

Lemma set_isThinkingActive_iteration b w :
  iteration (snd (set_isThinkingActive b w)) = iteration w.
Proof. reflexivity. Qed.

Lemma set_isThinkingActive_active b w : active (snd (set_isThinkingActive b w)) = b.
Proof. reflexivity. Qed.

Section LoopRuns.

Variable Math_sqrt : Q -> Q.

Lemma iteration_after_branches (w : World) :
  let w1 := snd (incrementIteration w) in
  let a := fst (analyzeCurrentSituation w1) in
  let w2 := snd (analyzeCurrentSituation w1) in
  iteration w2 = (iteration w + 1)%Z /\ active w2 = active w /\
  iteration (snd (performIntelligentExploration (explorationStrategy a) w2))
    = (iteration w + 1)%Z /\
  active (snd (performIntelligentExploration (explorationStrategy a) w2)) = active w /\
  iteration (snd (performDeepReasoning w2)) = (iteration w + 1)%Z /\
  active (snd (performDeepReasoning w2)) = active w /\
  iteration (snd (makeIntelligentDecision w2)) = (iteration w + 1)%Z.
Proof.
  cbv zeta.
  rewrite (preserves_performIntelligentExploration iteration addThought_iteration).
  rewrite (preserves_performIntelligentExploration active addThought_active).
  rewrite (preserves_performDeepReasoning iteration Date_now_iteration addThought_iteration).
  rewrite (preserves_performDeepReasoning active Date_now_active addThought_active).
  rewrite makeIntelligentDecision_iteration.
  rewrite (preserves_analyzeCurrentSituation iteration addThought_iteration).
  rewrite (preserves_analyzeCurrentSituation active addThought_active).
  repeat split.
Qed.

(** With as much fuel as iterations are left, the loop ends by itself: by a
    return, after which the system is inactive, or because its condition
    fails; the iteration counter only grows, and not beyond
    [maxIterations] once it was not beyond it. *)
Lemma thinkingLoop_terminates (maxIterations : Z) (fuel : nat) : forall w : World,
  (maxIterations - iteration w <= Z.of_nat fuel)%Z ->
  let r := thinkingLoop Math_sqrt fuel maxIterations w in
  fst r <> OutOfFuel /\
  (iteration w <= iteration (snd r) <= Z.max (iteration w) maxIterations)%Z /\
  (fst r = Exited -> (iteration (snd r) <? maxIterations)%Z && active (snd r) = false) /\
  (forall d, fst r = Returned d -> active (snd r) = false).
Proof.
  induction fuel as [|fuel IH]; intros w Hfuel r.
  - subst r. destruct ((iteration w <? maxIterations)%Z && active w) eqn:Hcond.
    + apply andb_true_iff in Hcond. destruct Hcond as [Hlt _]. apply Z.ltb_lt in Hlt. lia.
    + rewrite (thinkingLoop_exit Math_sqrt 0 maxIterations w Hcond). cbn [fst snd].
      repeat split; try discriminate; try lia; try (intros _; exact Hcond).
  - subst r. destruct ((iteration w <? maxIterations)%Z && active w) eqn:Hcond.
    + rewrite (thinkingLoop_step Math_sqrt fuel maxIterations w Hcond). cbv zeta.
      pose proof (iteration_after_branches w) as (Hi2 & Ha2 & Hi3 & Ha3 & Hi4 & Ha4 & Hi5).
      cbv zeta in Hi2, Ha2, Hi3, Ha3, Hi4, Ha4, Hi5.
      pose proof (analyzeCurrentSituation_some_flag (snd (incrementIteration w))) as Hflag.
      cbv zeta in Hflag.
      apply andb_true_iff in Hcond. destruct Hcond as [Hlt _]. apply Z.ltb_lt in Hlt.
      destruct (needsMoreExploration _).
      { match goal with |- context [thinkingLoop _ _ _ ?x] => specialize (IH x) end.
        rewrite Hi3 in IH. specialize (IH ltac:(lia)). cbv zeta in IH.
        destruct IH as (H1 & H2 & H3 & H4). repeat split; try assumption; lia. }
      destruct (needsDeepReasoning _).
      { match goal with |- context [thinkingLoop _ _ _ ?x] => specialize (IH x) end.
        rewrite Hi4 in IH. specialize (IH ltac:(lia)). cbv zeta in IH.
        destruct IH as (H1 & H2 & H3 & H4). repeat split; try assumption; lia. }
      destruct (canMakeDecision _); [|discriminate Hflag].
      cbn [fst snd]. rewrite set_isThinkingActive_iteration, set_isThinkingActive_active, Hi5.
      repeat split; try discriminate; try lia.
    + rewrite (thinkingLoop_exit Math_sqrt (S fuel) maxIterations w Hcond). cbn [fst snd].
      repeat split; try discriminate; try lia; try (intros _; exact Hcond).
Qed.

End LoopRuns.

Lemma set_isThinkingActive_totalIterations b w :
  totalIterations (conversationContext (system (snd (set_isThinkingActive b w))))
  = totalIterations (conversationContext (system w)).
Proof. reflexivity. Qed.

Lemma thinkingLoop_totalIterations Math_sqrt fuel maxIterations w :
  totalIterations (conversationContext (system (snd (thinkingLoop Math_sqrt fuel maxIterations w))))
  = totalIterations (conversationContext (system w)).
Proof.
  apply (preserves_thinkingLoop Math_sqrt
           (fun w => totalIterations (conversationContext (system w))));
    intros; intros x; reflexivity.
Qed.

Lemma makeIntelligentDecision_totalIterations w :
  totalIterations (conversationContext (system (snd (makeIntelligentDecision w))))
  = totalIterations (conversationContext (system w)).
Proof.
  apply (preserves_makeIntelligentDecision
           (fun w => totalIterations (conversationContext (system w))));
    intros; intros x; reflexivity.
Qed.

(** The three ways in which [executeThinkingLoop] ends. *)
Lemma executeThinkingLoop_cases (Math_sqrt : Q -> Q) (maxIterations : Z) (w : World) :
  let w0 := snd (setTotalIterations maxIterations w) in
  let looped :=
    thinkingLoop Math_sqrt (Z.to_nat (maxIterations - iteration w0)) maxIterations w0 in
  let r := executeThinkingLoop Math_sqrt maxIterations w in
  (exists d, fst looped = Returned d /\ fst r = Some d /\ snd r = snd looped) \/
  (fst looped = Exited /\
   fst r = Some (fst (makeIntelligentDecision (snd looped))) /\
   snd r = snd (set_isThinkingActive false (snd (makeIntelligentDecision (snd looped))))) \/
  (fst looped = OutOfFuel /\ fst r = None /\ snd r = snd looped).
Proof.
  cbv zeta. rewrite executeThinkingLoop_unfold. cbv zeta.
  destruct (fst (thinkingLoop _ _ _ _)).
  - left. eexists. repeat split.
  - right. left. repeat split.
  - right. right. repeat split.
Qed.

(** X10: [executeThinkingLoop] always returns a decision, in at most
    [maxIterations - currentIteration] iterations: the iteration counter
    never decreases and ends at most at [maxIterations] if it started at
    most there; afterwards the thinking system is inactive and
    [totalIterations] is [maxIterations]. *)
Theorem executeThinkingLoop_returns_within_bound :
  forall (Math_sqrt : Q -> Q) (maxIterations : Z) (w : World),
    let r := executeThinkingLoop Math_sqrt maxIterations w in
    (exists d : ThinkingResult, fst r = Some d) /\
    (iteration w <= iteration (snd r) <= Z.max (iteration w) maxIterations)%Z /\
    active (snd r) = false /\
    totalIterations (conversationContext (system (snd r))) = maxIterations.
Proof.
  intros Math_sqrt m w.
  pose proof (executeThinkingLoop_cases Math_sqrt m w) as Hcases.
  cbv zeta in Hcases |- *.
  generalize dependent (executeThinkingLoop Math_sqrt m w). intros r Hcases.
  remember (snd (setTotalIterations m w)) as w0 eqn:Ew0.
  assert (Hw0 : iteration w0 = iteration w) by (subst w0; reflexivity).
  assert (Ht0 : totalIterations (conversationContext (system w0)) = m)
    by (subst w0; reflexivity).
  clear Ew0.
  pose proof (thinkingLoop_terminates Math_sqrt m (Z.to_nat (m - iteration w0)) w0
                ltac:(lia)) as (Hfuel & Hiter & Hexit & Hret).
  cbv zeta in Hfuel, Hiter, Hexit, Hret.
  pose proof (thinkingLoop_totalIterations Math_sqrt (Z.to_nat (m - iteration w0)) m w0)
    as Htotal.
  generalize dependent (thinkingLoop Math_sqrt (Z.to_nat (m - iteration w0)) m w0).
  intros looped Hcases Hfuel Hiter Hexit Hret Htotal.
  destruct Hcases as [(d & Hl & Hr & Hw) | [(Hl & Hr & Hw) | (Hl & _)]].
  - rewrite Hw. split; [eauto|]. split; [lia|]. split; [eapply Hret, Hl|]. congruence.
  - rewrite Hw, set_isThinkingActive_iteration, set_isThinkingActive_active,
      set_isThinkingActive_totalIterations, makeIntelligentDecision_iteration,
      makeIntelligentDecision_totalIterations.
    split; [eauto|]. split; [lia|]. split; [reflexivity|]. congruence.
  - congruence.
Qed.

Lemma addThought_thoughtChain td w :
  thoughtChain (system (snd (addThought td w))) =
    thoughtChain (system w)
      ++ [mkThought (clock w (reads w)) (clock w (S (reads w))) td].
Proof. reflexivity. Qed.

Lemma set_isThinkingActive_thoughtChain b w :
  thoughtChain (system (snd (set_isThinkingActive b w))) = thoughtChain (system w).
Proof. reflexivity. Qed.

Lemma get_system_run w : get_system w = (system w, w).
Proof. reflexivity. Qed.
Lemma get_pad_run w : get_pad w = (pad w, w).
Proof. reflexivity. Qed.
Lemma ret_run {A} (a : A) w : ret a w = (a, w).
Proof. reflexivity. Qed.

Lemma makeIntelligentDecision_thoughts (w : World) :
  exists t1 t2 : IntelligentThought,
    thoughtChain (system (snd (makeIntelligentDecision w))) =
      thoughtChain (system w) ++ [t1; t2] /\
    th_phase t1 = T_EXECUTE /\ th_phase t2 = T_EXECUTE /\
    th_confidence t1 = confidenceScore (generateSummary (pad w)).
Proof.
  unfold makeIntelligentDecision.
  rewrite run_bind, get_system_run. cbn [fst snd].
  rewrite run_bind, get_pad_run. cbn [fst snd].
  rewrite run_bind.
  set (td1 := mkThoughtData T_EXECUTE _ _ _ _ _ _ _).
  pose proof (addThought_thoughtChain td1 w) as H1.
  generalize dependent (snd (addThought td1 w)). intros w1 H1.
  rewrite run_bind.
  pose proof (makeFinalDecision_system w1) as Hs.
  generalize dependent (makeFinalDecision w1). intros [final w2] Hs. cbn [fst snd] in *.
  rewrite run_bind, get_system_run. cbn [fst snd].
  rewrite run_bind.
  set (td2 := mkThoughtData T_EXECUTE _ _ _ _ _ _ _).
  rewrite run_bind, get_system_run, ret_run. cbn [fst snd].
  rewrite addThought_thoughtChain, Hs, H1, <- app_assoc.
  do 2 eexists. split; [reflexivity|]. repeat split.
Qed.

(** X11: while the thinking system is inactive, as it is before
    [initializeIntelligentThinking] and after every [executeThinkingLoop],
    [executeThinkingLoop] runs no iteration: the iteration counter stays,
    the decision is the one forced after the loop, and the thought chain
    grows by the two EXECUTE thoughts of that decision only. *)
Theorem executeThinkingLoop_inactive_runs_no_iteration :
  forall (Math_sqrt : Q -> Q) (maxIterations : Z) (w : World),
    active w = false ->
    let r := executeThinkingLoop Math_sqrt maxIterations w in
    iteration (snd r) = iteration w /\
    fst r = Some (fst (makeIntelligentDecision (snd (setTotalIterations maxIterations w)))) /\
    (exists t1 t2 : IntelligentThought,
       thoughtChain (system (snd r)) = thoughtChain (system w) ++ [t1; t2] /\
       th_phase t1 = T_EXECUTE /\ th_phase t2 = T_EXECUTE).
Proof.
  intros Math_sqrt m w Hinactive r. subst r. rewrite executeThinkingLoop_unfold. cbv zeta.
  set (w0 := snd (setTotalIterations m w)).
  assert (Hcond : (iteration w0 <? m)%Z && active w0 = false).
  { change (active w0) with (active w). rewrite Hinactive. apply andb_false_r. }
  rewrite (thinkingLoop_exit Math_sqrt _ m w0 Hcond). cbn [fst snd].
  change (iteration (snd (set_isThinkingActive false ?x))) with (iteration x).
  change (thoughtChain (system (snd (set_isThinkingActive false ?x))))
    with (thoughtChain (system x)).
  rewrite makeIntelligentDecision_iteration.
  split; [reflexivity|]. split; [reflexivity|].
  destruct (makeIntelligentDecision_thoughts w0) as (t1 & t2 & H & H1 & H2 & _).
  exists t1, t2. rewrite H. repeat split; assumption.
Qed.

Lemma executeThinkingLoop_inactive_runs_no_iteration_witness :
  iteration (snd (executeThinkingLoop sqrtApprox 5 freshWorld)) = 0%Z.
Proof.
  apply (proj1 (executeThinkingLoop_inactive_runs_no_iteration sqrtApprox 5 freshWorld
                  eq_refl)).
Defined.

(** X12: [executeThinkingLoop] never changes the scratchpad (entries, cache,
    phase, start time), never consumes a registered action result and never
    changes the convergence level or the convergence threshold: every
    iteration ends in the exploration, deep-reasoning or decision branch,
    before the reflection and the convergence update. *)
Theorem executeThinkingLoop_frame :
  forall (Math_sqrt : Q -> Q) (maxIterations : Z) (w : World),
    let w' := snd (executeThinkingLoop Math_sqrt maxIterations w) in
    pad w' = pad w /\
    pendingResult w' = pendingResult w /\
    convergence w' = convergence w /\
    threshold w' = threshold w.
Proof.
  intros Math_sqrt m w w'. subst w'.
  split; [apply executeThinkingLoop_pad|].
  split; [|split; [apply executeThinkingLoop_convergence|]].
  - rewrite executeThinkingLoop_unfold. cbv zeta.
    set (w0 := snd (setTotalIterations m w)).
    assert (Hloop : pendingResult (snd (thinkingLoop Math_sqrt (Z.to_nat (m - iteration w0))
                                          m w0)) = pendingResult w).
    { change (pendingResult w) with (pendingResult w0).
      apply preserves_thinkingLoop; auto with frame; intros; intros x; reflexivity. }
    destruct (fst (thinkingLoop _ _ _ _)); cbn [snd]; try exact Hloop.
    change (pendingResult (snd (set_isThinkingActive false ?x))) with (pendingResult x).
    rewrite <- Hloop.
    apply (preserves_makeIntelligentDecision pendingResult); auto with frame;
      intros; intros x; reflexivity.
  - rewrite executeThinkingLoop_unfold. cbv zeta.
    set (w0 := snd (setTotalIterations m w)).
    assert (Hloop : threshold (snd (thinkingLoop Math_sqrt (Z.to_nat (m - iteration w0))
                                      m w0)) = threshold w).
    { change (threshold w) with (threshold w0).
      apply preserves_thinkingLoop; auto with frame; intros; intros x; reflexivity. }
    destruct (fst (thinkingLoop _ _ _ _)); cbn [snd]; try exact Hloop.
    change (threshold (snd (set_isThinkingActive false ?x))) with (threshold x).
    rewrite <- Hloop.
    apply (preserves_makeIntelligentDecision threshold); auto with frame.
Qed.

Definition thoughtCount (w : World) : nat := length (thoughtChain (system w)).

Lemma addThought_thoughtCount td w :
  thoughtCount (snd (addThought td w)) = S (thoughtCount w).
Proof.
  unfold thoughtCount. rewrite addThought_thoughtChain, length_app. cbn [length]. lia.
Qed.

Lemma analyzeCurrentSituation_thoughtCount w :
  thoughtCount (snd (analyzeCurrentSituation w)) = S (thoughtCount w).
Proof.
  unfold analyzeCurrentSituation. rewrite !run_bind. cbn [get_pad get_system fst snd].
  destruct (_ && _); [rewrite run_bind; apply addThought_thoughtCount|].
  destruct (_ && _); [rewrite run_bind; apply addThought_thoughtCount|].
  destruct (_ || _); rewrite run_bind; apply addThought_thoughtCount.
Qed.

Lemma forEachM_addThought_thoughtCount (f : string -> ThoughtData) (l : list string) :
  forall w, thoughtCount (snd (forEachM (fun x => addThought (f x)) l w))
            = (thoughtCount w + length l)%nat.
Proof.
  induction l as [|x l IH]; intros w; cbn [forEachM length].
  - cbn. lia.
  - rewrite run_bind, IH, addThought_thoughtCount. lia.
Qed.

Lemma performIntelligentExploration_thoughtCount strategy w :
  thoughtCount (snd (performIntelligentExploration strategy w))
  = (thoughtCount w + 2 + length strategy)%nat.
Proof.
  unfold performIntelligentExploration. rewrite !run_bind.
  rewrite addThought_thoughtCount.
  rewrite (forEachM_addThought_thoughtCount
             (fun explorationType =>
                {| th_phase := T_EXPLORE;
                   th_thought := [Lit "Executando exploração do tipo: "; Lit explorationType];
                   th_confidence := 0.8;
                   th_evidence := [[Lit "Tipo de exploração: "; Lit explorationType]];
                   th_triggersAction := false;
                   th_actionType := None; th_actionParams := None;
                   th_reflection := None |})).
  rewrite addThought_thoughtCount. lia.
Qed.

(** A store that is in phase EXPLORE with fewer than three entries. *)
Definition barelyExplored (p : ExplorationScratchpad) : bool :=
  (totalEntries (generateSummary p) <? 3)%Z && Phase_eqb (currentPhase p) EXPLORE.

Lemma thinkingLoop_barely_explored (Math_sqrt : Q -> Q) (maxIterations : Z) (fuel : nat) :
  forall w : World,
    active w = true -> barelyExplored (pad w) = true ->
    (maxIterations - iteration w)%Z = Z.of_nat fuel ->
    let r := thinkingLoop Math_sqrt fuel maxIterations w in
    fst r = Exited /\ iteration (snd r) = maxIterations /\ pad (snd r) = pad w /\
    active (snd r) = true /\
    thoughtCount (snd r) = (thoughtCount w + 6 * fuel)%nat.
Proof.
  induction fuel as [|fuel IH]; intros w Hactive Hfew Hfuel r; subst r.
  - rewrite thinkingLoop_exit.
    + cbn [fst snd]. repeat split; try assumption; lia.
    + replace (iteration w <? maxIterations)%Z with false; [reflexivity|].
      symmetry. apply Z.ltb_ge. lia.
  - rewrite thinkingLoop_step.
    2:{ rewrite Hactive. replace (iteration w <? maxIterations)%Z with true; [reflexivity|].
        symmetry. apply Z.ltb_lt. lia. }
    cbv zeta.
    pose proof (iteration_after_branches w) as (_ & _ & Hi3 & Ha3 & _).
    cbv zeta in Hi3, Ha3.
    assert (Hflags : fst (analyzeCurrentSituation (snd (incrementIteration w))) =
              mkSituation true false false
                ["auto_explore"; "read_key_files"; "search_patterns"] EmptyString).
    { rewrite analyzeCurrentSituation_flags.
      change (pad (snd (incrementIteration w))) with (pad w).
      unfold situationOf. unfold barelyExplored in Hfew. rewrite Hfew. reflexivity. }
    rewrite Hflags in Hi3, Ha3 |- *. cbn [needsMoreExploration explorationStrategy] in *.
    set (w3 := snd (performIntelligentExploration _ _)) in *.
    assert (Hpad3 : pad w3 = pad w).
    { subst w3. rewrite (preserves_performIntelligentExploration pad addThought_pad).
      rewrite (preserves_analyzeCurrentSituation pad addThought_pad). reflexivity. }
    assert (Hcount3 : thoughtCount w3 = (thoughtCount w + 6)%nat).
    { subst w3. rewrite performIntelligentExploration_thoughtCount.
      rewrite analyzeCurrentSituation_thoughtCount. cbn [length].
      change (thoughtCount (snd (incrementIteration w))) with (thoughtCount w). lia. }
    specialize (IH w3). rewrite Ha3, Hpad3, Hi3, Hcount3 in IH.
    specialize (IH Hactive Hfew ltac:(lia)). cbv zeta in IH.
    destruct IH as (H1 & H2 & H3 & H4 & H5). repeat split; try assumption. lia.
Qed.

(** X13: over a store in phase EXPLORE with fewer than three entries an
    active thinking system never decides inside the loop: every iteration
    explores, adding six thoughts and no entry, so [executeThinkingLoop]
    runs all [maxIterations - currentIteration] iterations, the counter
    ends at [maxIterations], and the decision is the one forced after the
    loop, two more thoughts. *)
Theorem executeThinkingLoop_barely_explored_exhausts :
  forall (Math_sqrt : Q -> Q) (maxIterations : Z) (w : World),
    active w = true -> barelyExplored (pad w) = true ->
    (iteration w <= maxIterations)%Z ->
    let w0 := snd (setTotalIterations maxIterations w) in
    let n := Z.to_nat (maxIterations - iteration w) in
    let r := executeThinkingLoop Math_sqrt maxIterations w in
    fst (thinkingLoop Math_sqrt n maxIterations w0) = Exited /\
    iteration (snd r) = maxIterations /\
    thoughtCount (snd r) = (thoughtCount w + 6 * n + 2)%nat /\
    fst r = Some (fst (makeIntelligentDecision
                         (snd (thinkingLoop Math_sqrt n maxIterations w0)))).
Proof.
  intros Math_sqrt m w Hactive Hfew Hle w0 n r.
  pose proof (thinkingLoop_barely_explored Math_sqrt m n w0 Hactive Hfew) as H.
  specialize (H ltac:(subst n; change (iteration w0) with (iteration w); lia)).
  cbv zeta in H. destruct H as (Hexit & Hiter & _ & _ & Hcount).
  subst r. rewrite executeThinkingLoop_unfold. cbv zeta. fold w0.
  change (iteration w0) with (iteration w). fold n. rewrite Hexit. cbn [fst snd].
  change (iteration (snd (set_isThinkingActive false ?x))) with (iteration x).
  change (thoughtCount (snd (set_isThinkingActive false ?x))) with (thoughtCount x).
  rewrite makeIntelligentDecision_iteration.
  repeat split; try assumption.
  destruct (makeIntelligentDecision_thoughts (snd (thinkingLoop Math_sqrt n m w0)))
    as (t1 & t2 & Hth & _).
  unfold thoughtCount at 1. rewrite Hth, length_app. cbn [length].
  fold (thoughtCount (snd (thinkingLoop Math_sqrt n m w0))). rewrite Hcount.
  change (thoughtCount w0) with (thoughtCount w). lia.
Qed.

Lemma executeThinkingLoop_barely_explored_exhausts_witness :
  iteration (snd (executeThinkingLoop sqrtApprox 3 oneEntryWorld)) = 3%Z.
Proof.
  refine (proj1 (proj2
    (executeThinkingLoop_barely_explored_exhausts sqrtApprox 3 oneEntryWorld _ _ _)));
    vm_compute; try reflexivity. discriminate.
Defined.

(** ** More on [toughReasoning] *)

Lemma toughLoop_steps_length (c : Q) (n : nat) :
  forall (cur : Q) (i : Z) (concl : Text) (steps : list Text) (w : World),
    let r := fst (toughLoop n c cur i concl steps w) in
    Z.of_nat (length (reasoningSteps r)) =
      (Z.of_nat (length steps) + 2 * (iterations r - i)
       + (if (iterations r <? i + Z.of_nat n)%Z then 3 else 0))%Z /\
    (i <= iterations r <= i + Z.of_nat n)%Z.
Proof.
  induction n as [|n IH]; intros cur i concl steps w r; subst r.
  - cbn [toughLoop ret fst reasoningSteps iterations].
    replace (i <? i + Z.of_nat 0)%Z with false by (symmetry; apply Z.ltb_ge; lia).
    lia.
  - cbn [toughLoop]. rewrite !run_bind. cbn [get_pad fst snd].
    rewrite calculateSophisticatedConfidence_run. cbn [fst snd].
    destruct (JS.ge _ c).
    + rewrite run_bind. cbn [get_pad fst snd ret reasoningSteps iterations].
      replace (i <? i + Z.of_nat (S n))%Z with true by (symmetry; apply Z.ltb_lt; lia).
      rewrite !length_app. cbn [length]. lia.
    + match goal with
      | |- context [toughLoop n c ?cur' (i + 1)%Z concl ?steps' ?w'] =>
          specialize (IH cur' (i + 1)%Z concl steps' w')
      end.
      cbv zeta in IH. destruct IH as [IH1 IH2]. rewrite IH1.
      rewrite !length_app. cbn [length].
      replace (i + 1 + Z.of_nat n)%Z with (i + Z.of_nat (S n))%Z by lia.
      lia.
Qed.

(** X14: [toughReasoning] logs two lines for each iteration that runs and
    one more when it concludes; so with [maxIterations >= 0] it returns
    [2 * iterations + 1] lines when it concludes, which is when
    [iterations <= maxIterations], and [2 * maxIterations] lines when it
    does not. *)
Theorem toughReasoning_reasoningSteps_length :
  forall (maxIterations : Z) (minConfidence : Q) (w : World),
    (0 <= maxIterations)%Z ->
    let r := fst (toughReasoning maxIterations minConfidence w) in
    (1 <= iterations r <= maxIterations + 1)%Z /\
    Z.of_nat (length (reasoningSteps r)) =
      (if (iterations r <=? maxIterations)%Z then 2 * iterations r + 1
       else 2 * maxIterations)%Z.
Proof.
  intros m c w Hm r. subst r. unfold toughReasoning.
  pose proof (toughLoop_steps_length c (Z.to_nat m) 0 1
                [Lit "Insufficient data for conclusion"] [] w) as [Hlen Hit].
  cbv zeta in Hlen, Hit. rewrite Z2Nat.id in Hlen, Hit by lia.
  split; [lia|]. rewrite Hlen. cbn [length].
  destruct (iterations _ <? 1 + m)%Z eqn:E1; destruct (iterations _ <=? m)%Z eqn:E2;
    try apply Z.ltb_lt in E1; try apply Z.ltb_ge in E1;
    try apply Z.leb_le in E2; try apply Z.leb_gt in E2; lia.
Qed.

Lemma toughReasoning_reasoningSteps_length_witness :
  Z.of_nat (length (reasoningSteps (fst (toughReasoning 5 0.1 freshWorld)))) = 5%Z.
Proof.
  refine (eq_trans (proj2 (toughReasoning_reasoningSteps_length 5 0.1 freshWorld _)) _).
  - lia.
  - vm_compute. reflexivity.
Defined.




(** ** The tough reasoning of the reasoning tool *)

Lemma performToughReasoning_pad (maxIterations : Z) (minConfidence : Q) (w : World) :
  let r := fst (toughReasoning maxIterations minConfidence w) in
  pad (snd (ReasoningToolHandler.performToughReasoning maxIterations minConfidence w)) =
    if JS.ge (tr_confidence r) minConfidence
    then mkPad (entries (pad w)) (cache (pad w)) (nextPhase (currentPhase (pad w)))
               (explorationStartTime (pad w))
    else pad w.
Proof.
  cbv zeta. unfold ReasoningToolHandler.performToughReasoning. rewrite run_bind.
  cbv zeta. destruct (JS.ge _ minConfidence).
  - rewrite run_bind, transitionToNextPhase_run. cbn [snd pad].
    rewrite toughReasoning_pad. reflexivity.
  - cbn [ret snd]. apply toughReasoning_pad.
Qed.

(** X16: the [tough_reasoning] tool keeps the entries and the cache, and
    advances the phase by one step exactly when the confidence returned by
    [toughReasoning] reaches [minConfidence]: from EXPLORE it moves to
    THINK (where its message says EXECUTE), from THINK to EXECUTE, and it
    stays at EXECUTE; otherwise the phase is unchanged. *)
Theorem performToughReasoning_advances_one_phase :
  forall (maxIterations : Z) (minConfidence : Q) (w : World),
    let r := fst (toughReasoning maxIterations minConfidence w) in
    let w' :=
      snd (ReasoningToolHandler.performToughReasoning maxIterations minConfidence w) in
    entries (pad w') = entries (pad w) /\
    cache (pad w') = cache (pad w) /\
    currentPhase (pad w') =
      (if JS.ge (tr_confidence r) minConfidence
       then nextPhase (currentPhase (pad w)) else currentPhase (pad w)) /\
    (currentPhase (pad w) = EXPLORE -> currentPhase (pad w') <> EXECUTE).
Proof.
  intros m c w r w'. subst w'. rewrite performToughReasoning_pad. fold r.
  destruct (JS.ge (tr_confidence r) c); cbn [entries cache currentPhase];
    repeat split; intros H; rewrite H; discriminate.
Qed.

(** ** Filtered entries, recommendations and the task log *)

(** The [filter] argument of [getEntries]. *)
Record EntryFilter : Type := mkFilter {
  flt_toolName : option string;
  flt_filePath : option string;
  flt_tags : option (list string);
  flt_minConfidence : option Q
}.

(** [getEntries(filter)] *)
Definition getEntriesWhere (p : ExplorationScratchpad) (filter : option EntryFilter)
  : list ExplorationEntry :=
  let filtered := entries p in
  match filter with
  | None => filtered
  | Some f =>
      let filtered :=
        match flt_toolName f with
        | Some t =>
            if JS.truthy t
            then List.filter (fun entry : ExplorationEntry => String.eqb (toolName entry) t)
                             filtered
            else filtered
        | None => filtered
        end in
      let filtered :=
        match flt_filePath f with
        | Some fp =>
            if JS.truthy fp
            then List.filter (fun entry : ExplorationEntry =>
                                match filePath entry with
                                | Some x => String.eqb x fp
                                | None => false
                                end) filtered
            else filtered
        | None => filtered
        end in
      let filtered :=
        match flt_tags f with
        | Some ts =>
            if (0 <? length ts)%nat
            then List.filter (fun entry : ExplorationEntry =>
                                existsb (fun tag => string_in tag (tags entry)) ts) filtered
            else filtered
        | None => filtered
        end in
      match flt_minConfidence f with
      | Some c => List.filter (fun entry : ExplorationEntry => JS.ge (confidence entry) c)
                              filtered
      | None => filtered
      end
  end.

(** [getExplorationRecommendations] *)
Definition getExplorationRecommendations (p : ExplorationScratchpad) : list string :=
  let summary := generateSummary p in
  (if (totalEntries summary =? 0)%Z
   then ["Start with list_files to understand project structure";
         "Use read_file on key configuration files (package.json, README, etc.)"]
   else [])
  ++ (if (filesExplored summary =? 0)%Z
      then ["Explore source code directories to understand the codebase"] else [])
  ++ (if (searchQueries summary =? 0)%Z
      then ["Perform targeted searches for key functionality"] else [])
  ++ (if JS.lt (confidenceScore summary) 0.6
      then ["Gather more evidence before proceeding to analysis"] else []).

(** What an entry must satisfy to pass a filter: every criterion that is
    given, where an empty tool name, file path or tag list counts as not
    given. *)
Definition passes (f : EntryFilter) (entry : ExplorationEntry) : bool :=
  match flt_toolName f with
  | Some t => if JS.truthy t then String.eqb (toolName entry) t else true
  | None => true
  end
  && match flt_filePath f with
     | Some fp =>
         if JS.truthy fp
         then match filePath entry with Some x => String.eqb x fp | None => false end
         else true
     | None => true
     end
  && match flt_tags f with
     | Some ts =>
         if (0 <? length ts)%nat
         then existsb (fun tag => string_in tag (tags entry)) ts else true
     | None => true
     end
  && match flt_minConfidence f with
     | Some c => JS.ge (confidence entry) c
     | None => true
     end.

Lemma filter_filter {A} (f g : A -> bool) (l : list A) :
  List.filter g (List.filter f l) = List.filter (fun x => f x && g x) l.
Proof.
  induction l as [|x l IH]; cbn [List.filter]; [reflexivity|].
  destruct (f x); cbn [List.filter andb]; [destruct (g x)|]; rewrite IH; reflexivity.
Qed.

Lemma filter_true {A} (l : list A) : List.filter (fun _ => true) l = l.
Proof. induction l as [|x l IH]; cbn [List.filter]; [|rewrite IH]; reflexivity. Qed.

(** X17: [getEntries(filter)] returns, in the order of the log, exactly the
    entries that satisfy every criterion that is given (tool name, file
    path, one of the tags, minimum confidence), an empty tool name, file
    path or tag list counting as not given; without a filter it returns
    the whole log. *)
Theorem getEntries_filter_characterisation :
  forall (p : ExplorationScratchpad) (f : EntryFilter),
    getEntriesWhere p (Some f) = List.filter (passes f) (entries p) /\
    getEntriesWhere p None = entries p /\
    (forall e, In e (getEntriesWhere p (Some f)) <-> In e (entries p) /\ passes f e = true) /\
    (length (getEntriesWhere p (Some f)) <= length (entries p))%nat.
Proof.
  intros p f.
  assert (E : getEntriesWhere p (Some f) = List.filter (passes f) (entries p)).
  { unfold getEntriesWhere, passes. cbv zeta. set (l := entries p).
    destruct (flt_toolName f) as [t|]; [destruct (JS.truthy t)|];
      (destruct (flt_filePath f) as [fp|]; [destruct (JS.truthy fp)|]);
      (destruct (flt_tags f) as [ts|]; [destruct (0 <? length ts)%nat|]);
      (destruct (flt_minConfidence f) as [c|]);
      rewrite ?filter_filter;
      first [ apply List.filter_ext
            | rewrite <- (filter_true l) at 1; apply List.filter_ext ];
      intros a; cbn [andb]; rewrite ?andb_true_r, ?andb_assoc; reflexivity. }
  split; [exact E|]. split; [reflexivity|]. split.
  - intros e. rewrite E. apply List.filter_In.
  - rewrite E. apply List.filter_length_le.
Qed.

(** X18: [getExplorationRecommendations] recommends nothing exactly when the
    store holds a file entry (read or listing), holds a search entry and
    has a score of at least 0.6; on an empty store it gives all five
    recommendations. *)
Theorem getExplorationRecommendations_none_iff :
  forall p : ExplorationScratchpad,
    (getExplorationRecommendations p = [] <->
     (0 < filesExplored (generateSummary p))%Z /\
     (0 < searchQueries (generateSummary p))%Z /\
     0.6 <= confidenceScore (generateSummary p)) /\
    (entries p = [] -> length (getExplorationRecommendations p) = 5%nat).
Proof.
  intros p. pose proof (generateSummary_count_bounds p) as (Hl & Hs & Hsum). split.
  - assert (Hscore : JS.lt (confidenceScore (generateSummary p)) 0.6 = false <->
                     0.6 <= confidenceScore (generateSummary p)).
    { unfold JS.lt. rewrite negb_false_iff. apply Qle_bool_iff. }
    unfold getExplorationRecommendations. cbv zeta.
    destruct (totalEntries (generateSummary p) =? 0)%Z eqn:Et;
      [apply Z.eqb_eq in Et | apply Z.eqb_neq in Et];
    (destruct (filesExplored (generateSummary p) =? 0)%Z eqn:Ef;
      [apply Z.eqb_eq in Ef | apply Z.eqb_neq in Ef]);
    (destruct (searchQueries (generateSummary p) =? 0)%Z eqn:Es;
      [apply Z.eqb_eq in Es | apply Z.eqb_neq in Es]);
    (destruct (JS.lt (confidenceScore (generateSummary p)) 0.6) eqn:Ec);
    cbn [app]; split; intros H;
      first [ discriminate H
            | reflexivity
            | exfalso; destruct H as (H1 & H2 & H3); lia
            | exfalso; destruct H as (H1 & H2 & H3);
              apply Hscore in H3; discriminate H3
            | split; [lia | split; [lia | apply Hscore; reflexivity]] ].
  - intros Hempty. unfold getExplorationRecommendations, generateSummary, count.
    cbv zeta. cbn [totalEntries filesExplored searchQueries confidenceScore].
    rewrite Hempty. reflexivity.
Qed.

(** X19: [initializeTask] drops the steps logged so far and records the
    task: afterwards the log holds the ["task_received"] step alone when
    the store has entries, and that step followed by ["no_prior_knowledge"]
    when the store is empty; the scratchpad is unchanged. *)
Theorem initializeTask_restarts_log :
  forall (task : string) (w : World),
    let w' := snd (initializeTask task w) in
    pad w' = pad w /\
    currentTask (engine w') = task /\
    startTime (engine w') = clock w (reads w) /\
    map ts_action (thinkingSteps (engine w')) =
      (if (totalEntries (generateSummary (pad w)) =? 0)%Z
       then ["task_received"; "no_prior_knowledge"] else ["task_received"]) /\
    map ts_confidence (thinkingSteps (engine w')) =
      (if (totalEntries (generateSummary (pad w)) =? 0)%Z then [0.5; 0.3] else [0.5]).
Proof.
  intros task w w'. subst w'. unfold initializeTask.
  rewrite !run_bind. cbn [Date_now put_engine fst snd]. rewrite addThinkingStep_run.
  cbn [fst snd get_pad pad].
  destruct (totalEntries (generateSummary (pad w)) =? 0)%Z.
  - rewrite addThinkingStep_run. cbn. repeat split.
  - cbn. repeat split.
Qed.

(** X20: [ThinkingEngine.truncateResult] returns a payload of at most 100
    characters as it is, and otherwise its first 100 characters followed by
    an ellipsis, 103 characters in all. *)
Theorem engine_truncateResult_bounds :
  forall r : ToolResponse,
    let payload := responseText r in
    ((String.length payload <= 100)%nat -> truncateResult r = payload) /\
    ((100 < String.length payload)%nat ->
     truncateResult r = JS.substring0 100 payload +:+ "..." /\
     String.length (truncateResult r) = 103%nat) /\
    (String.length (truncateResult r) <= 103)%nat.
Proof.
  intros r payload.
  assert (G : forall n s, (n <= String.length s)%nat ->
                          String.length (JS.substring0 n s) = n).
  { unfold JS.substring0. induction n as [|n IH]; intros [|c s] Hs; cbn in Hs |- *;
      try reflexivity; try lia. rewrite IH by lia. reflexivity. }
  unfold truncateResult. fold (responseText r). fold payload.
  destruct (100 <? String.length payload)%nat eqn:E;
    [apply Nat.ltb_lt in E | apply Nat.ltb_ge in E].
  - split; [intros; lia|]. split.
    + intros _. split; [reflexivity|]. rewrite length_string_app, G by lia. reflexivity.
    + rewrite length_string_app, G by lia. cbn [String.length]. lia.
  - split; [reflexivity|]. split; [intros; lia | lia].
Qed.

(** ** Initialisation and reflection of the thinking system *)

(** X21: [initializeIntelligentThinking] activates the thinking system and
    resets its iteration counter, keeps the thoughts logged so far and adds
    two THINK thoughts, the first with confidence 0.5 and the second with
    the score of the store; it leaves the scratchpad, the engine, the
    pending result and the convergence level as they are. *)
Theorem initializeIntelligentThinking_activates :
  forall (task : string) (w : World),
    let w' := snd (initializeIntelligentThinking task w) in
    active w' = true /\ iteration w' = 0%Z /\
    taskDescription (conversationContext (system w')) = task /\
    pad w' = pad w /\ engine w' = engine w /\
    pendingResult w' = pendingResult w /\ convergence w' = convergence w /\
    (exists t1 t2 : IntelligentThought,
       thoughtChain (system w') = thoughtChain (system w) ++ [t1; t2] /\
       th_phase t1 = T_THINK /\ th_phase t2 = T_THINK /\
       th_confidence t1 = 0.5 /\
       th_confidence t2 = confidenceScore (generateSummary (pad w))).
Proof.
  intros task w w'. subst w'. unfold initializeIntelligentThinking.
  rewrite !run_bind. cbn [get_pad fst snd].
  set (w1 := snd (set_isThinkingActive true (snd (set_context _ w)))).
  rewrite !addThought_run. cbv zeta.
  cbn [snd active iteration taskDescription conversationContext system pad engine
       pendingResult convergence isThinkingActive currentIteration lastActionResult
       convergenceLevel thoughtChain].
  repeat split.
  do 2 eexists. rewrite <- app_assoc. split; [reflexivity|]. repeat split.
Qed.

(** X22: [reflectOnActionResult] after [registerActionResult(result)]: for a
    result other than the empty string it logs exactly one REFLECT thought,
    of confidence 0.4, 0.9 or 0.6, and clears the pending result; for the
    empty string, which is falsy, it logs nothing and the result stays
    pending.  A later registration replaces an earlier one. *)
Theorem reflectOnActionResult_consumes_pending_result :
  forall (response earlier : ToolResponse) (w : World),
    let w1 := snd (registerActionResult response (snd (registerActionResult earlier w))) in
    let w2 := snd (reflectOnActionResult w1) in
    pendingResult w1 = Some response /\
    (responseTruthy response = true ->
     pendingResult w2 = None /\
     thoughtCount w2 = S (thoughtCount w) /\
     (exists t : IntelligentThought,
        thoughtChain (system w2) = thoughtChain (system w) ++ [t] /\
        th_phase t = T_REFLECT /\
        th_confidence t = rf_confidence (analyzeActionResult response) /\
        In (th_confidence t) [0.4; 0.9; 0.6])) /\
    (responseTruthy response = false -> w2 = w1).
Proof.
  intros response earlier w w1 w2. split; [reflexivity|]. split.
  - intros Htruthy. subst w2. unfold reflectOnActionResult.
    rewrite run_bind. cbn [get_system fst snd].
    change (lastActionResult (conversationContext (system w1))) with (Some response).
    cbv iota beta. rewrite Htruthy. cbn [negb]. rewrite run_bind, addThought_run. cbv zeta.
    cbn [snd]. unfold thoughtCount.
    cbn [pendingResult set_context bind get_system put_system snd system
         conversationContext lastActionResult thoughtChain].
    change (thoughtChain (system w1)) with (thoughtChain (system w)).
    split; [reflexivity|]. split; [rewrite length_app; cbn [length]; lia|].
    eexists. split; [reflexivity|]. split; [reflexivity|]. split; [reflexivity|].
    cbn [th_data th_confidence]. unfold analyzeActionResult.
    destruct (_ || _); [cbn; auto|]. destruct (_ <? _)%nat; cbn; auto.
  - intros Hfalsy. subst w2. unfold reflectOnActionResult.
    rewrite run_bind. cbn [get_system fst snd].
    change (lastActionResult (conversationContext (system w1))) with (Some response).
    cbv iota beta. rewrite Hfalsy. reflexivity.
Qed.
